(** * autorunner: the auto clicker of [autorunner/cli.py] and [autorunner/config.py]

    A shallow embedding of the [AutoClicker] class: the screen-size
    reconciliation of [_verify_screen_dimensions], the template lookup and
    safe-click resolution of [find_and_click], and the two-state polling
    loop of [run_rounds].

    - Python [int] is [Z]; Python [float] is an IEEE 754 binary64 value,
      taken from the axiom-free specification [SpecFloat] of the standard
      library, with round-to-nearest-even division.
    - Python exceptions are a sum type: a computation returns [Ok v] or
      [Raise e]; [KeyboardInterrupt] is kept apart from the subclasses of
      [Exception] because [except Exception] does not catch it.
    - pyautogui, [time.sleep] and the file system are external: they are an
      interface ([Desktop]) over an abstract world, and every call is
      recorded, with its outcome, in a transcript. *)

From Stdlib Require Import ZArith List String Ascii Bool Lia.
From Stdlib Require Import Floats.SpecFloat.
Import ListNotations.

Local Open Scope string_scope.
Local Open Scope Z_scope.

(** ** Exceptions and results *)

(** [str] is what [str(e)] gives for an instance of [Exception]. *)
Inductive exn : Type :=
| KeyboardInterrupt
| PyException (str : string).

Inductive result (A : Type) : Type :=
| Ok (a : A)
| Raise (e : exn).

Arguments Ok {A} a.
Arguments Raise {A} e.

(** [sub in s] on Python strings. *)
Definition contains (sub s : string) : bool :=
  match String.index 0 sub s with
  | Some _ => true
  | None => false
  end.

(** ** Python floats *)

Definition float : Type := spec_float.

Module Float.

Definition prec : Z := 53.
Definition emax : Z := 1024.

(** An integer as an unrounded binary value [m * 2^0]. *)
Definition raw (z : Z) : float :=
  match z with
  | Z0 => S754_zero false
  | Zpos p => S754_finite false p 0
  | Zneg p => S754_finite true p 0
  end.

(** A decimal literal [n/d], rounded to the nearest double. *)
Definition lit (n d : Z) : float := SFdiv prec emax (raw n) (raw d).

Definition one : float := Eval vm_compute in lit 1 1.      (* 1.0 *)

Definition eqb (f g : float) : bool := SFeqb f g.

Definition is_zero (f : float) : bool :=
  match f with
  | S754_zero _ => true
  | _ => false
  end.

(** [a / b] on two ints: the correctly rounded quotient. *)
Definition int_truediv (a b : Z) : result float :=
  if b =? 0 then Raise (PyException "division by zero")
  else match SFdiv prec emax (raw a) (raw b) with
       | S754_infinity _ =>
           Raise (PyException "integer division result too large for a float")
       | q => Ok q
       end.

(** [float(z)], as done implicitly by [z / f]. *)
Definition of_int (z : Z) : result float :=
  match binary_normalize prec emax z 0 false with
  | S754_infinity _ => Raise (PyException "int too large to convert to float")
  | f => Ok f
  end.

(** [z / f] with [z] an int and [f] a float. *)
Definition int_div_float (z : Z) (f : float) : result float :=
  match of_int z with
  | Raise e => Raise e
  | Ok fz =>
      if is_zero f then Raise (PyException "float division by zero")
      else Ok (SFdiv prec emax fz f)
  end.

(** [int(f)]: truncation toward zero. *)
Definition to_int (f : float) : result Z :=
  match f with
  | S754_zero _ => Ok 0
  | S754_infinity _ => Raise (PyException "cannot convert float infinity to integer")
  | S754_nan => Raise (PyException "cannot convert float NaN to integer")
  | S754_finite s m e =>
      let a := match e with
               | Zneg p => Z.shiftr (Zpos m) (Zpos p)
               | _ => Z.shiftl (Zpos m) e
               end in
      Ok (if s then - a else a)
  end.

(** [int(z / f)] *)
Definition int_of_div (z : Z) (f : float) : result Z :=
  match int_div_float z f with
  | Raise e => Raise e
  | Ok q => to_int q
  end.

End Float.

(** The argument of [time.sleep]: an int or a float number of seconds. *)
Inductive num : Type :=
| Int (z : Z)
| Flt (f : float).

(** ** Configuration ([config.py] and the module-level code of [cli.py]) *)

Module Config.

(** The attributes of the class [Config].  Those that [config.py] may or
    may not define, and that the code reads through [hasattr] or
    [getattr] with a default, are options: [None] is a missing
    attribute. *)
Record t : Type := mk {
  images_dir : string;
  start_button_img : string;
  end_button_img : string;
  end_button_alt_img : string;
  startup_delay : Z;
  round_wait_time : Z;
  between_rounds_wait_time : Z;
  retry_delay : Z;
  confidence_threshold : option float;
  num_rounds : Z;
  debug_mode : option bool;
  resize_images : option bool;
  max_failures_before_center_click : option Z
}.

Definition set_debug_mode (b : bool) (c : t) : t :=
  mk (images_dir c) (start_button_img c) (end_button_img c)
     (end_button_alt_img c) (startup_delay c) (round_wait_time c)
     (between_rounds_wait_time c) (retry_delay c) (confidence_threshold c)
     (num_rounds c) (Some b) (resize_images c)
     (max_failures_before_center_click c).

Definition set_confidence_threshold (f : float) (c : t) : t :=
  mk (images_dir c) (start_button_img c) (end_button_img c)
     (end_button_alt_img c) (startup_delay c) (round_wait_time c)
     (between_rounds_wait_time c) (retry_delay c) (Some f)
     (num_rounds c) (debug_mode c) (resize_images c)
     (max_failures_before_center_click c).

Definition set_resize_images (b : bool) (c : t) : t :=
  mk (images_dir c) (start_button_img c) (end_button_img c)
     (end_button_alt_img c) (startup_delay c) (round_wait_time c)
     (between_rounds_wait_time c) (retry_delay c) (confidence_threshold c)
     (num_rounds c) (debug_mode c) (Some b)
     (max_failures_before_center_click c).

(** [hasattr(Config, name)] for an optional attribute. *)
Definition hasattr {A : Type} (attr : option A) : bool :=
  match attr with
  | Some _ => true
  | None => false
  end.

(** [getattr(config, name, default)] *)
Definition getattr {A : Type} (attr : option A) (default : A) : A :=
  match attr with
  | Some v => v
  | None => default
  end.

(** The class body of [config.py]. *)
Definition Config : t :=
  {| images_dir := "images";
     start_button_img := "start_button.png";
     end_button_img := "end_button.png";
     end_button_alt_img := "end_button_alt.png";
     startup_delay := 5;
     round_wait_time := 30;
     between_rounds_wait_time := 3;
     retry_delay := 2;
     confidence_threshold := Some (Float.lit 8 10);
     num_rounds := 10;
     debug_mode := None;
     resize_images := None;
     max_failures_before_center_click := None |}.

(** The three guarded assignments at the top of [cli.py], run when the
    module is imported. *)
Definition cli_defaults (c : t) : t :=
  let c := if negb (hasattr (debug_mode c)) then set_debug_mode false c else c in
  let c := if negb (hasattr (confidence_threshold c))
           then set_confidence_threshold (Float.lit 9 10) c else c in
  if negb (hasattr (resize_images c)) then set_resize_images false c else c.

End Config.

(** ** The external collaborators *)

(** A match rectangle of [pyautogui.locateOnScreen]. *)
Record Box : Type := mkBox { left : Z; top : Z; width : Z; height : Z }.

(** [pyautogui.center(location)]: the library computes
    [(left + int(width / 2), top + int(height / 2))]. *)
Definition center (b : Box) : Z * Z :=
  (left b + Z.quot (width b) 2, top b + Z.quot (height b) 2).

(** The log lines that report an error or a round count; the other lines
    of the log are not recorded. *)
Inductive log_line : Type :=
| LogVerifyError (e : string)        (* "Error verifying screen dimensions: {e}" *)
| LogFindError (description e : string)  (* "Error finding {description}: {e}" *)
| LogCompleted (rounds : Z)          (* "Completed round {rounds_completed}" *)
| LogInterrupted (rounds : Z)        (* "Process interrupted by user after {n} rounds" *)
| LogExecutionError (e : string).    (* "Error during execution: {e}" *)

(** One call of an external operation, with its arguments and its outcome. *)
Inductive event : Type :=
| ELog (l : log_line)                              (* logger.info / warning / error *)
| ESize (r : result (Z * Z))                       (* pyautogui.size() *)
| EScreenshot (r : result (Z * Z))                 (* pyautogui.screenshot().size *)
| ELocate (image : string) (confidence : option float)
          (r : result (option Box))                (* pyautogui.locateOnScreen *)
| EMoveTo (x y : Z) (r : result unit)              (* pyautogui.moveTo(x, y, duration=0.3) *)
| EClick (r : result unit)                         (* pyautogui.click() *)
| ESleep (secs : num) (r : result unit)            (* time.sleep *)
| ESaveScreen (description : string) (r : result unit)
                                                   (* screenshot().save(debug_...png) *)
| EDebugClick (x y : Z) (description : string) (r : result unit)
                                                   (* body of _debug_click_position *)
| EScaleImage (image : string) (r : result (option string)).
                                                   (* loop body of prepare_scaled_images *)

(** The desktop the program runs on.  Every operation takes the world
    and returns its outcome with the next world, so that an answer may
    depend on everything that happened before. *)
Class Desktop (World : Type) : Type := {
  size : World -> result (Z * Z) * World;
  screenshot : World -> result (Z * Z) * World;
  locateOnScreen : string -> option float -> World -> result (option Box) * World;
  moveTo : Z -> Z -> World -> result unit * World;
  click : World -> result unit * World;
  sleep : num -> World -> result unit * World;
  save_screen : string -> World -> result unit * World;
  debug_click_image : Z -> Z -> string -> World -> result unit * World;
  scale_image : string -> World -> result (option string) * World;
  path_exists : string -> World -> bool;
  path_is_file : string -> World -> bool
}.

(** ** The object and the program state *)

(** The attributes of an [AutoClicker].  [start_button_failures] is
    created by the first failed start lookup; [None] is the attribute
    not yet there ([hasattr] false). *)
Record AutoClicker : Type := mkAutoClicker {
  config : Config.t;
  start_button_img : string;
  end_button_img : string;
  end_button_alt_img : string;
  screen_width : Z;
  screen_height : Z;
  scale_factor_x : float;
  scale_factor_y : float;
  has_alt_end_button : bool;
  start_button_failures : option Z
}.

(** [images_dir / name] *)
Definition path_join (dir name : string) : string := dir ++ "/" ++ name.

Section Program.

Context {World : Type} {desktop : Desktop World}.

(** The object, the two locals of [run_rounds], and the world. *)
Record State : Type := mkState {
  self : AutoClicker;
  rounds_completed : Z;
  looking_for_end_button : bool;
  world : World
}.

Definition with_self (f : AutoClicker -> AutoClicker) (s : State) : State :=
  mkState (f (self s)) (rounds_completed s) (looking_for_end_button s) (world s).
Definition with_world (w : World) (s : State) : State :=
  mkState (self s) (rounds_completed s) (looking_for_end_button s) w.
Definition with_rounds_completed (n : Z) (s : State) : State :=
  mkState (self s) n (looking_for_end_button s) (world s).
Definition with_looking_for_end_button (b : bool) (s : State) : State :=
  mkState (self s) (rounds_completed s) b (world s).

Definition set_scale_factor_x (f : float) (a : AutoClicker) : AutoClicker :=
  mkAutoClicker (config a) (start_button_img a) (end_button_img a)
    (end_button_alt_img a) (screen_width a) (screen_height a)
    f (scale_factor_y a) (has_alt_end_button a) (start_button_failures a).
Definition set_scale_factor_y (f : float) (a : AutoClicker) : AutoClicker :=
  mkAutoClicker (config a) (start_button_img a) (end_button_img a)
    (end_button_alt_img a) (screen_width a) (screen_height a)
    (scale_factor_x a) f (has_alt_end_button a) (start_button_failures a).
Definition set_screen (w h : Z) (a : AutoClicker) : AutoClicker :=
  mkAutoClicker (config a) (start_button_img a) (end_button_img a)
    (end_button_alt_img a) w h
    (scale_factor_x a) (scale_factor_y a) (has_alt_end_button a)
    (start_button_failures a).
Definition set_has_alt_end_button (b : bool) (a : AutoClicker) : AutoClicker :=
  mkAutoClicker (config a) (start_button_img a) (end_button_img a)
    (end_button_alt_img a) (screen_width a) (screen_height a)
    (scale_factor_x a) (scale_factor_y a) b (start_button_failures a).
Definition set_start_button_failures (n : Z) (a : AutoClicker) : AutoClicker :=
  mkAutoClicker (config a) (start_button_img a) (end_button_img a)
    (end_button_alt_img a) (screen_width a) (screen_height a)
    (scale_factor_x a) (scale_factor_y a) (has_alt_end_button a) (Some n).
Definition set_images (st en alt : string) (a : AutoClicker) : AutoClicker :=
  mkAutoClicker (config a) st en alt (screen_width a) (screen_height a)
    (scale_factor_x a) (scale_factor_y a) (has_alt_end_button a)
    (start_button_failures a).

(** *** A state, exception and transcript monad *)

(** What a computation leaves behind: its result, the state it stopped
    in (an exception does not undo assignments) and the external calls
    it made, in order. *)
Record outcome (A : Type) : Type := mkOutcome {
  res : result A;
  final : State;
  events : list event
}.
Arguments mkOutcome {A} res final events.
Arguments res {A} o.
Arguments final {A} o.
Arguments events {A} o.

Definition M (A : Type) : Type := State -> outcome A.

Definition ret {A : Type} (a : A) : M A := fun s => mkOutcome (Ok a) s [].

Definition raise {A : Type} (e : exn) : M A := fun s => mkOutcome (Raise e) s [].

Definition bind {A B : Type} (m : M A) (k : A -> M B) : M B :=
  fun s =>
    match m s with
    | mkOutcome (Ok a) s1 evs1 =>
        match k a s1 with
        | mkOutcome r s2 evs2 => mkOutcome r s2 (evs1 ++ evs2)
        end
    | mkOutcome (Raise e) s1 evs1 => mkOutcome (Raise e) s1 evs1
    end.

(** [try: body  except Exception as e: handler(str(e))] *)
Definition try_except {A : Type} (body : M A) (handler : string -> M A) : M A :=
  fun s =>
    match body s with
    | mkOutcome (Raise (PyException e)) s1 evs1 =>
        match handler e s1 with
        | mkOutcome r s2 evs2 => mkOutcome r s2 (evs1 ++ evs2)
        end
    | o => o
    end.

Definition lift {A : Type} (r : result A) : M A :=
  fun s => mkOutcome r s [].

Definition get : M State := fun s => mkOutcome (Ok s) s [].

Definition modify (f : State -> State) : M unit :=
  fun s => mkOutcome (Ok tt) (f s) [].

(** A call of an external operation. *)
Definition call {A : Type} (op : World -> result A * World)
    (ev : result A -> event) : M A :=
  fun s =>
    let (r, w) := op (world s) in
    mkOutcome r (with_world w s) [ev r].

Definition logger (l : log_line) : M unit :=
  fun s => mkOutcome (Ok tt) s [ELog l].

(** Reading an attribute that may be missing: [AttributeError]. *)
Definition attr {A : Type} (name : string) (a : option A) : M A :=
  match a with
  | Some v => ret v
  | None => raise (PyException ("type object 'Config' has no attribute '" ++ name ++ "'"))
  end.

End Program.

Arguments State World : clear implicits.
Arguments M World A : clear implicits.
Arguments outcome World A : clear implicits.
Arguments mkOutcome {World A} res final events.
Arguments res {World A} o.
Arguments final {World A} o.
Arguments events {World A} o.

Declare Scope py_scope.
Delimit Scope py_scope with py.
Notation "x <- c ;; k" := (bind c (fun x => k))
  (at level 100, c at next level, right associativity) : py_scope.
Notation "c ;; k" := (bind c (fun _ => k))
  (at level 100, right associativity) : py_scope.

(** ** The methods of [AutoClicker] *)

Section Methods.

Context {World : Type} {desktop : Desktop World}.

Local Open Scope py_scope.

Let M := M World.

(** *** External calls, recorded in the transcript *)

Definition pyautogui_size : M (Z * Z) := call size ESize.
Definition pyautogui_screenshot_size : M (Z * Z) := call screenshot EScreenshot.
Definition pyautogui_locateOnScreen (image : string) (confidence : option float)
  : M (option Box) :=
  call (locateOnScreen image confidence) (ELocate image confidence).
Definition pyautogui_moveTo (x y : Z) : M unit := call (moveTo x y) (EMoveTo x y).
Definition pyautogui_click : M unit := call click EClick.
Definition time_sleep (secs : num) : M unit := call (sleep secs) (ESleep secs).
Definition save_debug_screen (description : string) : M unit :=
  call (save_screen description) (ESaveScreen description).

(** *** [_verify_screen_dimensions] *)

Definition _verify_screen_dimensions : M unit :=
  try_except
    (sz <- pyautogui_screenshot_size ;;
     let (actual_width, actual_height) := sz in
     s <- get ;;
     if negb (actual_width =? screen_width (self s))
        || negb (actual_height =? screen_height (self s))
     then
       fx <- lift (Float.int_truediv actual_width (screen_width (self s))) ;;
       modify (with_self (set_scale_factor_x fx)) ;;
       fy <- lift (Float.int_truediv actual_height (screen_height (self s))) ;;
       modify (with_self (set_scale_factor_y fy)) ;;
       modify (with_self (set_screen actual_width actual_height))
     else ret tt)
    (fun e => logger (LogVerifyError e)).

(** *** [_debug_click_position]: its whole body is under
    [except Exception], which only logs. *)
Definition _debug_click_position (x y : Z) (description : string) : M unit :=
  try_except
    (call (debug_click_image x y description) (EDebugClick x y description))
    (fun _ => ret tt).

(** *** [prepare_scaled_images] *)

(** One round of its loop: the body is under [except Exception]; the
    external operation answers with the path of the scaled copy when
    the image had to be shrunk. *)
Definition scaled_image (image : string) : M string :=
  try_except
    (r <- call (scale_image image) (EScaleImage image) ;;
     ret (match r with Some scaled => scaled | None => image end))
    (fun _ => ret image).

Definition prepare_scaled_images : M unit :=
  s <- get ;;
  st <- scaled_image (start_button_img (self s)) ;;
  en <- scaled_image (end_button_img (self s)) ;;
  alt <- (if has_alt_end_button (self s)
          then scaled_image (end_button_alt_img (self s))
          else ret (end_button_alt_img (self s))) ;;
  modify (with_self (set_images st en alt)).

(** *** [__init__] *)

Definition __init__ (cfg : Config.t) : M unit :=
  sz <- pyautogui_size ;;
  let (w, h) := sz in
  modify (with_self (fun _ =>
    {| config := cfg;
       start_button_img := path_join (Config.images_dir cfg) (Config.start_button_img cfg);
       end_button_img := path_join (Config.images_dir cfg) (Config.end_button_img cfg);
       end_button_alt_img := path_join (Config.images_dir cfg) (Config.end_button_alt_img cfg);
       screen_width := w;
       screen_height := h;
       scale_factor_x := Float.one;
       scale_factor_y := Float.one;
       has_alt_end_button := false;
       start_button_failures := None |})) ;;
  _verify_screen_dimensions ;;
  s <- get ;;
  modify (with_self (set_has_alt_end_button
                       (path_exists (end_button_alt_img (self s)) (world s)))) ;;
  (if Config.getattr (Config.resize_images cfg) false
   then prepare_scaled_images else ret tt) ;;
  s <- get ;;
  if negb (path_exists (start_button_img (self s)) (world s))
  then raise (PyException ("Start button image not found: " ++ start_button_img (self s)))
  else if negb (path_exists (end_button_img (self s)) (world s))
  then raise (PyException ("End button image not found: " ++ end_button_img (self s)))
  else ret tt.

(** *** [find_and_click] *)

(** The lookup of one template: with the confidence first, and without
    it when the exception names the confidence. *)
Definition locate (image : string) (confidence : float) : M (option Box) :=
  try_except
    (pyautogui_locateOnScreen image (Some confidence))
    (fun e =>
       if contains "confidence" e
       then pyautogui_locateOnScreen image None
       else raise (PyException e)).

(** Lines 239-249: the center of the match, divided by the scale
    factors unless both are 1.0. *)
Definition scaled_center (location : Box) (sx sy : float) : result (Z * Z) :=
  let (x, y) := center location in
  if negb (Float.eqb sx Float.one) || negb (Float.eqb sy Float.one)
  then match Float.int_of_div x sx with
       | Raise e => Raise e
       | Ok pyautogui_x =>
           match Float.int_of_div y sy with
           | Raise e => Raise e
           | Ok pyautogui_y => Ok (pyautogui_x, pyautogui_y)
           end
       end
  else Ok (x, y).

Definition margin : Z := 20.

(** The test of line 256. *)
Definition outside_safe_bounds (x y screen_width screen_height : Z) : bool :=
  (x >=? screen_width) || (y >=? screen_height)
  || (x <? margin) || (y <? margin)
  || (x >? screen_width - margin) || (y >? screen_height - margin).

(** Lines 255-269: the point is kept, or replaced by the top-left
    corner of the match moved in by the margin and clamped. *)
Definition safe_point (location : Box) (xy : Z * Z) (screen_width screen_height : Z)
  : Z * Z :=
  let (x, y) := xy in
  if outside_safe_bounds x y screen_width screen_height
  then
    let safe_x := left location + margin in
    let safe_y := top location + margin in
    let safe_x := Z.min (Z.max margin safe_x) (screen_width - margin) in
    let safe_y := Z.min (Z.max margin safe_y) (screen_height - margin) in
    (safe_x, safe_y)
  else (x, y).

(** The body of the outer [try]. *)
Definition find_and_click_body (image_path description : string)
    (alt_image_path : option string) : M bool :=
  s <- get ;;
  debug <- attr "debug_mode" (Config.debug_mode (config (self s))) ;;
  (if debug : bool then save_debug_screen description else ret tt) ;;
  let confidence :=
    Config.getattr (Config.confidence_threshold (config (self s))) (Float.lit 9 10) in
  location <- locate image_path confidence ;;
  location <-
    match location, alt_image_path with
    | None, Some alt =>
        s <- get ;;
        if path_is_file alt (world s) then locate alt confidence else ret None
    | _, _ => ret location
    end ;;
  match location with
  | Some location =>
      xy <- lift (scaled_center location (scale_factor_x (self s))
                    (scale_factor_y (self s))) ;;
      sz <- pyautogui_size ;;
      let (screen_width, screen_height) := sz in
      let (x, y) := safe_point location xy screen_width screen_height in
      time_sleep (Flt (Float.lit 2 10)) ;;
      pyautogui_moveTo x y ;;
      time_sleep (Flt (Float.lit 1 10)) ;;
      debug <- attr "debug_mode" (Config.debug_mode (config (self s))) ;;
      (if debug : bool then _debug_click_position x y description else ret tt) ;;
      pyautogui_click ;;
      ret true
  | None => ret false
  end.

Definition find_and_click (image_path description : string)
    (alt_image_path : option string) : M bool :=
  try_except
    (find_and_click_body image_path description alt_image_path)
    (fun e => logger (LogFindError description e) ;; ret false).

(** *** [run_rounds] *)

(** The end-button attempt, at startup (lines 305-307) and in the loop
    (lines 330-334): the primary image, then the alternative one when
    the object has it. *)
Definition click_end_button : M bool :=
  s <- get ;;
  end_clicked <- find_and_click (end_button_img (self s)) "end button" None ;;
  if negb end_clicked && has_alt_end_button (self s)
  then find_and_click (end_button_alt_img (self s)) "alternative end button" None
  else ret end_clicked.

Definition click_start_button : M bool :=
  s <- get ;;
  find_and_click (start_button_img (self s)) "start button" None.

(** Lines 303-323: the check of the initial state. *)
Definition initial_check : M unit :=
  end_found <- click_end_button ;;
  s <- get ;;
  if end_found then
    modify (with_looking_for_end_button false) ;;
    time_sleep (Int (Config.between_rounds_wait_time (config (self s))))
  else
    start_found <- click_start_button ;;
    if start_found then
      modify (with_looking_for_end_button true) ;;
      time_sleep (Int (Config.round_wait_time (config (self s))))
    else
      modify (with_looking_for_end_button false).

(** Lines 368-374: the center of the screen, divided by the scale
    factors unless both are 1.0. *)
Definition scaled_screen_center (a : AutoClicker) : result (Z * Z) :=
  let center_x := screen_width a / 2 in
  let center_y := screen_height a / 2 in
  if negb (Float.eqb (scale_factor_x a) Float.one)
     || negb (Float.eqb (scale_factor_y a) Float.one)
  then match Float.int_of_div center_x (scale_factor_x a) with
       | Raise e => Raise e
       | Ok center_x =>
           match Float.int_of_div center_y (scale_factor_y a) with
           | Raise e => Raise e
           | Ok center_y => Ok (center_x, center_y)
           end
       end
  else Ok (center_x, center_y).

(** Lines 364-384: the click in the center of the screen. *)
Definition center_click : M unit :=
  s <- get ;;
  cxy <- lift (scaled_screen_center (self s)) ;;
  let (center_x, center_y) := cxy : Z * Z in
  pyautogui_moveTo center_x center_y ;;
  pyautogui_click ;;
  modify (with_self (set_start_button_failures 0)) ;;
  time_sleep (Int (Config.retry_delay (config (self s)) * 2)).

(** Lines 327-387: one turn of the [while] loop. *)
Definition loop_body : M unit :=
  s <- get ;;
  if looking_for_end_button s then
    end_clicked <- click_end_button ;;
    if end_clicked then
      modify (fun s => with_rounds_completed (rounds_completed s + 1) s) ;;
      s' <- get ;;
      logger (LogCompleted (rounds_completed s')) ;;
      modify (with_looking_for_end_button false) ;;
      time_sleep (Int (Config.between_rounds_wait_time (config (self s))))
    else
      time_sleep (Int (Config.retry_delay (config (self s))))
  else
    start_clicked <- click_start_button ;;
    if start_clicked then
      modify (with_looking_for_end_button true) ;;
      time_sleep (Int (Config.round_wait_time (config (self s))))
    else
      s' <- get ;;
      let failures :=
        match start_button_failures (self s') with
        | Some n => n
        | None => 0
        end + 1 in
      modify (with_self (set_start_button_failures failures)) ;;
      if failures >=? Config.getattr
                        (Config.max_failures_before_center_click (config (self s))) 5
      then center_click
      else time_sleep (Int (Config.retry_delay (config (self s)))).

(** The [while] loop has no exit ([max_rounds] is infinite): it is left
    by an exception only.  [fuel] bounds the turns that are run. *)
Fixpoint main_loop (fuel : nat) : M unit :=
  match fuel with
  | O => ret tt
  | S fuel' => loop_body ;; main_loop fuel'
  end.

(** How [run_rounds] stands after [fuel] turns of the loop. *)
Inductive status : Type :=
| Running        (* still in the loop *)
| Returned.      (* the method has returned, through one of its handlers *)

Definition run_rounds (fuel : nat) : M status :=
  modify (with_rounds_completed 0) ;;
  modify (with_looking_for_end_button false) ;;
  fun s =>
    match (initial_check ;; main_loop fuel) s with
    | mkOutcome (Ok _) s1 evs => mkOutcome (Ok Running) s1 evs
    | mkOutcome (Raise KeyboardInterrupt) s1 evs =>
        mkOutcome (Ok Returned) s1
          (evs ++ [ELog (LogInterrupted (rounds_completed s1))])
    | mkOutcome (Raise (PyException e)) s1 evs =>
        mkOutcome (Ok Returned) s1 (evs ++ [ELog (LogExecutionError e)])
    end.

End Methods.

(** ** Reasoning about computations *)

Section Wp.

Context {World : Type} {desktop : Desktop World}.

(** [wp m s Q]: running [m] from [s] gives a result, a final state and
    a transcript that satisfy [Q]. *)
Definition wp {A : Type} (m : M World A) (s : State World)
    (Q : result A -> State World -> list event -> Prop) : Prop :=
  Q (res (m s)) (final (m s)) (events (m s)).

(** The last event of a transcript. *)
Definition ends_with (evs : list event) (ev : event) : Prop :=
  exists evs', evs = (evs' ++ [ev])%list.

(** The number of events of a transcript that satisfy a test. *)
Definition count (p : event -> bool) (evs : list event) : nat :=
  List.length (List.filter p evs).

(** A lookup with a confidence that the matcher refused because it does
    not support the confidence. *)
Definition confidence_unsupported (ev : event) : bool :=
  match ev with
  | ELocate _ (Some _) (Raise (PyException e)) => contains "confidence" e
  | _ => false
  end.

(** A lookup in exact-match mode. *)
Definition exact_lookup (ev : event) : bool :=
  match ev with
  | ELocate _ None _ => true
  | _ => false
  end.

(** What an attempt leaves of the state: the object and the two locals
    of [run_rounds]; and it raises no [Exception]. *)
Definition attempt_frame (s : State World) (r : result bool) (s' : State World) : Prop :=
  self s' = self s /\
  rounds_completed s' = rounds_completed s /\
  looking_for_end_button s' = looking_for_end_button s /\
  forall e, r <> Raise (PyException e).

(** The start lookups that failed since the last click in the center. *)
Definition failures_so_far (a : AutoClicker) : Z :=
  match start_button_failures a with
  | Some n => n
  | None => 0
  end.

(** The state after [n] turns of the loop. *)
Fixpoint after_turns (n : nat) (s : State World) : State World :=
  match n with
  | O => s
  | S n' => after_turns n' (final (loop_body s))
  end.

(** [n] turns in a row in which the start button is sought and not
    clicked. *)
Fixpoint start_misses (n : nat) (s : State World) : Prop :=
  match n with
  | O => True
  | S n' =>
      looking_for_end_button s = false /\
      res (click_start_button s) = Ok false /\
      res (loop_body s) = Ok tt /\
      start_misses n' (final (loop_body s))
  end.

End Wp.

(** ** A desktop that always answers the same *)

Module Static.

Record world : Type := mk {
  reported : result (Z * Z);              (* pyautogui.size() *)
  captured : result (Z * Z);              (* the size of a screenshot *)
  matcher : string -> option float -> result (option Box);
  pointer : result unit;                  (* moveTo *)
  button : result unit;                   (* click *)
  clock : result unit;                    (* time.sleep *)
  files : string -> bool
}.

#[export] Instance desktop : Desktop world := {|
  size w := (reported w, w);
  screenshot w := (captured w, w);
  locateOnScreen image confidence w := (matcher w image confidence, w);
  moveTo _ _ w := (pointer w, w);
  click w := (button w, w);
  sleep _ w := (clock w, w);
  save_screen _ w := (Ok tt, w);
  debug_click_image _ _ _ w := (Ok tt, w);
  scale_image _ w := (Ok None, w);
  path_exists p w := files w p;
  path_is_file p w := files w p
|}.

(** The object that [__init__] builds from the configuration of
    [config.py], as [cli.py] completes it, when all the images exist. *)
Definition clicker (w h : Z) (sx sy : float) (failures : option Z) : AutoClicker :=
  {| config := Config.cli_defaults Config.Config;
     start_button_img := "images/start_button.png";
     end_button_img := "images/end_button.png";
     end_button_alt_img := "images/end_button_alt.png";
     screen_width := w;
     screen_height := h;
     scale_factor_x := sx;
     scale_factor_y := sy;
     has_alt_end_button := true;
     start_button_failures := failures |}.

Definition state (a : AutoClicker) (looking : bool) (w : world) : State world :=
  mkState a 0 looking w.

(** A state before [__init__] has run: the attributes are still to be
    assigned. *)
Definition blank (w : world) : State world :=
  mkState (mkAutoClicker Config.Config EmptyString EmptyString EmptyString 0 0 (S754_zero false)
             (S754_zero false) false None) 0 false w.

(** A full-HD desktop on which nothing fails and no button shows. *)
Definition idle : world :=
  {| reported := Ok (1920, 1080);
     captured := Ok (1920, 1080);
     matcher := fun _ _ => Ok None;
     pointer := Ok tt;
     button := Ok tt;
     clock := Ok tt;
     files := fun _ => true |}.

Definition start : string := "images/start_button.png".

(** The start button shows at [box]. *)
Definition shows_start (box : Box) (image : string) (_ : option float)
  : result (option Box) :=
  if String.eqb image start then Ok (Some box) else Ok None.

Definition with_start (box : Box) : world :=
  mk (reported idle) (captured idle) (shows_start box)
     (pointer idle) (button idle) (clock idle) (files idle).

(** The end button shows at [box]. *)
Definition shows_end (box : Box) (image : string) (_ : option float)
  : result (option Box) :=
  if String.eqb image "images/end_button.png" then Ok (Some box) else Ok None.

Definition with_end (box : Box) : world :=
  mk (reported idle) (captured idle) (shows_end box)
     (pointer idle) (button idle) (clock idle) (files idle).

(** The same desktop with a pointer that cannot be moved. *)
Definition stuck_pointer : world :=
  mk (reported idle) (captured idle) (shows_start (mkBox 100 100 50 50))
     (Raise (PyException "pointer device unavailable"))
     (button idle) (clock idle) (files idle).

(** A HiDPI desktop: the screenshots are twice the reported size. *)
Definition hidpi (box : Box) : world :=
  mk (Ok (1920, 1080)) (Ok (3840, 2160)) (shows_start box)
     (pointer idle) (button idle) (clock idle) (files idle).

(** A desktop whose screen cannot be captured. *)
Definition no_capture : world :=
  mk (reported idle) (Raise (PyException "screen grab failed")) (matcher idle)
     (pointer idle) (button idle) (clock idle) (files idle).

(** A matcher without OpenCV: the confidence is refused, the exact
    lookup finds the start button. *)
Definition without_opencv (box : Box) (image : string) (confidence : option float)
  : result (option Box) :=
  match confidence with
  | Some _ =>
      Raise (PyException
               "The confidence keyword argument is only available if OpenCV is installed.")
  | None => shows_start box image None
  end.

Definition no_opencv (box : Box) : world :=
  mk (reported idle) (captured idle) (without_opencv box)
     (pointer idle) (button idle) (clock idle) (files idle).

(** A matcher that fails for another reason. *)
Definition broken_matcher : world :=
  mk (reported idle) (captured idle)
     (fun _ _ => Raise (PyException "Failed to read images/start_button.png"))
     (pointer idle) (button idle) (clock idle) (files idle).

End Static.

(** ** The routines of [cli.py] outside the class *)

(** The exception that a call raised. *)
Definition exn_of {A : Type} (r : result A) : option exn :=
  match r with
  | Ok _ => None
  | Raise e => Some e
  end.

Definition raised (ev : event) : option exn :=
  match ev with
  | ELog _ => None
  | ESize r => exn_of r
  | EScreenshot r => exn_of r
  | ELocate _ _ r => exn_of r
  | EMoveTo _ _ r => exn_of r
  | EClick r => exn_of r
  | ESleep _ r => exn_of r
  | ESaveScreen _ r => exn_of r
  | EDebugClick _ _ _ r => exn_of r
  | EScaleImage _ r => exn_of r
  end.

Definition is_click (ev : event) : bool :=
  match ev with
  | EClick _ => true
  | _ => false
  end.

Definition is_move (ev : event) : bool :=
  match ev with
  | EMoveTo _ _ _ => true
  | _ => false
  end.

Definition is_lookup (ev : event) : bool :=
  match ev with
  | ELocate _ _ _ => true
  | _ => false
  end.

(** The line "Completed round {n}". *)
Definition is_completed (ev : event) : bool :=
  match ev with
  | ELog (LogCompleted _) => true
  | _ => false
  end.

(** [Config.num_rounds = n] *)
Definition set_num_rounds (n : Z) (c : Config.t) : Config.t :=
  Config.mk (Config.images_dir c) (Config.start_button_img c) (Config.end_button_img c)
    (Config.end_button_alt_img c) (Config.startup_delay c) (Config.round_wait_time c)
    (Config.between_rounds_wait_time c) (Config.retry_delay c)
    (Config.confidence_threshold c) n (Config.debug_mode c) (Config.resize_images c)
    (Config.max_failures_before_center_click c).

(** [s.split(sep)] for a separator of one character. *)
Fixpoint split_on (sep : Ascii.ascii) (s : string) : list string :=
  match s with
  | EmptyString => [EmptyString]
  | String c rest =>
      if Ascii.eqb c sep then EmptyString :: split_on sep rest
      else match split_on sep rest with
           | [] => [String c EmptyString]
           | w :: ws => String c w :: ws
           end
  end.

(** [s.replace(' ', '_')] *)
Fixpoint replace_spaces (s : string) : string :=
  match s with
  | EmptyString => EmptyString
  | String c rest =>
      String (if Ascii.eqb c " "%char then "_"%char else c) (replace_spaces rest)
  end.

(** What these routines need beside the desktop: the directory of the
    images, the image files they write (the drawing on a screenshot and
    its [save] are one operation), and Python's [float()] and [int()] on
    a string, [None] for a [ValueError].  The calls of the first two are
    not recorded in the transcript. *)
Class Runtime (World : Type) : Type := {
  mkdir : string -> World -> result unit * World;
  save_image : string -> World -> result unit * World;
  parse_float : string -> option float;
  parse_int : string -> option Z
}.

Section Routines.

Context {World : Type} {desktop : Desktop World} {runtime : Runtime World}.

Local Open Scope py_scope.

Let M := M World.

(** A call of an external operation that the transcript does not show. *)
Definition unrecorded {A : Type} (op : World -> result A * World) : M A :=
  fun s =>
    let (r, w) := op (world s) in
    mkOutcome r (with_world w s) [].

(** *** [check_screen_dimensions] *)

(** The five points of lines 437-443. *)
Definition corners (actual_width actual_height : Z) : list (Z * Z) :=
  [ (10, 10);
    (actual_width - 10, 10);
    (10, actual_height - 10);
    (actual_width - 10, actual_height - 10);
    (actual_width / 2, actual_height / 2) ].

(** Lines 445-448: [moveTo(x, y, duration=1)] and [time.sleep(0.5)] for
    each point (the duration is no argument of the desktop's [moveTo]). *)
Fixpoint move_to_each (points : list (Z * Z)) : M unit :=
  match points with
  | [] => ret tt
  | (x, y) :: rest =>
      pyautogui_moveTo x y ;;
      time_sleep (Flt (Float.lit 5 10)) ;;
      move_to_each rest
  end.

Definition check_screen_dimensions : M unit :=
  sz <- pyautogui_size ;;
  let (pyautogui_width, pyautogui_height) := sz in
  shot <- pyautogui_screenshot_size ;;
  let (actual_width, actual_height) := shot in
  scale_x <- lift (Float.int_truediv actual_width pyautogui_width) ;;
  scale_y <- lift (Float.int_truediv actual_height pyautogui_height) ;;
  unrecorded (save_image "screen_dimensions_check.png") ;;
  unrecorded (save_image "screen_boundaries.png") ;;
  move_to_each (corners actual_width actual_height).

(** *** [test_single_click] *)

Definition test_single_click (cfg : Config.t) : M unit :=
  unrecorded (mkdir (Config.images_dir cfg)) ;;
  pyautogui_size ;;
  __init__ cfg ;;
  time_sleep (Int 5) ;;
  pyautogui_screenshot_size ;;
  unrecorded (save_image "debug_before_click.png") ;;
  s <- get ;;
  find_and_click (start_button_img (self s)) "start button" None ;;
  time_sleep (Int 1) ;;
  pyautogui_screenshot_size ;;
  unrecorded (save_image "debug_after_click.png").

(** *** [debug_images] *)

Definition debug_file (button_name : string) : string :=
  "debug_" ++ replace_spaces button_name ++ ".png".

(** Lines 526-579: the lookups of one button with falling confidence.
    A match is drawn and saved, and ends the loop; so does an
    [Exception] whose message does not name the confidence; one that
    does is passed over in silence. *)
Fixpoint try_confidences (button_name img_path : string) (confidences : list float)
  : M unit :=
  match confidences with
  | [] => ret tt
  | confidence :: rest =>
      stop <- try_except
                (location <- pyautogui_locateOnScreen img_path (Some confidence) ;;
                 match location with
                 | Some _ =>
                     unrecorded (save_image (debug_file button_name)) ;;
                     ret true
                 | None => ret false
                 end)
                (fun e => ret (negb (contains "confidence" e))) ;;
      if stop : bool then ret tt else try_confidences button_name img_path rest
  end.

(** Lines 523-581: one button, under the outer [except Exception]. *)
Definition debug_button (button_name img_path : string) : M unit :=
  try_except
    (try_confidences button_name img_path
       [Float.lit 9 10; Float.lit 8 10; Float.lit 7 10])
    (fun _ => ret tt).

Definition debug_images (cfg : Config.t) : M unit :=
  unrecorded (mkdir (Config.images_dir cfg)) ;;
  pyautogui_size ;;
  __init__ cfg ;;
  time_sleep (Int 5) ;;
  pyautogui_screenshot_size ;;
  unrecorded (save_image "debug_full_screen.png") ;;
  s <- get ;;
  debug_button "start button" (start_button_img (self s)) ;;
  debug_button "end button" (end_button_img (self s)) ;;
  if has_alt_end_button (self s)
  then debug_button "alt end button" (end_button_alt_img (self s))
  else ret tt.

(** *** [main] *)

(** What the first argument decides: [main] returns at once, or goes on
    to the loop with the class [Config] as the flag left it. *)
Inductive dispatch : Type :=
| Exit (code : Z)
| Run (cfg : Config.t).

(** Lines 596-638.  [Config.use_region] and [Config.scale_factor] are
    attributes that the flags create and nothing reads; the record of
    the configuration does not hold them. *)
Definition process_argument (arg : string) (cfg : Config.t) : M dispatch :=
  if String.eqb arg "--debug" then
    debug_images (Config.set_debug_mode true cfg) ;; ret (Exit 0)
  else if String.eqb arg "--safe" then
    ret (Run (Config.set_confidence_threshold (Float.lit 7 10) cfg))
  else if String.eqb arg "--resize" then
    ret (Run (Config.set_resize_images true cfg))
  else if String.eqb arg "--region" then
    ret (Run cfg)
  else if String.eqb arg "--test-click" then
    test_single_click (Config.set_debug_mode true cfg) ;; ret (Exit 0)
  else if String.eqb arg "--check-screen" then
    check_screen_dimensions ;; ret (Exit 0)
  else if String.prefix "--scale=" arg then
    match nth_error (split_on "="%char arg) 1 with
    | None => ret (Exit 1)
    | Some text =>
        match parse_float text with
        | Some _ => ret (Run cfg)
        | None => ret (Exit 1)
        end
    end
  else if String.prefix "--rounds=" arg then
    match nth_error (split_on "="%char arg) 1 with
    | None => ret (Exit 1)
    | Some text =>
        match parse_int text with
        | Some rounds => ret (Run (set_num_rounds rounds cfg))
        | None => ret (Exit 1)
        end
    end
  else ret (Run cfg).

(** How [main] stands after [fuel] turns of the loop: it has returned
    an exit code, or [run_rounds] has not returned yet. *)
Inductive progress : Type :=
| Looping
| Exited (code : Z).

(** The first argument asks for one of the routines that run once. *)
Definition one_shot (argv : list string) : bool :=
  match argv with
  | _ :: arg :: _ =>
      String.eqb arg "--debug" || String.eqb arg "--test-click"
      || String.eqb arg "--check-screen"
  | _ => false
  end.

(** [main], with [sys.argv] and the class [Config] it starts from. *)
Definition main (argv : list string) (cfg : Config.t) (fuel : nat) : M progress :=
  try_except
    (unrecorded (mkdir (Config.images_dir cfg)) ;;
     d <- match argv with
          | _ :: arg :: _ => process_argument arg cfg
          | _ => ret (Run cfg)
          end ;;
     match d with
     | Exit code => ret (Exited code)
     | Run cfg =>
         time_sleep (Int (Config.startup_delay cfg)) ;;
         __init__ cfg ;;
         st <- run_rounds fuel ;;
         ret (match st with
              | Running => Looping
              | Returned => Exited 0
              end)
     end)
    (fun _ => ret (Exited 1)).

End Routines.

(** ** What a computation keeps *)

Section Keeps.

Context {World : Type}.

(** [keeps I P m s]: run from [s], the computation [m] ends in a state
    that satisfies [I], and every event of its transcript satisfies
    [P]. *)
Definition keeps (I : State World -> Prop) (P : event -> Prop) {A : Type}
    (m : M World A) (s : State World) : Prop :=
  wp m s (fun _ s' evs => I s' /\ Forall P evs).

(** The object but for its counter of failed start lookups. *)
Definition settings (a : AutoClicker) : AutoClicker :=
  set_start_button_failures 0 a.

(** The state holds the object [a], but for that counter. *)
Definition same_settings (a : AutoClicker) (s : State World) : Prop :=
  settings (self s) = settings a.

(** The confidence that the lookups of the object [a] use. *)
Definition confidence_of (a : AutoClicker) : float :=
  Config.getattr (Config.confidence_threshold (config a)) (Float.lit 9 10).

(** What one attempt may do: it looks up with the confidence [c] or in
    exact mode, reads the size of the screen, waits, moves the pointer,
    clicks, saves its debug images, and logs the error of the attempt.
    The screenshot of [_verify_screen_dimensions], the rescaling of the
    images and the other error lines are not among its events. *)
Definition attempt_event (c : float) (ev : event) : Prop :=
  match ev with
  | ELog (LogFindError _ _) => True
  | ELog _ => False
  | ELocate _ (Some c') _ => c' = c
  | ELocate _ None _ => True
  | EScreenshot _ => False
  | EScaleImage _ _ => False
  | _ => True
  end.

(** What the loop may do: what an attempt does, and the line of a
    completed round. *)
Definition loop_event (c : float) (ev : event) : Prop :=
  match ev with
  | ELog (LogCompleted _) => True
  | _ => attempt_event c ev
  end.

(** The state with [Config.num_rounds] of the object set to [n]. *)
Definition retarget (n : Z) (s : State World) : State World :=
  with_self (fun a =>
    mkAutoClicker (set_num_rounds n (config a)) (start_button_img a)
      (end_button_img a) (end_button_alt_img a) (screen_width a) (screen_height a)
      (scale_factor_x a) (scale_factor_y a) (has_alt_end_button a)
      (start_button_failures a)) s.

(** The outcome [o], with its final state seen through [f]. *)
Definition in_state (f : State World -> State World) {A : Type}
    (o : outcome World A) : outcome World A :=
  mkOutcome (res o) (f (final o)) (events o).

(** [m] does not read [Config.num_rounds]: run from a state with
    another value of it, it returns the same, leaves the same
    transcript, and ends in the same state with that other value. *)
Definition ignores_num_rounds (n : Z) {A : Type} (m : M World A)
    (s : State World) : Prop :=
  m (retarget n s) = in_state (retarget n) (m s).

(** Two outcomes with the same result and the same transcript, and,
    when the result is a value, final states that differ in
    [Config.num_rounds] only. *)
Definition same_run (n : Z) {A : Type} (o' o : outcome World A) : Prop :=
  res o' = res o /\
  events o' = events o /\
  (forall a, res o = Ok a -> final o' = retarget n (final o)).

End Keeps.

(** A click that returned. *)
Definition click_returned (ev : event) : bool :=
  match ev with
  | EClick (Ok _) => true
  | _ => false
  end.

(** A call that was interrupted. *)
Definition interrupted (ev : event) : bool :=
  match raised ev with
  | Some KeyboardInterrupt => true
  | _ => false
  end.

(** The numbers of the lines "Completed round {n}", in order. *)
Definition completed_numbers (evs : list event) : list Z :=
  flat_map (fun ev => match ev with
                      | ELog (LogCompleted n) => [n]
                      | _ => []
                      end) evs.

(** Where the pointer was sent, in order. *)
Definition move_targets (evs : list event) : list (Z * Z) :=
  flat_map (fun ev => match ev with
                      | EMoveTo x y _ => [(x, y)]
                      | _ => []
                      end) evs.

(** The confidences of the lookups, in order. *)
Definition lookup_confidences (evs : list event) : list (option float) :=
  flat_map (fun ev => match ev with
                      | ELocate _ c _ => [c]
                      | _ => []
                      end) evs.

(** An event that leaves the pointer alone and is no lookup without a
    confidence. *)
Definition passive (ev : event) : bool :=
  negb (is_move ev) && negb (is_click ev) && negb (exact_lookup ev).

(** The line "Error during execution: {e}". *)
Definition execution_error (ev : event) : bool :=
  match ev with
  | ELog (LogExecutionError _) => true
  | _ => false
  end.

(** What [__init__] does on the desktop: it reads the size of the
    screen, takes the screenshot of [_verify_screen_dimensions], rescales
    the images, and logs the error of the verification. *)
Definition init_event (ev : event) : Prop :=
  match ev with
  | ESize _ => True
  | EScreenshot _ => True
  | EScaleImage _ _ => True
  | ELog (LogVerifyError _) => True
  | _ => False
  end.

(** A lookup that gives a confidence gives [c]. *)
Definition uses_confidence (c : float) (ev : event) : Prop :=
  match ev with
  | ELocate _ (Some c') _ => c' = c
  | _ => True
  end.

(** What [main] does on the desktop before the loop: the wait of
    [startup_delay] and the events of [__init__]. *)
Definition startup_event (ev : event) : Prop :=
  match ev with
  | ESleep _ _ => True
  | _ => init_event ev
  end.

(** A lookup that ends the search of [debug_images] for a button: a
    match, an interrupt, or an [Exception] that does not name the
    confidence. *)
Definition ends_search (ev : event) : bool :=
  match ev with
  | ELocate _ _ (Ok (Some _)) => true
  | ELocate _ _ (Raise KeyboardInterrupt) => true
  | ELocate _ _ (Raise (PyException e)) => negb (contains "confidence" e)
  | _ => false
  end.

(** What the transcript of one attempt shows, as tests that are
    computed on it: the clicks and the moves are counted, the result is
    compared with the click, the interruption with the last event. *)
Definition attempt_shape (r : result bool) (evs : list event) : bool :=
  (count is_click evs <=? 1)%nat
  && (count is_move evs <=? 1)%nat
  && Bool.eqb (match r with Ok true => true | _ => false end)
              (existsb click_returned evs)
  && Bool.eqb (match r with Raise KeyboardInterrupt => true | _ => false end)
              (existsb interrupted evs)
  && Bool.eqb (existsb interrupted evs)
              (match rev evs with ev :: _ => interrupted ev | [] => false end)
  && (count is_completed evs =? 0)%nat.

(** The runtime of the desktops that always answer the same: the
    directory and the image files never fail, and numbers are read from
    the two texts the examples use. *)
Module StaticRuntime.

#[export] Instance runtime : Runtime Static.world := {|
  mkdir _ w := (Ok tt, w);
  save_image _ w := (Ok tt, w);
  parse_float text := if String.eqb text "2.0" then Some (Float.lit 2 1) else None;
  parse_int text := if String.eqb text "7" then Some 7 else None
|}.

End StaticRuntime.

(** ** A desktop that answers by a script *)

(** The world is what the matcher will still answer: each lookup takes
    the next answer, and finds nothing once the script is over.  The
    screen is 1920x1080, every file exists and no call fails. *)
Module Scripted.

Definition world : Type := list (option Box).

#[export] Instance desktop : Desktop world := {|
  size w := (Ok (1920, 1080), w);
  screenshot w := (Ok (1920, 1080), w);
  locateOnScreen _ _ w :=
    match w with
    | [] => (Ok None, [])
    | answer :: rest => (Ok answer, rest)
    end;
  moveTo _ _ w := (Ok tt, w);
  click w := (Ok tt, w);
  sleep _ w := (Ok tt, w);
  save_screen _ w := (Ok tt, w);
  debug_click_image _ _ _ w := (Ok tt, w);
  scale_image _ w := (Ok None, w);
  path_exists _ _ := true;
  path_is_file _ _ := true
|}.

(** [run_rounds] on the object of [Static.clicker], after its first two
    assignments. *)
Definition state (script : world) : State world :=
  mkState (Static.clicker 1920 1080 Float.one Float.one None) 0 false script.

End Scripted.

(** * Properties *)

Section Calculus.

Context {World : Type} {desktop : Desktop World}.

Implicit Types (s : State World) (evs : list event).

Lemma wp_ret {A} (a : A) s Q : Q (Ok a) s [] -> wp (ret a) s Q.
Proof. exact (fun H => H). Qed.

Lemma wp_raise {A} e s (Q : result A -> _) : Q (Raise e) s [] -> wp (raise e) s Q.
Proof. exact (fun H => H). Qed.

Lemma wp_lift {A} (r : result A) s Q : Q r s [] -> wp (lift r) s Q.
Proof. exact (fun H => H). Qed.

Lemma wp_get s Q : Q (Ok s) s [] -> wp get s Q.
Proof. exact (fun H => H). Qed.

Lemma wp_modify f s Q : Q (Ok tt) (f s) [] -> wp (modify f) s Q.
Proof. exact (fun H => H). Qed.

Lemma wp_logger l s Q : Q (Ok tt) s [ELog l] -> wp (logger l) s Q.
Proof. exact (fun H => H). Qed.

Lemma wp_call {A} (op : World -> result A * World) ev s Q :
  (forall r w, op (world s) = (r, w) -> Q r (with_world w s) [ev r]) ->
  wp (call op ev) s Q.
Proof.
  intros H. unfold wp, call. destruct (op (world s)) as [r w] eqn:E.
  cbn. now apply H.
Qed.

Lemma wp_bind {A B} (m : M World A) (k : A -> M World B) s Q :
  wp m s (fun r s1 evs1 =>
            match r with
            | Ok a => wp (k a) s1 (fun r2 s2 evs2 => Q r2 s2 (evs1 ++ evs2)%list)
            | Raise e => Q (Raise e) s1 evs1
            end) ->
  wp (bind m k) s Q.
Proof.
  unfold wp, bind. destruct (m s) as [[a|e] s1 evs1]; cbn; [|auto].
  destruct (k a s1) as [r2 s2 evs2]; cbn. auto.
Qed.

Lemma wp_try_except {A} (body : M World A) handler s Q :
  wp body s (fun r s1 evs1 =>
               match r with
               | Raise (PyException e) =>
                   wp (handler e) s1 (fun r2 s2 evs2 => Q r2 s2 (evs1 ++ evs2)%list)
               | _ => Q r s1 evs1
               end) ->
  wp (try_except body handler) s Q.
Proof.
  unfold wp, try_except. destruct (body s) as [[a|[|e]] s1 evs1]; cbn; auto.
  destruct (handler e s1) as [r2 s2 evs2]; cbn. auto.
Qed.

Lemma wp_mono {A} (m : M World A) s (Q Q' : result A -> State World -> list event -> Prop) :
  wp m s Q -> (forall r s' evs, Q r s' evs -> Q' r s' evs) -> wp m s Q'.
Proof. unfold wp. auto. Qed.

Lemma wp_bind_eq {A B} (m : M World A) (k : A -> M World B) s Q r s1 evs1 :
  m s = mkOutcome r s1 evs1 ->
  match r with
  | Ok a => wp (k a) s1 (fun r2 s2 evs2 => Q r2 s2 (evs1 ++ evs2)%list)
  | Raise e => Q (Raise e) s1 evs1
  end ->
  wp (bind m k) s Q.
Proof. intros E H. apply wp_bind. unfold wp at 1. now rewrite E. Qed.

Lemma wp_call_eq {A} (op : World -> result A * World) ev s Q r w :
  op (world s) = (r, w) -> Q r (with_world w s) [ev r] -> wp (call op ev) s Q.
Proof. intros E H. unfold wp, call. now rewrite E. Qed.

(** [bind], as one equation. *)
Lemma bind_run {A B} (m : M World A) (k : A -> M World B) s :
  bind m k s =
  match m s with
  | mkOutcome (Ok a) s1 evs1 =>
      match k a s1 with
      | mkOutcome r s2 evs2 => mkOutcome r s2 (evs1 ++ evs2)
      end
  | mkOutcome (Raise e) s1 evs1 => mkOutcome (Raise e) s1 evs1
  end.
Proof. reflexivity. Qed.

End Calculus.

(** One step of symbolic execution: the head of the computation is taken
    apart, an external call answers with a value, a [KeyboardInterrupt]
    or an [Exception]. *)
Ltac wp_step :=
  lazymatch goal with
  | |- wp (bind _ _) _ _ => apply wp_bind
  | |- wp (try_except _ _) _ _ => apply wp_try_except
  | |- wp (ret _) _ _ => apply wp_ret
  | |- wp (raise _) _ _ => apply wp_raise
  | |- wp (lift _) _ _ => apply wp_lift
  | |- wp get _ _ => apply wp_get
  | |- wp (modify _) _ _ => apply wp_modify
  | |- wp (logger _) _ _ => apply wp_logger
  | |- wp (call _ _) _ _ =>
      let r := fresh "r" in
      let w := fresh "w" in
      let E := fresh "Ecall" in
      apply wp_call; intros r w E; destruct r as [?|[|?]]
  | |- wp (attr _ ?o) _ _ => unfold attr; destruct o
  | |- wp (if ?b then _ else _) _ _ => destruct b eqn:?
  | |- wp (match ?x with _ => _ end) _ _ => destruct x eqn:?
  | |- match ?r with Ok _ => _ | Raise _ => _ end => destruct r as [?|[|?]] eqn:?
  end; cbn beta iota.

(** The head of the computation is an attempt [m], specified by [lem]:
    it clicked, it did not, or it was interrupted. *)
Ltac wp_attempt lem :=
  match goal with
  | |- wp (bind ?m _) ?s _ =>
      let Hf := fresh "Hf" in
      let Hne := fresh "Hne" in
      let E := fresh "Erun" in
      pose proof (lem s) as Hf; unfold wp, attempt_frame in Hf;
      destruct (m s) as [[[|]|[|?]] ? ?] eqn:E; cbn [res final events] in Hf |- *;
      destruct Hf as (? & ? & ? & Hne);
      [ | | | exfalso; eapply Hne; reflexivity ];
      (eapply wp_bind_eq; [exact E|]); cbn beta iota
  end.

Ltac unfold_calls :=
  unfold find_and_click, find_and_click_body, locate, pyautogui_locateOnScreen,
    save_debug_screen, pyautogui_size, pyautogui_moveTo, pyautogui_click,
    time_sleep, _debug_click_position, pyautogui_screenshot_size.

(** An event with the shape of the goal is looked for in a transcript. *)
Ltac find_event :=
  cbn [List.app In]; repeat first [left; reflexivity | right].

(** Membership hypotheses of explicit transcripts are taken apart. *)
Ltac split_in H :=
  cbn [List.app In] in H;
  repeat match type of H with
         | _ \/ _ => destruct H as [H|H]; [try discriminate H|]
         | False => destruct H
         end.

Lemma ends_with_single (ev : event) : ends_with [ev] ev.
Proof. now exists []. Qed.

Lemma ends_with_cons (a ev : event) (evs : list event) :
  ends_with evs ev -> ends_with (a :: evs) ev.
Proof. intros [evs' ->]. now exists (a :: evs'). Qed.

Lemma ends_with_app (ev : event) (evs1 evs2 : list event) :
  ends_with evs2 ev -> ends_with (evs1 ++ evs2) ev.
Proof. intros [evs' ->]. exists (evs1 ++ evs')%list. now rewrite app_assoc. Qed.

(** The last event of an explicit transcript. *)
Ltac last_event :=
  repeat first [ apply ends_with_single | apply ends_with_app | apply ends_with_cons ].

Section FindAndClick.

Context {World : Type} {desktop : Desktop World}.

Implicit Types (s : State World) (evs : list event).

(** The point of [safe_point] is in the safe region as soon as the
    region is not empty. *)
Lemma safe_point_within (location : Box) (xy : Z * Z) (sw sh : Z) :
  margin <= sw - margin -> margin <= sh - margin ->
  margin <= fst (safe_point location xy sw sh) <= sw - margin /\
  margin <= snd (safe_point location xy sw sh) <= sh - margin.
Proof.
  intros Hw Hh. destruct xy as [x y]. unfold safe_point, outside_safe_bounds.
  destruct (x >=? sw) eqn:E1, (y >=? sh) eqn:E2, (x <? margin) eqn:E3,
    (y <? margin) eqn:E4, (x >? sw - margin) eqn:E5, (y >? sh - margin) eqn:E6;
    cbn [orb fst snd]; unfold margin in *; lia.
Qed.

(** A point inside the safe region is kept. *)
Lemma safe_point_inside (location : Box) (x y sw sh : Z) :
  margin <= x <= sw - margin -> margin <= y <= sh - margin ->
  safe_point location (x, y) sw sh = (x, y).
Proof.
  intros Hx Hy. unfold safe_point, outside_safe_bounds.
  rewrite !Z.geb_leb, !Z.gtb_ltb. unfold margin in *.
  repeat match goal with
         | |- context [?a <=? ?b] => destruct (Z.leb_spec a b); try lia
         | |- context [?a <? ?b] => destruct (Z.ltb_spec a b); try lia
         end.
  reflexivity.
Qed.

(** Where [find_and_click] moves the pointer: to the safe point of the
    match that the lookup returned, computed with the scale factors of
    the object and with the screen size that [pyautogui.size()]
    answered in this very call. *)
Lemma find_and_click_moves_to s image description alt x y r :
  In (EMoveTo x y r) (events (find_and_click image description alt s)) ->
  exists location img c sw sh xy,
    In (ELocate img c (Ok (Some location)))
       (events (find_and_click image description alt s)) /\
    In (ESize (Ok (sw, sh))) (events (find_and_click image description alt s)) /\
    scaled_center location (scale_factor_x (self s)) (scale_factor_y (self s)) = Ok xy /\
    (x, y) = safe_point location xy sw sh /\
    (forall location' img' c',
       In (ELocate img' c' (Ok (Some location')))
          (events (find_and_click image description alt s)) -> location' = location) /\
    (forall sw' sh',
       In (ESize (Ok (sw', sh'))) (events (find_and_click image description alt s)) ->
       (sw', sh') = (sw, sh)).
Proof.
  change (wp (find_and_click image description alt) s (fun _ _ evs =>
    In (EMoveTo x y r) evs ->
    exists location img c sw sh xy,
      In (ELocate img c (Ok (Some location))) evs /\
      In (ESize (Ok (sw, sh))) evs /\
      scaled_center location (scale_factor_x (self s)) (scale_factor_y (self s)) = Ok xy /\
      (x, y) = safe_point location xy sw sh /\
      (forall location' img' c',
         In (ELocate img' c' (Ok (Some location'))) evs -> location' = location) /\
      (forall sw' sh', In (ESize (Ok (sw', sh'))) evs -> (sw', sh') = (sw, sh)))).
  unfold_calls.
  repeat wp_step.
  all: intros Hin; split_in Hin.
  all: injection Hin as <- <- <-.
  all: do 6 eexists.
  all: (split; [find_event|]).
  all: (split; [find_event|]).
  all: (split; [eassumption|]).
  all: (split; [symmetry; eassumption|]).
  all: split; intros; match goal with H : In _ _ |- _ => split_in H; congruence end.
Qed.

End FindAndClick.

Lemma div_eucl_exact (p : positive) (k : Z) :
  0 <= k -> Z.div_eucl (Z.pos p * k) (Z.pos p) = (k, 0).
Proof.
  intros Hk.
  pose proof (Z.div_eucl_eq (Z.pos p * k) (Z.pos p) ltac:(lia)) as Heq.
  pose proof (Z.mod_pos_bound (Z.pos p * k) (Z.pos p) ltac:(lia)) as Hb.
  unfold Z.modulo in Hb.
  destruct (Z.div_eucl (Z.pos p * k) (Z.pos p)) as [q r].
  assert (Hq : q = k) by nia.
  subst q. f_equal. lia.
Qed.

(** A size divided by itself is 1.0. *)
Lemma int_truediv_same (w : Z) : 0 < w -> Float.int_truediv w w = Ok Float.one.
Proof.
  intros Hw. unfold Float.int_truediv.
  destruct (Z.eqb_spec w 0) as [->|_]; [lia|].
  destruct w as [|p|p]; try lia.
  unfold Float.raw, SFdiv, SFdiv_core_binary.
  cbn [Zdigits2].
  replace (IntDef.Z.sub (IntDef.Z.add (Z.pos (digits2_pos p)) 0)
             (IntDef.Z.add (Z.pos (digits2_pos p)) 0)) with 0
    by (change IntDef.Z.sub with Z.sub; change IntDef.Z.add with Z.add; lia).
  change (IntDef.Z.min (fexp Float.prec Float.emax 0) (IntDef.Z.sub 0 0)) with (-53).
  change (IntDef.Z.sub (IntDef.Z.sub 0 0) (-53)) with 53.
  cbv beta iota zeta.
  change (IntDef.Z.shiftl (Z.pos p) 53) with (Z.shiftl (Z.pos p) 53).
  rewrite Z.shiftl_mul_pow2 by lia.
  change IntDef.Z.div_eucl with Z.div_eucl.
  rewrite (div_eucl_exact p (2 ^ 53)) by lia.
  assert (Hloc : new_location (Z.pos p) 0 = loc_Exact).
  { unfold new_location, new_location_even, new_location_odd.
    destruct (IntDef.Z.even (Z.pos p)); reflexivity. }
  rewrite Hloc. reflexivity.
Qed.


Section FindAndClickSoft.

Context {World : Type} {desktop : Desktop World}.

Implicit Types (s : State World) (evs : list event).

(** [find_and_click] changes nothing but the world, and no [Exception]
    leaves it: it returns a boolean, or is interrupted. *)
Lemma find_and_click_frame s image description alt :
  wp (find_and_click image description alt) s
     (fun r s' _ =>
        self s' = self s /\
        rounds_completed s' = rounds_completed s /\
        looking_for_end_button s' = looking_for_end_button s /\
        forall e, r <> Raise (PyException e)).
Proof.
  unfold_calls.
  repeat wp_step.
  all: repeat split; intros ? ?; discriminate.
Qed.

(** An [Exception] of the pointer move or of the click inside
    [find_and_click] is logged and answered with [False]. *)
Lemma find_and_click_pointer_failure s image description alt e :
  wp (find_and_click image description alt) s
     (fun r _ evs =>
        (exists x y, In (EMoveTo x y (Raise (PyException e))) evs)
        \/ In (EClick (Raise (PyException e))) evs ->
        r = Ok false /\ ends_with evs (ELog (LogFindError description e))).
Proof.
  unfold_calls.
  repeat wp_step.
  all: intros [(x & y & Hin)|Hin]; split_in Hin.
  all: injection Hin as <-; subst.
  all: split; [reflexivity|].
  all: last_event.
Qed.

End FindAndClickSoft.

Section Lookup.

Context {World : Type} {desktop : Desktop World}.

Implicit Types (s : State World) (evs : list event).

(** The confidence of every lookup is the configured one. *)
Lemma find_and_click_confidence s image description alt img c r :
  In (ELocate img (Some c) r) (events (find_and_click image description alt s)) ->
  c = Config.getattr (Config.confidence_threshold (config (self s))) (Float.lit 9 10).
Proof.
  change (wp (find_and_click image description alt) s (fun _ _ evs =>
    In (ELocate img (Some c) r) evs ->
    c = Config.getattr (Config.confidence_threshold (config (self s))) (Float.lit 9 10))).
  unfold_calls.
  repeat wp_step.
  all: intros Hin; split_in Hin.
  all: injection Hin as <- <- <-; reflexivity.
Qed.

(** The lookups of one call: every exact-mode lookup answers one refusal
    of the confidence, and every other failure of a lookup ends the
    call with [False]. *)
Lemma find_and_click_lookup s image description alt :
  wp (find_and_click image description alt) s
     (fun r _ evs =>
        count exact_lookup evs = count confidence_unsupported evs /\
        (forall img c e,
           In (ELocate img c (Raise (PyException e))) evs ->
           confidence_unsupported (ELocate img c (Raise (PyException e))) = false ->
           r = Ok false /\ ends_with evs (ELog (LogFindError description e))) /\
        (forall img c e,
           In (ELocate img (Some c) (Raise (PyException e))) evs ->
           contains "confidence" e = true ->
           exists r', In (ELocate img None r') evs) /\
        (r = Ok true -> forall e, ~ In (ELog (LogFindError description e)) evs)).
Proof.
  unfold_calls.
  repeat wp_step.
  all: split;
    [ unfold count;
      cbn [List.app List.filter exact_lookup confidence_unsupported];
      repeat match goal with
             | H : contains _ _ = _ |- _ => rewrite H
             end; reflexivity | ].
  all: (split; [|split]).
  all: try (intros img c e Hin Hc; split_in Hin).
  all: try (injection Hin as <- <- <-).
  all: try (cbn [confidence_unsupported] in Hc; congruence).
  all: try (split; [reflexivity | last_event]).
  all: try (eexists; find_event).
  all: intros Hr e Hin; try discriminate Hr; split_in Hin.
Qed.

End Lookup.

Section Rounds.

Context {World : Type} {desktop : Desktop World}.

Implicit Types (s : State World) (evs : list event).

Lemma click_end_button_frame s :
  wp click_end_button s (fun r s' _ => attempt_frame s r s').
Proof.
  unfold click_end_button. do 3 wp_step.
  eapply wp_mono; [apply find_and_click_frame|]. cbn beta.
  intros r s1 evs1 (Hself & Hr & Hl & Hne).
  destruct r as [end_clicked|e]; [|now repeat split].
  destruct (negb end_clicked && has_alt_end_button (self s)).
  - eapply wp_mono; [apply find_and_click_frame|]. cbn beta.
    intros r s2 evs2 (Hself2 & Hr2 & Hl2 & Hne2).
    repeat split; congruence.
  - wp_step. now repeat split.
Qed.

Lemma click_start_button_frame s :
  wp click_start_button s (fun r s' _ => attempt_frame s r s').
Proof.
  unfold click_start_button. wp_step. wp_step.
  eapply wp_mono; [apply find_and_click_frame|]. cbn beta.
  intros r s1 evs1 H. destruct r; exact H.
Qed.

(** C6.  In a turn of the loop that seeks the end button, a successful
    end-button click moves the state to seeking the start button and
    adds exactly 1 to [rounds_completed]; a failed attempt, in either
    state, leaves [rounds_completed] as it was (and, when the end
    button was sought, the state too). *)
Theorem round_counted_on_end_click_only s :
  let o := loop_body s in
  if looking_for_end_button s then
    match res (click_end_button s) with
    | Ok true =>
        looking_for_end_button (final o) = false /\
        rounds_completed (final o) = rounds_completed s + 1
    | _ =>
        looking_for_end_button (final o) = true /\
        rounds_completed (final o) = rounds_completed s
    end
  else rounds_completed (final o) = rounds_completed s.
Proof.
  change (wp loop_body s (fun _ s' _ =>
    if looking_for_end_button s then
      match res (click_end_button s) with
      | Ok true =>
          looking_for_end_button s' = false /\
          rounds_completed s' = rounds_completed s + 1
      | _ =>
          looking_for_end_button s' = true /\
          rounds_completed s' = rounds_completed s
      end
    else rounds_completed s' = rounds_completed s)).
  unfold loop_body. do 3 wp_step.
  - wp_attempt click_end_button_frame.
    all: unfold time_sleep; repeat wp_step; cbn; split; congruence.
  - wp_attempt click_start_button_frame.
    all: unfold center_click, pyautogui_moveTo, pyautogui_click, time_sleep.
    all: repeat wp_step; cbn; congruence.
Qed.

Lemma initial_check_outcome s :
  let o := initial_check s in
  let e := click_end_button s in
  let cfg := config (self s) in
  rounds_completed (final o) = rounds_completed s /\
  match res e with
  | Ok true =>
      looking_for_end_button (final o) = false /\
      events o =
        (events e ++ [ESleep (Int (Config.between_rounds_wait_time cfg)) (res o)])%list
  | Ok false =>
      let st := click_start_button (final e) in
      match res st with
      | Ok true =>
          looking_for_end_button (final o) = true /\
          events o =
            (events e ++ events st
             ++ [ESleep (Int (Config.round_wait_time cfg)) (res o)])%list
      | Ok false =>
          looking_for_end_button (final o) = false /\
          events o = (events e ++ events st)%list /\
          res o = Ok tt
      | Raise x => res o = Raise x
      end
  | Raise x => res o = Raise x
  end.
Proof.
  change (wp initial_check s (fun r s' evs =>
    rounds_completed s' = rounds_completed s /\
    match res (click_end_button s) with
    | Ok true =>
        looking_for_end_button s' = false /\
        evs = (events (click_end_button s)
               ++ [ESleep (Int (Config.between_rounds_wait_time (config (self s)))) r])%list
    | Ok false =>
        match res (click_start_button (final (click_end_button s))) with
        | Ok true =>
            looking_for_end_button s' = true /\
            evs = (events (click_end_button s)
                   ++ events (click_start_button (final (click_end_button s)))
                   ++ [ESleep (Int (Config.round_wait_time (config (self s)))) r])%list
        | Ok false =>
            looking_for_end_button s' = false /\
            evs = (events (click_end_button s)
                   ++ events (click_start_button (final (click_end_button s))))%list /\
            r = Ok tt
        | Raise x => r = Raise x
        end
    | Raise x => r = Raise x
    end)).
  unfold initial_check.
  wp_attempt click_end_button_frame.
  - unfold time_sleep. repeat wp_step.
    all: cbn; repeat split; congruence.
  - do 2 wp_step. wp_attempt click_start_button_frame.
    + unfold time_sleep. repeat wp_step.
      all: cbn; rewrite ?app_nil_r; repeat split; congruence.
    + repeat wp_step. cbn. rewrite ?app_nil_r. repeat split; congruence.
    + split; [congruence | reflexivity].
  - split; [congruence | reflexivity].
Qed.

End Rounds.

Section Fallback.

Context {World : Type} {desktop : Desktop World}.

Implicit Types (s : State World) (evs : list event).

(** A turn that seeks the start button and does not click it: the
    counter goes up by one and the turn waits, or, at the threshold,
    the center of the screen is clicked. *)
Lemma start_miss_outcome s :
  looking_for_end_button s = false ->
  res (click_start_button s) = Ok false ->
  let failures := failures_so_far (self s) + 1 in
  let threshold :=
    Config.getattr (Config.max_failures_before_center_click (config (self s))) 5 in
  let o := loop_body s in
  looking_for_end_button (final o) = false /\
  config (self (final o)) = config (self s) /\
  (failures < threshold ->
   start_button_failures (self (final o)) = Some failures /\
   events o =
     (events (click_start_button s)
      ++ [ESleep (Int (Config.retry_delay (config (self s)))) (res o)])%list) /\
  (failures >= threshold ->
   forall cx cy,
     scaled_screen_center (self s) = Ok (cx, cy) ->
     exists r_move rest,
       events o = (events (click_start_button s) ++ EMoveTo cx cy r_move :: rest)%list /\
       (r_move = Ok tt ->
        exists r_click rest',
          rest = EClick r_click :: rest' /\
          (r_click = Ok tt ->
           start_button_failures (self (final o)) = Some 0 /\
           rest' = [ESleep (Int (Config.retry_delay (config (self s)) * 2)) (res o)]))).
Proof.
  intros Hlook Hfail. cbn zeta.
  change (wp loop_body s (fun r s' evs =>
    looking_for_end_button s' = false /\
    config (self s') = config (self s) /\
    (failures_so_far (self s) + 1
     < Config.getattr (Config.max_failures_before_center_click (config (self s))) 5 ->
     start_button_failures (self s') = Some (failures_so_far (self s) + 1) /\
     evs = (events (click_start_button s)
            ++ [ESleep (Int (Config.retry_delay (config (self s)))) r])%list) /\
    (failures_so_far (self s) + 1
     >= Config.getattr (Config.max_failures_before_center_click (config (self s))) 5 ->
     forall cx cy,
       scaled_screen_center (self s) = Ok (cx, cy) ->
       exists r_move rest,
         evs = (events (click_start_button s) ++ EMoveTo cx cy r_move :: rest)%list /\
         (r_move = Ok tt ->
          exists r_click rest',
            rest = EClick r_click :: rest' /\
            (r_click = Ok tt ->
             start_button_failures (self s') = Some 0 /\
             rest' = [ESleep (Int (Config.retry_delay (config (self s)) * 2)) r]))))).
  unfold loop_body. do 2 wp_step. rewrite Hlook.
  wp_attempt click_start_button_frame; try discriminate Hfail.
  do 4 wp_step.
  match goal with
  | H : self ?s1 = self s |- _ => rewrite H
  end.
  fold (failures_so_far (self s)).
  destruct (Z.geb_spec (failures_so_far (self s) + 1)
              (Config.getattr (Config.max_failures_before_center_click
                                 (config (self s))) 5)) as [Hreach|Hbelow].
  - unfold center_click, pyautogui_moveTo, pyautogui_click, time_sleep.
    do 3 wp_step.
    cbn [self with_self].
    change (scaled_screen_center (set_start_button_failures _ (self final0)))
      with (scaled_screen_center (self final0)).
    rewrite H.
    repeat wp_step.
    all: cbn [looking_for_end_button with_world with_self self config
              set_start_button_failures start_button_failures List.app].
    all: (split; [congruence|]).
    all: (split; [rewrite ?H; reflexivity|]).
    all: (split; [intros Hlt; exfalso; lia|]).
    all: intros _ cx cy Hcenter.
    all: try discriminate Hcenter; injection Hcenter as <- <-.
    all: do 2 eexists; (split; [reflexivity|]).
    all: intros Hm; try discriminate Hm.
    all: do 2 eexists; (split; [reflexivity|]).
    all: intros Hc; try discriminate Hc.
    all: split; reflexivity.
  - unfold time_sleep. repeat wp_step.
    all: cbn [looking_for_end_button with_world with_self self config
              set_start_button_failures start_button_failures List.app].
    all: (split; [congruence|]).
    all: (split; [rewrite ?H; reflexivity|]).
    all: (split; [|intros Hge; exfalso; lia]).
    all: intros _; split; reflexivity.
Qed.

(** Failed turns leave the configuration alone. *)
Lemma misses_keep_config n :
  forall s, start_misses n s -> config (self (after_turns n s)) = config (self s).
Proof.
  induction n as [|n IH]; intros s Hmiss; [reflexivity|].
  destruct Hmiss as (Hlook & Hfail & _ & Hrest).
  destruct (start_miss_outcome s Hlook Hfail) as (_ & Hcfg & _).
  cbn [after_turns]. rewrite (IH _ Hrest). exact Hcfg.
Qed.

(** Failed turns count up from the counter they start with. *)
Lemma misses_count_up n :
  forall s,
    start_misses n s ->
    failures_so_far (self s) + Z.of_nat n
      < Config.getattr (Config.max_failures_before_center_click (config (self s))) 5 ->
    failures_so_far (self (after_turns n s)) = failures_so_far (self s) + Z.of_nat n.
Proof.
  induction n as [|n IH]; intros s Hmiss Hbelow.
  - cbn [after_turns Z.of_nat]. lia.
  - destruct Hmiss as (Hlook & Hfail & _ & Hrest).
    destruct (start_miss_outcome s Hlook Hfail) as (_ & Hcfg & Hcount & _).
    cbn zeta in Hcount. destruct Hcount as [Hc _]; [lia|].
    assert (Hnext : failures_so_far (self (final (loop_body s)))
                    = failures_so_far (self s) + 1)
      by (unfold failures_so_far at 1; now rewrite Hc).
    cbn [after_turns]. rewrite (IH (final (loop_body s)) Hrest).
    + rewrite Hnext. lia.
    + rewrite Hnext, Hcfg. lia.
Qed.

(** X23.  In the state that seeks the start button, a failed lookup
    adds 1 to [start_button_failures].  When this brings the counter to
    the configured threshold ([max_failures_before_center_click], 5
    when the configuration does not set it), the next action is a
    pointer move to the center of the stored screen size,
    [(screen_width // 2, screen_height // 2)], each coordinate divided
    by its scale factor and truncated unless both factors are 1.0,
    followed by a click; the counter is then 0, the wait is
    [retry_delay * 2], and the state still seeks the start button.
    Below the threshold there is no such click: the turn only waits
    [retry_delay]. *)
Theorem center_click_at_threshold s :
  looking_for_end_button s = false ->
  res (click_start_button s) = Ok false ->
  let a := self s in
  let failures := failures_so_far a + 1 in
  let threshold :=
    Config.getattr (Config.max_failures_before_center_click (config a)) 5 in
  let o := loop_body s in
  looking_for_end_button (final o) = false /\
  (failures < threshold ->
   start_button_failures (self (final o)) = Some failures /\
   events o =
     (events (click_start_button s)
      ++ [ESleep (Int (Config.retry_delay (config a))) (res o)])%list) /\
  (failures >= threshold ->
   forall cx cy,
     (if negb (Float.eqb (scale_factor_x a) Float.one)
         || negb (Float.eqb (scale_factor_y a) Float.one)
      then Float.int_of_div (screen_width a / 2) (scale_factor_x a) = Ok cx /\
           Float.int_of_div (screen_height a / 2) (scale_factor_y a) = Ok cy
      else cx = screen_width a / 2 /\ cy = screen_height a / 2) ->
     exists r_move rest,
       events o = (events (click_start_button s) ++ EMoveTo cx cy r_move :: rest)%list /\
       (r_move = Ok tt ->
        exists r_click rest',
          rest = EClick r_click :: rest' /\
          (r_click = Ok tt ->
           start_button_failures (self (final o)) = Some 0 /\
           rest' = [ESleep (Int (Config.retry_delay (config a) * 2)) (res o)]))).
Proof.
  intros Hlook Hfail. cbn zeta.
  destruct (start_miss_outcome s Hlook Hfail) as (Hl & _ & Hbelow & Hreach).
  split; [exact Hl|]. split; [exact Hbelow|].
  intros Hge cx cy Htarget. apply (Hreach Hge).
  unfold scaled_screen_center.
  destruct (negb (Float.eqb (scale_factor_x (self s)) Float.one)
            || negb (Float.eqb (scale_factor_y (self s)) Float.one)).
  - destruct Htarget as [Hx Hy]. now rewrite Hx, Hy.
  - destruct Htarget as [-> ->]. reflexivity.
Qed.


(** An [Exception] leaves the loop body only from a wait or from the
    click in the center of the screen. *)
Lemma loop_body_exception s e :
  res (loop_body s) = Raise (PyException e) ->
  (exists t, ends_with (events (loop_body s)) (ESleep t (Raise (PyException e))))
  \/ (looking_for_end_button s = false /\
      res (click_start_button s) = Ok false /\
      (scaled_screen_center (self s) = Raise (PyException e)
       \/ (exists x y,
             ends_with (events (loop_body s)) (EMoveTo x y (Raise (PyException e))))
       \/ ends_with (events (loop_body s)) (EClick (Raise (PyException e))))).
Proof.
  change (wp loop_body s (fun r _ evs =>
    r = Raise (PyException e) ->
    (exists t, ends_with evs (ESleep t (Raise (PyException e))))
    \/ (looking_for_end_button s = false /\
        res (click_start_button s) = Ok false /\
        (scaled_screen_center (self s) = Raise (PyException e)
         \/ (exists x y, ends_with evs (EMoveTo x y (Raise (PyException e))))
         \/ ends_with evs (EClick (Raise (PyException e))))))).
  unfold loop_body. do 3 wp_step.
  - wp_attempt click_end_button_frame.
    all: unfold time_sleep; repeat wp_step.
    all: intros Hr; try discriminate Hr; injection Hr as ->.
    all: left; eexists; last_event.
  - wp_attempt click_start_button_frame.
    all: unfold center_click, pyautogui_moveTo, pyautogui_click, time_sleep.
    all: do 4 try wp_step.
    all: try (intros Hr; discriminate Hr).
    + repeat wp_step.
      all: intros Hr; try discriminate Hr; injection Hr as ->.
      all: left; eexists; last_event.
    + cbn [self with_self].
      match goal with
      | H : self _ = self s |- _ => rewrite !H
      end.
      change (scaled_screen_center (set_start_button_failures _ (self s)))
        with (scaled_screen_center (self s)).
      repeat wp_step.
      all: intros Hr; try discriminate Hr; injection Hr as ->.
      all: first
             [ left; eexists; solve [last_event]
             | right; split; [reflexivity|]; split; [reflexivity|];
               first [ left;
                       match goal with
                       | Hc : scaled_screen_center _ = _, Hs : self _ = self _ |- _ =>
                           cbn [self with_self] in Hc; rewrite Hs in Hc; exact Hc
                       end
                     | right; left; do 2 eexists; solve [last_event]
                     | right; right; solve [last_event] ] ].
Qed.

(** How [run_rounds] ends: an [Exception] is logged with its message,
    an interrupt with the number of rounds. *)
Lemma run_rounds_report fuel s :
  let s0 := with_looking_for_end_button false (with_rounds_completed 0 s) in
  let o := bind initial_check (fun _ => main_loop fuel) s0 in
  final (run_rounds fuel s) = final o /\
  match res o with
  | Ok _ =>
      res (run_rounds fuel s) = Ok Running /\
      events (run_rounds fuel s) = events o
  | Raise KeyboardInterrupt =>
      res (run_rounds fuel s) = Ok Returned /\
      events (run_rounds fuel s)
      = (events o ++ [ELog (LogInterrupted (rounds_completed (final o)))])%list
  | Raise (PyException e) =>
      res (run_rounds fuel s) = Ok Returned /\
      events (run_rounds fuel s) = (events o ++ [ELog (LogExecutionError e)])%list
  end.
Proof.
  cbn zeta.
  remember (bind initial_check (fun _ : unit => main_loop fuel)
              (with_looking_for_end_button false (with_rounds_completed 0 s)))
    as o eqn:Ho.
  unfold run_rounds. rewrite bind_run. cbn [modify]. rewrite bind_run. cbn [modify].
  rewrite <- Ho.
  destruct o as [[u|[|e]] s1 evs1]; cbn; repeat split; reflexivity.
Qed.

End Fallback.

Section Reconciliation.

Context {World : Type} {desktop : Desktop World}.

Implicit Types (s : State World) (evs : list event).

(** What [_verify_screen_dimensions] leaves in the object, by the answer
    of the screenshot. *)
Lemma verify_screen_dimensions_outcome s :
  let a := self s in
  let a' := self (final (_verify_screen_dimensions s)) in
  match fst (screenshot (world s)) with
  | Ok (cw, ch) =>
      if (cw =? screen_width a) && (ch =? screen_height a)
      then a' = a
      else forall fx fy,
          Float.int_truediv cw (screen_width a) = Ok fx ->
          Float.int_truediv ch (screen_height a) = Ok fy ->
          a' = set_screen cw ch (set_scale_factor_y fy (set_scale_factor_x fx a))
  | Raise _ => a' = a
  end.
Proof.
  cbn zeta.
  change (wp _verify_screen_dimensions s (fun _ s' _ =>
    match fst (screenshot (world s)) with
    | Ok (cw, ch) =>
        if (cw =? screen_width (self s)) && (ch =? screen_height (self s))
        then self s' = self s
        else forall fx fy,
            Float.int_truediv cw (screen_width (self s)) = Ok fx ->
            Float.int_truediv ch (screen_height (self s)) = Ok fy ->
            self s' = set_screen cw ch
                        (set_scale_factor_y fy (set_scale_factor_x fx (self s)))
    | Raise _ => self s' = self s
    end)).
  unfold _verify_screen_dimensions, pyautogui_screenshot_size.
  destruct (screenshot (world s)) as [rs w'] eqn:Es. cbn [fst].
  do 2 wp_step.
  eapply wp_call_eq; [exact Es|]. cbn beta iota.
  destruct rs as [[cw ch]|[|e]]; cbn [with_world self]; [|reflexivity|].
  - do 3 wp_step.
    + destruct (cw =? _), (ch =? _); try discriminate.
      all: repeat wp_step.
      all: intros fx fy Hx Hy; cbn in *; congruence.
    + destruct (cw =? _), (ch =? _); try discriminate.
      repeat wp_step. reflexivity.
  - repeat wp_step. reflexivity.
Qed.

(** [prepare_scaled_images] only replaces the paths of the images. *)
Lemma prepare_scaled_images_frame s :
  wp prepare_scaled_images s
     (fun _ s' _ =>
        scale_factor_x (self s') = scale_factor_x (self s) /\
        scale_factor_y (self s') = scale_factor_y (self s) /\
        screen_width (self s') = screen_width (self s) /\
        screen_height (self s') = screen_height (self s)).
Proof.
  unfold prepare_scaled_images, scaled_image.
  repeat wp_step.
  all: repeat split; reflexivity.
Qed.

Lemma init_scale_factors cfg s rw rh w1 :
  size (world s) = (Ok (rw, rh), w1) ->
  let a := self (final (__init__ cfg s)) in
  match fst (screenshot w1) with
  | Ok (cw, ch) =>
      if (cw =? rw) && (ch =? rh)
      then scale_factor_x a = Float.one /\ scale_factor_y a = Float.one /\
           screen_width a = rw /\ screen_height a = rh
      else forall fx fy,
          Float.int_truediv cw rw = Ok fx ->
          Float.int_truediv ch rh = Ok fy ->
          scale_factor_x a = fx /\ scale_factor_y a = fy /\
          screen_width a = cw /\ screen_height a = ch
  | Raise (PyException _) =>
      scale_factor_x a = Float.one /\ scale_factor_y a = Float.one /\
      screen_width a = rw /\ screen_height a = rh
  | Raise KeyboardInterrupt => True
  end.
Proof.
  intros Hsize. cbn zeta.
  change (wp (__init__ cfg) s (fun _ s' _ =>
    match fst (screenshot w1) with
    | Ok (cw, ch) =>
        if (cw =? rw) && (ch =? rh)
        then scale_factor_x (self s') = Float.one /\
             scale_factor_y (self s') = Float.one /\
             screen_width (self s') = rw /\ screen_height (self s') = rh
        else forall fx fy,
            Float.int_truediv cw rw = Ok fx ->
            Float.int_truediv ch rh = Ok fy ->
            scale_factor_x (self s') = fx /\ scale_factor_y (self s') = fy /\
            screen_width (self s') = cw /\ screen_height (self s') = ch
    | Raise (PyException _) =>
        scale_factor_x (self s') = Float.one /\
        scale_factor_y (self s') = Float.one /\
        screen_width (self s') = rw /\ screen_height (self s') = rh
    | Raise KeyboardInterrupt => True
    end)).
  unfold __init__, pyautogui_size. wp_step.
  eapply wp_call_eq; [exact Hsize|]. cbn beta iota.
  do 3 wp_step.
  unfold _verify_screen_dimensions, pyautogui_screenshot_size.
  destruct (screenshot w1) as [rs w2] eqn:Es. cbn [fst].
  do 2 wp_step.
  eapply wp_call_eq; [exact Es|]. cbn beta iota.
  destruct rs as [[cw ch]|[|e]]; [| exact I |].
  - do 3 wp_step; cbn [self with_self with_world screen_width screen_height] in *.
    + destruct (cw =? rw), (ch =? rh); try discriminate; cbn [andb].
      all: repeat first
             [ wp_step
             | eapply wp_mono; [apply prepare_scaled_images_frame|]; cbn beta;
               intros [?|?] ? ? (Hsx & Hsy & Hw & Hh) ].
      all: try (intros fx fy Hx Hy); cbn [self with_self with_world scale_factor_x scale_factor_y screen_width screen_height set_scale_factor_x set_scale_factor_y set_screen set_has_alt_end_button set_images] in *;
        repeat split; congruence.
    + destruct (cw =? rw), (ch =? rh); try discriminate; cbn [andb].
      repeat first
        [ wp_step
        | eapply wp_mono; [apply prepare_scaled_images_frame|]; cbn beta;
          intros [?|?] ? ? (Hsx & Hsy & Hw & Hh) ].
      all: cbn [self with_self with_world scale_factor_x scale_factor_y screen_width screen_height set_scale_factor_x set_scale_factor_y set_screen set_has_alt_end_button set_images] in *;
        repeat split; congruence.
  - repeat first
      [ wp_step
      | eapply wp_mono; [apply prepare_scaled_images_frame|]; cbn beta;
        intros [?|?] ? ? (Hsx & Hsy & Hw & Hh) ].
    all: cbn [self with_self with_world scale_factor_x scale_factor_y screen_width screen_height set_scale_factor_x set_scale_factor_y set_screen set_has_alt_end_button set_images] in *;
        repeat split; congruence.
Qed.

End Reconciliation.

(** * The pointer: failures, bounds and the click point *)

Section Pointer.

Context {World : Type} {desktop : Desktop World}.

Implicit Types (s : State World) (evs : list event).

(** C1, as amended.  An [Exception] of the pointer move or of the click
    inside [find_and_click] is caught there, logged, and answered with
    [False].  An [Exception] ends the loop only when it comes from a
    wait or from the click in the center of the screen (its scale
    division, its pointer move or its click); [run_rounds] then logs it
    with its message and without the number of rounds, which it logs
    on a user interrupt only. *)
Theorem input_controller_failure_handling :
  (forall s image description alt e,
      let o := find_and_click image description alt s in
      (exists x y, In (EMoveTo x y (Raise (PyException e))) (events o))
      \/ In (EClick (Raise (PyException e))) (events o) ->
      res o = Ok false /\ ends_with (events o) (ELog (LogFindError description e)))
  /\ (forall s e,
         res (loop_body s) = Raise (PyException e) ->
         (exists t, ends_with (events (loop_body s)) (ESleep t (Raise (PyException e))))
         \/ (looking_for_end_button s = false /\
             res (click_start_button s) = Ok false /\
             (scaled_screen_center (self s) = Raise (PyException e)
              \/ (exists x y,
                    ends_with (events (loop_body s))
                      (EMoveTo x y (Raise (PyException e))))
              \/ ends_with (events (loop_body s)) (EClick (Raise (PyException e))))))
  /\ (forall fuel s,
         let s0 := with_looking_for_end_button false (with_rounds_completed 0 s) in
         let o := bind initial_check (fun _ => main_loop fuel) s0 in
         match res o with
         | Ok _ =>
             res (run_rounds fuel s) = Ok Running /\
             events (run_rounds fuel s) = events o
         | Raise KeyboardInterrupt =>
             res (run_rounds fuel s) = Ok Returned /\
             events (run_rounds fuel s)
             = (events o ++ [ELog (LogInterrupted (rounds_completed (final o)))])%list
         | Raise (PyException e) =>
             res (run_rounds fuel s) = Ok Returned /\
             events (run_rounds fuel s)
             = (events o ++ [ELog (LogExecutionError e)])%list
         end).
Proof.
  split; [|split].
  - intros s image description alt e. cbn zeta.
    apply (find_and_click_pointer_failure s image description alt e).
  - apply loop_body_exception.
  - intros fuel s. apply run_rounds_report.
Qed.

(** C2, as amended.  When the sizes differ, [_verify_screen_dimensions]
    stores the captured size in the object; but the bounds check that
    [find_and_click] makes before a click uses the size that
    [pyautogui.size()] answers in that call, the size reported by the
    input subsystem, and not the stored one. *)
Theorem bounds_check_uses_reported_size :
  (forall s cw ch fx fy,
      fst (screenshot (world s)) = Ok (cw, ch) ->
      (cw =? screen_width (self s)) && (ch =? screen_height (self s)) = false ->
      Float.int_truediv cw (screen_width (self s)) = Ok fx ->
      Float.int_truediv ch (screen_height (self s)) = Ok fy ->
      screen_width (self (final (_verify_screen_dimensions s))) = cw /\
      screen_height (self (final (_verify_screen_dimensions s))) = ch)
  /\ (forall s image description alt x y r,
         let o := find_and_click image description alt s in
         In (EMoveTo x y r) (events o) ->
         exists location sw sh xy,
           In (ESize (Ok (sw, sh))) (events o) /\
           scaled_center location (scale_factor_x (self s)) (scale_factor_y (self s))
           = Ok xy /\
           (x, y) = safe_point location xy sw sh).
Proof.
  split.
  - intros s cw ch fx fy Hshot Hdiff Hx Hy.
    pose proof (verify_screen_dimensions_outcome s) as H. cbn zeta in H.
    rewrite Hshot, Hdiff in H. rewrite (H fx fy Hx Hy). split; reflexivity.
  - intros s image description alt x y r o Hin.
    destruct (find_and_click_moves_to s image description alt x y r Hin)
      as (location & img & c & sw & sh & xy & _ & Hsize & Hc & Hxy & _).
    exists location, sw, sh, xy. auto.
Qed.

(** C3.  Every point that [find_and_click] moves the pointer to lies in
    [[margin, screenDim - margin]] on both axes, with [margin = 20],
    whatever the match and the scale factors; [screenDim] is the screen
    size that the bounds check reads, and the interval is taken to be
    non-empty. *)
Theorem click_point_within_margin s image description alt x y r sw sh :
  In (EMoveTo x y r) (events (find_and_click image description alt s)) ->
  In (ESize (Ok (sw, sh))) (events (find_and_click image description alt s)) ->
  margin <= sw - margin ->
  margin <= sh - margin ->
  margin = 20 /\
  margin <= x <= sw - margin /\ margin <= y <= sh - margin.
Proof.
  intros Hin Hsize Hw Hh.
  destruct (find_and_click_moves_to s image description alt x y r Hin)
    as (location & img & c & sw' & sh' & xy & _ & _ & _ & Hxy & _ & Huniq).
  specialize (Huniq sw sh Hsize). injection Huniq as <- <-.
  pose proof (safe_point_within location xy sw sh Hw Hh) as H.
  rewrite <- Hxy in H. cbn [fst snd] in H. split; [reflexivity | exact H].
Qed.

(** C4.  When the scaled center of the match lies within the safe
    bounds, the pointer is moved to exactly that center: the center of
    the rectangle with each coordinate divided by its scale factor (the
    division is skipped when both factors are 1.0). *)
Theorem safe_center_is_kept s image description alt x y r location img c sw sh cx cy :
  let o := find_and_click image description alt s in
  let sx := scale_factor_x (self s) in
  let sy := scale_factor_y (self s) in
  In (EMoveTo x y r) (events o) ->
  In (ELocate img c (Ok (Some location))) (events o) ->
  In (ESize (Ok (sw, sh))) (events o) ->
  scaled_center location sx sy = Ok (cx, cy) ->
  margin <= cx <= sw - margin ->
  margin <= cy <= sh - margin ->
  (x, y) = (cx, cy) /\
  if negb (Float.eqb sx Float.one) || negb (Float.eqb sy Float.one)
  then Float.int_of_div (fst (center location)) sx = Ok x /\
       Float.int_of_div (snd (center location)) sy = Ok y
  else (x, y) = center location.
Proof.
  intros o sx sy Hin Hloc Hsize Hc Hx Hy.
  destruct (find_and_click_moves_to s image description alt x y r Hin)
    as (location' & img' & c' & sw' & sh' & xy & _ & _ & Hc' & Hxy & Hl & Huniq).
  specialize (Huniq sw sh Hsize). injection Huniq as <- <-.
  specialize (Hl location img c Hloc). subst location'.
  fold sx sy in Hc'. rewrite Hc in Hc'. injection Hc' as <-.
  rewrite (safe_point_inside location cx cy sw sh Hx Hy) in Hxy.
  split; [exact Hxy|]. injection Hxy as -> ->.
  unfold scaled_center in Hc. destruct (center location) as [x0 y0]. cbn [fst snd].
  destruct (negb (Float.eqb sx Float.one) || negb (Float.eqb sy Float.one)).
  - destruct (Float.int_of_div x0 sx) as [px|]; [|discriminate].
    destruct (Float.int_of_div y0 sy) as [py|]; [|discriminate].
    injection Hc as -> ->. split; reflexivity.
  - injection Hc as -> ->. reflexivity.
Qed.

End Pointer.

(** * The startup probe *)

Section Startup.

Context {World : Type} {desktop : Desktop World}.

Implicit Types (s : State World) (evs : list event).

(** The end-button attempt looks for the primary image first, and for
    the alternative one only when the first was not clicked. *)
Lemma click_end_button_order s :
  let p := find_and_click (end_button_img (self s)) "end button" None s in
  events (click_end_button s) =
  (events p ++
   match res p with
   | Ok false =>
       if has_alt_end_button (self s)
       then events (find_and_click (end_button_alt_img (self s))
                      "alternative end button" None (final p))
       else []
   | _ => []
   end)%list.
Proof.
  cbn zeta. unfold click_end_button. rewrite bind_run. cbn [get].
  rewrite bind_run.
  destruct (find_and_click (end_button_img (self s)) "end button" None s)
    as [[[|]|e] s1 evs1]; cbn [res final events negb andb List.app];
    rewrite ?app_nil_r; try reflexivity.
  all: destruct (has_alt_end_button (self s)); cbn [ret List.app];
    rewrite ?app_nil_r; try reflexivity.
  all: now destruct (find_and_click _ _ _ s1).
Qed.

(** C7.  The startup probe tries the end button first, the primary image
    and then the alternative one.  If that clicks, the state seeks the
    start button, the wait is [between_rounds_wait_time] and
    [rounds_completed] is still 0; otherwise, if the start button is
    clicked, the state seeks the end button and the wait is
    [round_wait_time]; otherwise the state seeks the start button and
    there is no wait. *)
Theorem startup_probe s :
  let o := initial_check s in
  let e := click_end_button s in
  let p := find_and_click (end_button_img (self s)) "end button" None s in
  let cfg := config (self s) in
  events e =
    (events p ++
     match res p with
     | Ok false =>
         if has_alt_end_button (self s)
         then events (find_and_click (end_button_alt_img (self s))
                        "alternative end button" None (final p))
         else []
     | _ => []
     end)%list /\
  rounds_completed (final o) = rounds_completed s /\
  rounds_completed (final (run_rounds 0 s)) = 0 /\
  match res e with
  | Ok true =>
      looking_for_end_button (final o) = false /\
      events o =
        (events e ++ [ESleep (Int (Config.between_rounds_wait_time cfg)) (res o)])%list
  | Ok false =>
      let st := click_start_button (final e) in
      match res st with
      | Ok true =>
          looking_for_end_button (final o) = true /\
          events o =
            (events e ++ events st
             ++ [ESleep (Int (Config.round_wait_time cfg)) (res o)])%list
      | Ok false =>
          looking_for_end_button (final o) = false /\
          events o = (events e ++ events st)%list /\
          res o = Ok tt
      | Raise x => res o = Raise x
      end
  | Raise x => res o = Raise x
  end.
Proof.
  cbn zeta. split; [apply click_end_button_order|].
  destruct (initial_check_outcome s) as [Hrounds Hcases].
  split; [exact Hrounds|]. split; [|exact Hcases]. clear Hrounds Hcases.
  destruct (run_rounds_report 0 s) as [Hfinal _]. rewrite Hfinal. clear Hfinal.
  cbn [main_loop]. rewrite bind_run.
  set (s0 := with_looking_for_end_button false (with_rounds_completed 0 s)).
  destruct (initial_check_outcome s0) as [H0 _].
  destruct (initial_check s0) as [[u|e] s1 evs1];
    cbn [final res events ret] in *; exact H0.
Qed.

End Startup.

(** * The scale factors *)

Section Scale.

Context {World : Type} {desktop : Desktop World}.

Implicit Types (s : State World) (evs : list event).

(** C8.  For a reported size [(rw, rh)] and a captured size [(cw, ch)],
    the scale factors that [__init__] leaves in the object are the
    quotients [cw / rw] and [ch / rh] of Python's true division (and
    the captured size becomes the screen size) when the sizes differ;
    they are 1.0 when the sizes are the same; and they stay 1.0, with
    the reported size kept, when the screenshot fails. *)
Theorem scale_factors_after_init cfg s rw rh w1 :
  size (world s) = (Ok (rw, rh), w1) ->
  0 < rw -> 0 < rh ->
  let a := self (final (__init__ cfg s)) in
  match fst (screenshot w1) with
  | Ok (cw, ch) =>
      (forall fx fy,
          Float.int_truediv cw rw = Ok fx ->
          Float.int_truediv ch rh = Ok fy ->
          scale_factor_x a = fx /\ scale_factor_y a = fy)
      /\ if (cw =? rw) && (ch =? rh)
         then scale_factor_x a = Float.one /\ scale_factor_y a = Float.one /\
              screen_width a = rw /\ screen_height a = rh
         else forall fx fy,
             Float.int_truediv cw rw = Ok fx ->
             Float.int_truediv ch rh = Ok fy ->
             screen_width a = cw /\ screen_height a = ch
  | Raise (PyException _) =>
      scale_factor_x a = Float.one /\ scale_factor_y a = Float.one /\
      screen_width a = rw /\ screen_height a = rh
  | Raise KeyboardInterrupt => True
  end.
Proof.
  intros Hsize Hrw Hrh. cbn zeta.
  pose proof (init_scale_factors cfg s rw rh w1 Hsize) as H. cbn zeta in H.
  destruct (fst (screenshot w1)) as [[cw ch]|[|e]]; [|exact I|exact H].
  destruct (cw =? rw) eqn:Ew; [destruct (ch =? rh) eqn:Eh|]; cbn [andb] in *.
  - apply Z.eqb_eq in Ew, Eh. subst cw ch.
    split; [|exact H]. intros fx fy Hx Hy.
    rewrite (int_truediv_same rw Hrw) in Hx. rewrite (int_truediv_same rh Hrh) in Hy.
    destruct H as (Hsx & Hsy & _). split; congruence.
  - split; intros fx fy Hx Hy; destruct (H fx fy Hx Hy) as (? & ? & ? & ?); auto.
  - split; intros fx fy Hx Hy; destruct (H fx fy Hx Hy) as (? & ? & ? & ?); auto.
Qed.

End Scale.

(** * The matcher *)

Section Matcher.

Context {World : Type} {desktop : Desktop World}.

Implicit Types (s : State World) (evs : list event).

(** C9.  No [Exception] leaves a lookup: [find_and_click] returns a
    boolean (or is interrupted by the user).  When the matcher refuses
    the confidence, the same image is looked up once more in exact
    mode, and exact lookups happen for no other reason; the refusal is
    no error: a call that returns [True] has logged none.  Any other
    failure of a lookup is logged and answered with [False]. *)
Theorem lookup_failure_is_soft s image description alt :
  let o := find_and_click image description alt s in
  (forall e, res o <> Raise (PyException e)) /\
  count exact_lookup (events o) = count confidence_unsupported (events o) /\
  (forall img c e,
      In (ELocate img (Some c) (Raise (PyException e))) (events o) ->
      contains "confidence" e = true ->
      exists r, In (ELocate img None r) (events o)) /\
  (res o = Ok true -> forall e, ~ In (ELog (LogFindError description e)) (events o)) /\
  (forall img c e,
      In (ELocate img c (Raise (PyException e))) (events o) ->
      confidence_unsupported (ELocate img c (Raise (PyException e))) = false ->
      res o = Ok false /\ ends_with (events o) (ELog (LogFindError description e))).
Proof.
  cbn zeta.
  pose proof (find_and_click_frame s image description alt) as (_ & _ & _ & Hne).
  pose proof (find_and_click_lookup s image description alt)
    as (Hcount & Hsoft & Hretry & Hquiet).
  split; [exact Hne|]. split; [exact Hcount|]. split; [exact Hretry|].
  split; [exact Hquiet|]. exact Hsoft.
Qed.

(** C10.  The class [Config] of [config.py] defines
    [confidence_threshold] as 0.8, so the guarded assignment of 0.9 in
    [cli.py] is never run, and every lookup that [find_and_click] makes
    with a confidence, under that configuration, uses 0.8. *)
Theorem default_confidence_threshold :
  Config.hasattr (Config.confidence_threshold Config.Config) = true /\
  Config.confidence_threshold (Config.cli_defaults Config.Config)
  = Some (Float.lit 8 10) /\
  Float.lit 8 10 <> Float.lit 9 10 /\
  forall s image description alt img c r,
    config (self s) = Config.cli_defaults Config.Config ->
    In (ELocate img (Some c) r) (events (find_and_click image description alt s)) ->
    c = Float.lit 8 10.
Proof.
  split; [reflexivity|]. split; [reflexivity|]. split; [vm_compute; discriminate|].
  intros s image description alt img c r Hcfg Hin.
  rewrite (find_and_click_confidence s image description alt img c r Hin), Hcfg.
  reflexivity.
Qed.

End Matcher.

(** * The claims on concrete desktops *)

Section Examples.

Import Static.

(** C1 as stated fails.  With a pointer that cannot be moved, the
    exception of [moveTo] inside [find_and_click] gives the soft result
    [False], and four such failures in a row leave the loop running;
    the loop ends at the click in the center of the screen, and the
    error line that reports it carries no number of rounds. *)
Lemma pointer_failure_is_not_fatal :
  let s := state (clicker 1920 1080 Float.one Float.one None) false stuck_pointer in
  let o := find_and_click start "start button" None s in
  In (EMoveTo 125 125 (Raise (PyException "pointer device unavailable"))) (events o) /\
  res o = Ok false /\
  res (run_rounds 4 s) = Ok Running /\
  res (run_rounds 5 s) = Ok Returned /\
  ends_with (events (run_rounds 5 s))
    (ELog (LogExecutionError "pointer device unavailable")) /\
  forall n, ~ In (ELog (LogInterrupted n)) (events (run_rounds 5 s)).
Proof.
  cbn zeta. split; [vm_compute; find_event|].
  split; [vm_compute; reflexivity|].
  split; [vm_compute; reflexivity|].
  split; [vm_compute; reflexivity|].
  split.
  - match goal with
    | |- ends_with ?l _ => exists (removelast l); vm_compute; reflexivity
    end.
  - intros n Hin. vm_compute in Hin. split_in Hin.
Qed.

Lemma input_controller_failure_handling_witness :
  let e := "pointer device unavailable" in
  let s := state (clicker 1920 1080 Float.one Float.one None) false stuck_pointer in
  let s4 := state (clicker 1920 1080 Float.one Float.one (Some 4)) false stuck_pointer in
  (res (find_and_click start "start button" None s) = Ok false /\
   ends_with (events (find_and_click start "start button" None s))
     (ELog (LogFindError "start button" e)))
  /\ res (loop_body s4) = Raise (PyException e)
  /\ ((exists t, ends_with (events (loop_body s4)) (ESleep t (Raise (PyException e))))
      \/ (looking_for_end_button s4 = false /\
          res (click_start_button s4) = Ok false /\
          (scaled_screen_center (self s4) = Raise (PyException e)
           \/ (exists x y,
                 ends_with (events (loop_body s4)) (EMoveTo x y (Raise (PyException e))))
           \/ ends_with (events (loop_body s4)) (EClick (Raise (PyException e))))))
  /\ res (run_rounds 5 s) = Ok Returned.
Proof.
  cbn zeta.
  destruct (input_controller_failure_handling (desktop := desktop)) as (H1 & H2 & H3).
  split; [|split; [|split]].
  - apply H1. left. exists 125, 125. vm_compute. find_event.
  - vm_compute. reflexivity.
  - apply H2. vm_compute. reflexivity.
  - specialize (H3 5%nat
      (state (clicker 1920 1080 Float.one Float.one None) false stuck_pointer)).
    cbn zeta in H3.
    assert (E : res (bind initial_check (fun _ => main_loop 5)
                       (with_looking_for_end_button false
                          (with_rounds_completed 0
                             (state (clicker 1920 1080 Float.one Float.one None)
                                    false stuck_pointer))))
                = Raise (PyException "pointer device unavailable"))
      by (vm_compute; reflexivity).
    rewrite E in H3. exact (proj1 H3).
Defined.

(** C2 as stated fails.  On a HiDPI desktop (reported 1920x1080,
    captured 3840x2160) the object stores the captured size, yet a
    match whose scaled center is (1910, 60) is clicked at (1900, 120):
    the point is replaced because 1910 > 1920 - 20, the bound of the
    reported size; with the captured size it would have been kept. *)
Lemma bounds_check_ignores_captured_size :
  let box := mkBox 3800 100 40 40 in
  let s := final (__init__ (Config.cli_defaults Config.Config) (blank (hidpi box))) in
  let o := find_and_click (start_button_img (self s)) "start button" None s in
  (screen_width (self s), screen_height (self s)) = (3840, 2160) /\
  scaled_center box (scale_factor_x (self s)) (scale_factor_y (self s)) = Ok (1910, 60) /\
  In (EMoveTo 1900 120 (Ok tt)) (events o) /\
  safe_point box (1910, 60) 1920 1080 = (1900, 120) /\
  safe_point box (1910, 60) (screen_width (self s)) (screen_height (self s))
  = (1910, 60) /\
  ~ (forall x y r,
        In (EMoveTo x y r) (events o) ->
        (x, y) = safe_point box (1910, 60)
                   (screen_width (self s)) (screen_height (self s))).
Proof.
  cbn zeta.
  assert (Hin : In (EMoveTo 1900 120 (Ok tt))
                  (events
                     (find_and_click
                        (start_button_img
                           (self (final (__init__ (Config.cli_defaults Config.Config)
                                           (blank (hidpi (mkBox 3800 100 40 40)))))))
                        "start button" None
                        (final (__init__ (Config.cli_defaults Config.Config)
                                  (blank (hidpi (mkBox 3800 100 40 40))))))))
    by (vm_compute; find_event).
  split; [vm_compute; reflexivity|].
  split; [vm_compute; reflexivity|].
  split; [exact Hin|].
  split; [vm_compute; reflexivity|].
  split; [vm_compute; reflexivity|].
  intros H. specialize (H _ _ _ Hin). vm_compute in H. discriminate H.
Qed.

Lemma bounds_check_uses_reported_size_witness :
  let box := mkBox 3800 100 40 40 in
  let s0 := blank (hidpi box) in
  let s := final (__init__ (Config.cli_defaults Config.Config) s0) in
  let o := find_and_click (start_button_img (self s)) "start button" None s in
  (screen_width (self (final (_verify_screen_dimensions
                                (with_self (set_screen 1920 1080) s0)))) = 3840 /\
   screen_height (self (final (_verify_screen_dimensions
                                 (with_self (set_screen 1920 1080) s0)))) = 2160)
  /\ exists location sw sh xy,
      In (ESize (Ok (sw, sh))) (events o) /\
      scaled_center location (scale_factor_x (self s)) (scale_factor_y (self s)) = Ok xy /\
      (1900, 120) = safe_point location xy sw sh.
Proof.
  cbn zeta.
  destruct (bounds_check_uses_reported_size (desktop := desktop)) as (H1 & H2).
  split.
  - apply (H1 _ 3840 2160 (Float.lit 2 1) (Float.lit 2 1)); vm_compute; reflexivity.
  - apply (H2 _ _ _ _ 1900 120 (Ok tt)). vm_compute. find_event.
Defined.

(** The first scenario of the specification: on a 1920x1080 desktop a
    match at (100, 100) of size 50x50 is clicked at (125, 125). *)
Lemma click_point_within_margin_witness :
  let s := state (clicker 1920 1080 Float.one Float.one None) false
             (with_start (mkBox 100 100 50 50)) in
  In (EMoveTo 125 125 (Ok tt)) (events (find_and_click start "start button" None s)) /\
  margin = 20 /\
  margin <= 125 <= 1920 - margin /\ margin <= 125 <= 1080 - margin.
Proof.
  cbn zeta.
  assert (Hin : In (EMoveTo 125 125 (Ok tt))
                  (events (find_and_click start "start button" None
                             (state (clicker 1920 1080 Float.one Float.one None) false
                                (with_start (mkBox 100 100 50 50))))))
    by (vm_compute; find_event).
  split; [exact Hin|].
  apply (click_point_within_margin (desktop := desktop) _ _ _ _ 125 125 (Ok tt) 1920 1080
           Hin).
  - vm_compute. find_event.
  - vm_compute. discriminate.
  - vm_compute. discriminate.
Defined.

(** The second scenario of the specification: with scale factors 2.0, a
    center at (2000, 2000) in the screenshot is clicked at
    (1000, 1000). *)
Lemma safe_center_is_kept_witness :
  let box := mkBox 1975 1975 50 50 in
  let s := final (__init__ (Config.cli_defaults Config.Config) (blank (hidpi box))) in
  center box = (2000, 2000) /\
  scale_factor_x (self s) = Float.lit 2 1 /\
  In (EMoveTo 1000 1000 (Ok tt))
     (events (find_and_click (start_button_img (self s)) "start button" None s)) /\
  Float.int_of_div 2000 (Float.lit 2 1) = Ok 1000.
Proof.
  cbn zeta.
  assert (Hin : In (EMoveTo 1000 1000 (Ok tt))
                  (events
                     (find_and_click
                        (start_button_img
                           (self (final (__init__ (Config.cli_defaults Config.Config)
                                           (blank (hidpi (mkBox 1975 1975 50 50)))))))
                        "start button" None
                        (final (__init__ (Config.cli_defaults Config.Config)
                                  (blank (hidpi (mkBox 1975 1975 50 50))))))))
    by (vm_compute; find_event).
  split; [reflexivity|]. split; [vm_compute; reflexivity|]. split; [exact Hin|].
  pose proof (safe_center_is_kept (desktop := desktop) _ _ _ _ 1000 1000 (Ok tt)
                (mkBox 1975 1975 50 50) start (Some (Float.lit 8 10)) 1920 1080
                1000 1000 Hin) as H.
  cbn zeta in H.
  assert (Hgoal : (1000, 1000) = (1000, 1000) /\
                  Float.int_of_div 2000 (Float.lit 2 1) = Ok 1000 /\
                  Float.int_of_div 2000 (Float.lit 2 1) = Ok 1000).
  { apply H.
    - vm_compute. find_event.
    - vm_compute. find_event.
    - vm_compute. reflexivity.
    - vm_compute. split; discriminate.
    - vm_compute. split; discriminate. }
  exact (proj1 (proj2 Hgoal)).
Defined.

(** On a desktop that shows nothing, with a stored screen of
    2560x1600 and scale factors 2.0, the fifth failed lookup clicks at
    (640, 400) and waits 4 seconds. *)
Lemma center_click_at_threshold_witness :
  let s := state (clicker 2560 1600 (Float.lit 2 1) (Float.lit 2 1) (Some 4)) false idle in
  let o := loop_body s in
  res (click_start_button s) = Ok false /\
  Float.int_of_div (2560 / 2) (Float.lit 2 1) = Ok 640 /\
  Float.int_of_div (1600 / 2) (Float.lit 2 1) = Ok 400 /\
  looking_for_end_button (final o) = false /\
  events o
  = (events (click_start_button s)
     ++ [EMoveTo 640 400 (Ok tt); EClick (Ok tt); ESleep (Int 4) (Ok tt)])%list /\
  exists r_move rest,
    events o = (events (click_start_button s) ++ EMoveTo 640 400 r_move :: rest)%list.
Proof.
  cbn zeta.
  split; [vm_compute; reflexivity|].
  split; [vm_compute; reflexivity|].
  split; [vm_compute; reflexivity|].
  destruct (center_click_at_threshold (desktop := desktop)
              (state (clicker 2560 1600 (Float.lit 2 1) (Float.lit 2 1) (Some 4))
                 false idle))
    as (Hlook & _ & Hreach).
  - reflexivity.
  - vm_compute. reflexivity.
  - split; [exact Hlook|].
    split; [vm_compute; reflexivity|].
    destruct (Hreach ltac:(vm_compute; discriminate) 640 400
                ltac:(vm_compute; split; reflexivity))
      as (r_move & rest & Hevs & _).
    exists r_move, rest. exact Hevs.
Defined.

(** The scale factors on a HiDPI desktop are 2.0 and 2.0. *)
Lemma scale_factors_after_init_witness :
  let s0 := blank (hidpi (mkBox 0 0 10 10)) in
  let a := self (final (__init__ (Config.cli_defaults Config.Config) s0)) in
  Float.int_truediv 3840 1920 = Ok (Float.lit 2 1) /\
  Float.int_truediv 2160 1080 = Ok (Float.lit 2 1) /\
  scale_factor_x a = Float.lit 2 1 /\ scale_factor_y a = Float.lit 2 1 /\
  screen_width a = 3840 /\ screen_height a = 2160.
Proof.
  cbn zeta.
  split; [vm_compute; reflexivity|]. split; [vm_compute; reflexivity|].
  pose proof (scale_factors_after_init (desktop := desktop)
                (Config.cli_defaults Config.Config)
                (blank (hidpi (mkBox 0 0 10 10))) 1920 1080
                (hidpi (mkBox 0 0 10 10)) eq_refl eq_refl eq_refl) as H.
  cbn zeta in H.
  change (fst (screenshot (hidpi (mkBox 0 0 10 10)))) with (@Ok (Z * Z) (3840, 2160)) in H.
  cbn beta iota in H.
  change ((3840 =? 1920) && (2160 =? 1080)) with false in H. cbn iota in H.
  destruct H as [Hscale Hscreen].
  destruct (Hscale (Float.lit 2 1) (Float.lit 2 1)) as [Hx Hy];
    [vm_compute; reflexivity | vm_compute; reflexivity |].
  destruct (Hscreen (Float.lit 2 1) (Float.lit 2 1)) as [Hw Hh];
    [vm_compute; reflexivity | vm_compute; reflexivity |].
  auto.
Defined.

(** Without OpenCV the lookup with the confidence is refused, the exact
    lookup finds the button, and the call returns [True]; a matcher
    that fails for another reason gives [False]. *)
Lemma lookup_failure_is_soft_witness :
  let s := state (clicker 1920 1080 Float.one Float.one None) false
             (no_opencv (mkBox 100 100 50 50)) in
  let s' := state (clicker 1920 1080 Float.one Float.one None) false broken_matcher in
  res (find_and_click start "start button" None s) = Ok true /\
  (exists r, In (ELocate start None r)
               (events (find_and_click start "start button" None s))) /\
  res (find_and_click start "start button" None s') = Ok false /\
  ends_with (events (find_and_click start "start button" None s'))
    (ELog (LogFindError "start button" "Failed to read images/start_button.png")).
Proof.
  cbn zeta.
  split; [vm_compute; reflexivity|].
  split.
  - destruct (lookup_failure_is_soft (desktop := desktop)
                (state (clicker 1920 1080 Float.one Float.one None) false
                   (no_opencv (mkBox 100 100 50 50)))
                start "start button" None) as (_ & _ & Hretry & _ & _).
    apply (Hretry start (Float.lit 8 10)
             "The confidence keyword argument is only available if OpenCV is installed.").
    + vm_compute. find_event.
    + vm_compute. reflexivity.
  - destruct (lookup_failure_is_soft (desktop := desktop)
                (state (clicker 1920 1080 Float.one Float.one None) false broken_matcher)
                start "start button" None) as (_ & _ & _ & _ & Hsoft).
    apply (Hsoft start (Some (Float.lit 8 10))).
    + vm_compute. find_event.
    + vm_compute. reflexivity.
Defined.

(** The lookup of the start button uses the confidence 0.8. *)
Lemma default_confidence_threshold_witness :
  let s := state (clicker 1920 1080 Float.one Float.one None) false idle in
  In (ELocate start (Some (Float.lit 8 10)) (Ok None))
     (events (find_and_click start "start button" None s)) /\
  Float.lit 8 10 = Float.lit 8 10.
Proof.
  cbn zeta.
  assert (Hin : In (ELocate start (Some (Float.lit 8 10)) (Ok None))
                  (events (find_and_click start "start button" None
                             (state (clicker 1920 1080 Float.one Float.one None)
                                false idle))))
    by (vm_compute; find_event).
  split; [exact Hin|].
  destruct (default_confidence_threshold (desktop := desktop)) as (_ & _ & _ & H).
  exact (H (state (clicker 1920 1080 Float.one Float.one None) false idle)
           _ _ _ _ _ _ eq_refl Hin).
Defined.

(** A click on the end button completes a round. *)
Lemma round_counted_on_end_click_only_witness :
  let s := state (clicker 1920 1080 Float.one Float.one None) true
             (with_end (mkBox 100 100 50 50)) in
  res (click_end_button s) = Ok true /\
  looking_for_end_button (final (loop_body s)) = false /\
  rounds_completed (final (loop_body s)) = 0 + 1.
Proof.
  cbn zeta.
  assert (E : res (click_end_button
                     (state (clicker 1920 1080 Float.one Float.one None) true
                        (with_end (mkBox 100 100 50 50)))) = Ok true)
    by (vm_compute; reflexivity).
  split; [exact E|].
  pose proof (round_counted_on_end_click_only (desktop := desktop)
                (state (clicker 1920 1080 Float.one Float.one None) true
                   (with_end (mkBox 100 100 50 50)))) as H.
  cbn zeta in H. rewrite E in H. exact H.
Defined.

(** The scenario of the specification: the end button is found at
    startup; the state seeks the start button, the wait is 3 seconds,
    no round is counted. *)
Lemma startup_probe_witness :
  let s := state (clicker 1920 1080 Float.one Float.one None) false
             (with_end (mkBox 100 100 50 50)) in
  res (click_end_button s) = Ok true /\
  rounds_completed (final (run_rounds 0 s)) = 0 /\
  looking_for_end_button (final (initial_check s)) = false /\
  events (initial_check s)
  = (events (click_end_button s) ++ [ESleep (Int 3) (res (initial_check s))])%list.
Proof.
  cbn zeta.
  assert (E : res (click_end_button
                     (state (clicker 1920 1080 Float.one Float.one None) false
                        (with_end (mkBox 100 100 50 50)))) = Ok true)
    by (vm_compute; reflexivity).
  split; [exact E|].
  pose proof (startup_probe (desktop := desktop)
                (state (clicker 1920 1080 Float.one Float.one None) false
                   (with_end (mkBox 100 100 50 50)))) as H.
  cbn zeta in H. destruct H as (_ & _ & Hzero & Hcases).
  split; [exact Hzero|]. rewrite E in Hcases. exact Hcases.
Defined.

End Examples.

Section ScriptedExamples.

Import Scripted.


End ScriptedExamples.

(** * Further properties *)

Section Transcripts.

Context {World : Type} {desktop : Desktop World} {runtime : Runtime World}.

Implicit Types (s : State World) (evs : list event).

Lemma wp_unrecorded {A} (op : World -> result A * World) s Q :
  (forall r w, op (world s) = (r, w) -> Q r (with_world w s) []) ->
  wp (unrecorded op) s Q.
Proof.
  intros H. unfold wp, unrecorded. destruct (op (world s)) as [r w] eqn:E.
  cbn. now apply H.
Qed.

Lemma wp_conj {A} (m : M World A) s (Q Q' : result A -> State World -> list event -> Prop) :
  wp m s Q -> wp m s Q' -> wp m s (fun r s' evs => Q r s' evs /\ Q' r s' evs).
Proof. unfold wp. auto. Qed.

Lemma count_app (p : event -> bool) evs1 evs2 :
  count p (evs1 ++ evs2) = (count p evs1 + count p evs2)%nat.
Proof. unfold count. now rewrite filter_app, length_app. Qed.

Lemma count_none (p : event -> bool) evs :
  Forall (fun ev => p ev = false) evs -> count p evs = 0%nat.
Proof.
  unfold count. induction 1 as [|ev evs Hev _ IH]; [reflexivity|].
  cbn [filter]. now rewrite Hev.
Qed.

Lemma count_positive (p : event -> bool) evs ev :
  In ev evs -> p ev = true -> (0 < count p evs)%nat.
Proof.
  unfold count. intros Hin Hp.
  assert (H : In ev (filter p evs)) by (apply filter_In; auto).
  destruct (filter p evs); [destruct H | cbn; lia].
Qed.

Lemma count_exists (p : event -> bool) evs :
  (0 < count p evs)%nat -> exists ev, In ev evs /\ p ev = true.
Proof.
  unfold count. destruct (filter p evs) as [|ev l] eqn:E; cbn; [lia|].
  intros _. exists ev. apply filter_In. rewrite E. now left.
Qed.

Lemma ends_with_last evs ev d : ends_with evs ev -> last evs d = ev.
Proof. intros [evs' ->]. apply last_last. Qed.

End Transcripts.

(** One step of symbolic execution, for the routines outside the class
    too. *)
Ltac run_step :=
  first
    [ wp_step
    | lazymatch goal with
      | |- wp (unrecorded _) _ _ =>
          let r := fresh "r" in
          let w := fresh "w" in
          let E := fresh "Ecall" in
          apply wp_unrecorded; intros r w E; destruct r as [?|[|?]]
      end; cbn beta iota ].

Section Attempt.

Context {World : Type} {desktop : Desktop World}.

Implicit Types (s : State World) (evs : list event).

(** Arithmetic is never interrupted. *)
Lemma int_of_div_exception z f : Float.int_of_div z f <> Raise KeyboardInterrupt.
Proof.
  unfold Float.int_of_div, Float.int_div_float, Float.of_int, Float.to_int.
  destruct (binary_normalize _ _ _ _ _); try discriminate;
    destruct (Float.is_zero f); try discriminate;
    destruct (SFdiv _ _ _ _); discriminate.
Qed.

Lemma scaled_center_exception location sx sy :
  scaled_center location sx sy <> Raise KeyboardInterrupt.
Proof.
  unfold scaled_center. destruct (center location) as [x y].
  destruct (_ || _); [|discriminate].
  destruct (Float.int_of_div x sx) eqn:Ex; [|intros [= ->]; now apply int_of_div_exception in Ex].
  destruct (Float.int_of_div y sy) eqn:Ey; [discriminate|].
  intros [= ->]; now apply int_of_div_exception in Ey.
Qed.

Lemma int_truediv_exception a b : Float.int_truediv a b <> Raise KeyboardInterrupt.
Proof.
  unfold Float.int_truediv. destruct (b =? 0); [discriminate|].
  destruct (SFdiv _ _ _ _); discriminate.
Qed.

Lemma find_and_click_shape s image description alt :
  wp (find_and_click image description alt) s
     (fun r _ evs => attempt_shape r evs = true).
Proof.
  unfold_calls.
  repeat wp_step.
  all: first [ reflexivity
             | exfalso; eapply scaled_center_exception; eassumption ].
Qed.

End Attempt.

Section AttemptProperties.

Context {World : Type} {desktop : Desktop World}.

Implicit Types (s : State World) (evs : list event).

Lemma interrupted_raised ev :
  interrupted ev = true <-> raised ev = Some KeyboardInterrupt.
Proof.
  unfold interrupted. destruct (raised ev) as [[|]|]; split; congruence.
Qed.

Lemma click_returned_event ev : click_returned ev = true <-> ev = EClick (Ok tt).
Proof.
  split; [|intros ->; reflexivity].
  destruct ev as [| | | | |[[]|]| | | |]; cbn; congruence.
Qed.

(** The parts of [attempt_shape]. *)
Lemma attempt_shape_parts (r : result bool) evs :
  attempt_shape r evs = true ->
  (count is_click evs <= 1)%nat /\
  (count is_move evs <= 1)%nat /\
  (r = Ok true <-> existsb click_returned evs = true) /\
  (r = Raise KeyboardInterrupt <-> existsb interrupted evs = true) /\
  (existsb interrupted evs = true ->
   exists ev evs', rev evs = ev :: evs' /\ interrupted ev = true) /\
  count is_completed evs = 0%nat.
Proof.
  unfold attempt_shape. rewrite !andb_true_iff.
  intros [[[[[H1 H2] H3] H4] H5] H6].
  apply Nat.leb_le in H1, H2. apply Nat.eqb_eq in H6.
  apply Bool.eqb_prop in H3, H4, H5.
  repeat split; try assumption.
  - intros ->. now rewrite <- H3.
  - rewrite <- H3. destruct r as [[|]|[|]]; congruence.
  - intros ->. now rewrite <- H4.
  - rewrite <- H4. destruct r as [[|]|[|]]; congruence.
  - rewrite H5. destruct (rev evs) as [|ev evs']; [discriminate|]. eauto.
Qed.

(** X1. One call of [find_and_click] clicks at most once and moves the
    pointer at most once, and it returns [True] exactly when its click
    returned. *)
Theorem find_and_click_clicks_at_most_once s image description alt :
  let o := find_and_click image description alt s in
  (count is_click (events o) <= 1)%nat /\
  (count is_move (events o) <= 1)%nat /\
  (res o = Ok true <-> In (EClick (Ok tt)) (events o)).
Proof.
  intros o.
  destruct (attempt_shape_parts _ _ (find_and_click_shape s image description alt))
    as (H1 & H2 & H3 & _).
  fold o in H1, H2, H3. split; [exact H1|]. split; [exact H2|].
  rewrite H3, existsb_exists. split.
  - intros (ev & Hin & Hev). apply click_returned_event in Hev. now subst ev.
  - intros Hin. now exists (EClick (Ok tt)).
Qed.

(** X2. A [KeyboardInterrupt] is never swallowed by the handlers of
    [find_and_click]: the call is interrupted exactly when one of its
    external calls was, and that call is the last thing it did. *)
Theorem keyboard_interrupt_leaves_find_and_click s image description alt :
  let o := find_and_click image description alt s in
  (res o = Raise KeyboardInterrupt <->
   exists ev, In ev (events o) /\ raised ev = Some KeyboardInterrupt) /\
  (res o = Raise KeyboardInterrupt ->
   exists ev, ends_with (events o) ev /\ raised ev = Some KeyboardInterrupt).
Proof.
  intros o.
  destruct (attempt_shape_parts _ _ (find_and_click_shape s image description alt))
    as (_ & _ & _ & H4 & H5 & _).
  fold o in H4, H5. split.
  - rewrite H4, existsb_exists. split; intros (ev & Hin & Hev); exists ev;
      (split; [exact Hin|]); now apply interrupted_raised.
  - intros Hr. apply H4 in Hr. destruct (H5 Hr) as (ev & evs' & Hrev & Hev).
    exists ev. split; [|now apply interrupted_raised].
    exists (rev evs'). rewrite <- (rev_involutive (events o)), Hrev. reflexivity.
Qed.

(** Which lookups an attempt makes, and what precedes its click. *)
Lemma find_and_click_order s image description alt :
  wp (find_and_click image description alt) s
     (fun _ _ evs =>
        (forall rc, In (EClick rc) evs ->
           exists x y location img c,
             In (EMoveTo x y (Ok tt)) evs /\
             In (ELocate img c (Ok (Some location))) evs) /\
        (forall img c r, In (ELocate img c r) evs ->
           img = image \/
           (alt = Some img /\ exists c', In (ELocate image c' (Ok None)) evs))).
Proof.
  unfold_calls.
  repeat wp_step.
  all: repeat match goal with u : unit |- _ => destruct u end.
  all: split;
    [ intros rc Hin; split_in Hin; do 5 eexists; split; find_event
    | intros img c r' Hin; split_in Hin; injection Hin as <- <- <-;
      first [ left; reflexivity
            | right; split; [reflexivity|]; eexists; find_event ] ].
Qed.

(** X3. [find_and_click] clicks only where it has looked: a click comes
    after a lookup that returned a match and after a move of the
    pointer that returned. *)
Theorem click_needs_match_and_move s image description alt rc :
  let o := find_and_click image description alt s in
  In (EClick rc) (events o) ->
  exists x y location img c,
    In (EMoveTo x y (Ok tt)) (events o) /\
    In (ELocate img c (Ok (Some location))) (events o).
Proof.
  intros o. exact (proj1 (find_and_click_order s image description alt) rc).
Qed.

(** X4. [find_and_click] looks up [image_path], and [alt_image_path]
    only after a lookup of [image_path] has returned [None]; without
    an alternative it looks up nothing else. *)
Theorem alternative_only_after_primary_miss s image description alt img c r :
  let o := find_and_click image description alt s in
  In (ELocate img c r) (events o) ->
  img = image \/
  (alt = Some img /\ exists c', In (ELocate image c' (Ok None)) (events o)).
Proof.
  intros o. exact (proj2 (find_and_click_order s image description alt) img c r).
Qed.

End AttemptProperties.

Section ReconciliationEdges.

Context {World : Type} {desktop : Desktop World}.

Implicit Types (s : State World) (evs : list event).

(** X5. [_verify_screen_dimensions] is soft: no [Exception] leaves it,
    it takes one screenshot and does nothing else to the desktop, and
    of the state it changes at most the two scale factors and the
    screen size of the object. *)
Theorem verify_screen_dimensions_is_soft s :
  let o := _verify_screen_dimensions s in
  (forall e, res o <> Raise (PyException e)) /\
  (exists fx fy w h,
      self (final o)
      = set_screen w h (set_scale_factor_y fy (set_scale_factor_x fx (self s)))) /\
  rounds_completed (final o) = rounds_completed s /\
  looking_for_end_button (final o) = looking_for_end_button s /\
  (exists r, events o = [EScreenshot r]
             \/ exists e, events o = [EScreenshot r; ELog (LogVerifyError e)]).
Proof.
  destruct s as [[cfg st en alt sw sh fx0 fy0 ha fl] rc lk w0].
  match goal with
  | |- let o := _ ?s0 in _ =>
      enough (H : wp _verify_screen_dimensions s0 (fun r s' evs =>
        (forall e, r <> Raise (PyException e)) /\
        (exists fx fy w h,
            self s'
            = set_screen w h (set_scale_factor_y fy (set_scale_factor_x fx (self s0)))) /\
        rounds_completed s' = rounds_completed s0 /\
        looking_for_end_button s' = looking_for_end_button s0 /\
        (exists r', evs = [EScreenshot r']
                    \/ exists e, evs = [EScreenshot r'; ELog (LogVerifyError e)])))
        by exact H
  end.
  unfold _verify_screen_dimensions, pyautogui_screenshot_size.
  repeat wp_step.
  all: split; [intros e'; discriminate|].
  all: split;
    [ unfold set_screen, set_scale_factor_y, set_scale_factor_x; cbn;
      do 4 eexists; reflexivity |].
  all: split; [reflexivity|].
  all: split; [reflexivity|].
  all: eexists; first [left; reflexivity | right; eexists; reflexivity].
Qed.

(** X6. A reported height of 0 leaves the object half updated: the
    horizontal factor is replaced, the division for the vertical one
    fails, and the vertical factor and the stored screen size stay as
    they were; the error is logged and the method returns. *)
Theorem zero_height_updates_one_factor s cw ch w1 fx :
  screenshot (world s) = (Ok (cw, ch), w1) ->
  screen_height (self s) = 0 ->
  0 < ch ->
  Float.int_truediv cw (screen_width (self s)) = Ok fx ->
  let o := _verify_screen_dimensions s in
  res o = Ok tt /\
  final o = with_self (set_scale_factor_x fx) (with_world w1 s) /\
  events o = [EScreenshot (Ok (cw, ch)); ELog (LogVerifyError "division by zero")].
Proof.
  intros Hshot Hzero Hch Hfx.
  enough (H : wp _verify_screen_dimensions s (fun r s' evs =>
    r = Ok tt /\
    s' = with_self (set_scale_factor_x fx) (with_world w1 s) /\
    evs = [EScreenshot (Ok (cw, ch)); ELog (LogVerifyError "division by zero")]))
    by exact H.
  unfold _verify_screen_dimensions, pyautogui_screenshot_size.
  apply wp_try_except, wp_bind.
  eapply wp_call_eq; [exact Hshot|]. cbn beta iota.
  apply wp_bind, wp_get. cbn [self with_world].
  rewrite Hzero.
  replace (negb (cw =? screen_width (self s)) || negb (ch =? 0)) with true
    by (destruct (Z.eqb_spec ch 0); [lia | now rewrite orb_true_r]).
  apply wp_bind, wp_lift. cbn [self with_world]. rewrite Hfx.
  apply wp_bind, wp_modify. apply wp_bind, wp_lift.
  cbn [Float.int_truediv Z.eqb].
  apply wp_logger. repeat split.
Qed.

End ReconciliationEdges.

Section Keeping.

Context {World : Type} {desktop : Desktop World} {runtime : Runtime World}.

Implicit Types (s : State World) (evs : list event).

Variable I : State World -> Prop.
Variable P : event -> Prop.

Lemma keeps_ret {A} (a : A) s : I s -> keeps I P (ret a) s.
Proof. intros H. split; [exact H | constructor]. Qed.

Lemma keeps_raise {A} e s : I s -> keeps I P (@raise World A e) s.
Proof. intros H. split; [exact H | constructor]. Qed.

Lemma keeps_lift {A} (r : result A) s : I s -> keeps I P (lift r) s.
Proof. intros H. split; [exact H | constructor]. Qed.

Lemma keeps_modify f s : I (f s) -> keeps I P (modify f) s.
Proof. intros H. split; [exact H | constructor]. Qed.

Lemma keeps_logger l s : I s -> P (ELog l) -> keeps I P (logger l) s.
Proof. intros H Hl. split; [exact H | repeat constructor; exact Hl]. Qed.

Lemma keeps_call {A} (op : World -> result A * World) ev s :
  (forall w, I (with_world w s)) -> (forall r, P (ev r)) ->
  keeps I P (call op ev) s.
Proof.
  intros HI HP. unfold keeps, wp, call. destruct (op (world s)) as [r w]. cbn.
  split; [apply HI | repeat constructor; apply HP].
Qed.

Lemma keeps_unrecorded {A} (op : World -> result A * World) s :
  (forall w, I (with_world w s)) -> keeps I P (unrecorded op) s.
Proof.
  intros HI. unfold keeps, wp, unrecorded. destruct (op (world s)) as [r w]. cbn.
  split; [apply HI | constructor].
Qed.

Lemma keeps_bind {A B} (m : M World A) (k : A -> M World B) s :
  keeps I P m s -> (forall a s1, I s1 -> keeps I P (k a) s1) ->
  keeps I P (bind m k) s.
Proof.
  unfold keeps, wp, bind. intros Hm Hk.
  destruct (m s) as [[a|e] s1 evs1]; cbn in *; [|exact Hm].
  destruct Hm as [HI HP]. specialize (Hk a s1 HI).
  destruct (k a s1) as [r s2 evs2]; cbn in *.
  destruct Hk as [HI2 HP2]. split; [exact HI2 | apply Forall_app; auto].
Qed.

Lemma keeps_get {A} (k : State World -> M World A) s :
  keeps I P (k s) s -> keeps I P (bind get k) s.
Proof.
  unfold keeps, wp, bind, get. destruct (k s s) as [r s2 evs2]; cbn. auto.
Qed.

Lemma keeps_try {A} (body : M World A) handler s :
  keeps I P body s -> (forall e s1, I s1 -> keeps I P (handler e) s1) ->
  keeps I P (try_except body handler) s.
Proof.
  unfold keeps, wp, try_except. intros Hm Hk.
  destruct (body s) as [[a|[|e]] s1 evs1]; cbn in *; try exact Hm.
  destruct Hm as [HI HP]. specialize (Hk e s1 HI).
  destruct (handler e s1) as [r s2 evs2]; cbn in *.
  destruct Hk as [HI2 HP2]. split; [exact HI2 | apply Forall_app; auto].
Qed.

Lemma keeps_weaken (P' : event -> Prop) {A} (m : M World A) s :
  (forall ev, P' ev -> P ev) -> keeps I P' m s -> keeps I P m s.
Proof.
  unfold keeps, wp. intros HP [HI H]. split; [exact HI|].
  eapply Forall_impl; [exact HP | exact H].
Qed.

(** The loop keeps what each of its turns keeps. *)
Lemma keeps_main_loop fuel :
  (forall s, I s -> keeps I P loop_body s) ->
  forall s, I s -> keeps I P (main_loop fuel) s.
Proof.
  intros Hbody. induction fuel as [|fuel IH]; intros s HI; cbn [main_loop].
  - now apply keeps_ret.
  - apply keeps_bind; [now apply Hbody|]. intros _ s1 HI1. now apply IH.
Qed.

End Keeping.

(** One step through a computation that keeps an invariant: the
    continuation of a call is entered from any state that satisfies the
    invariant, whatever the call returned. *)
Ltac keeps_step :=
  lazymatch goal with
  | |- keeps _ _ (bind get _) _ => apply keeps_get
  | |- keeps _ _ (bind _ _) _ => apply keeps_bind; [|intros ? ? ?]
  | |- keeps _ _ (try_except _ _) _ => apply keeps_try; [|intros ? ? ?]
  | |- keeps _ _ (ret _) _ => apply keeps_ret
  | |- keeps _ _ (raise _) _ => apply keeps_raise
  | |- keeps _ _ (lift _) _ => apply keeps_lift
  | |- keeps _ _ (modify _) _ => apply keeps_modify
  | |- keeps _ _ (logger _) _ => apply keeps_logger
  | |- keeps _ _ (call _ _) _ => apply keeps_call; [intros ?|intros ?]
  | |- keeps _ _ (unrecorded _) _ => apply keeps_unrecorded; intros ?
  | |- keeps _ _ (attr _ ?o) _ => unfold attr; destruct o
  | |- keeps _ _ (if ?b then _ else _) _ => destruct b eqn:?
  | |- keeps _ _ (match ?x with _ => _ end) _ => destruct x eqn:?
  end; cbn beta iota.

(** The leaves of a [keeps] proof about [same_settings a]: the invariant
    is one of the hypotheses, up to computation, and the events are read
    off. *)
Ltac keeps_leaf a :=
  first
    [ match goal with
      | H : same_settings a _ |- same_settings a _ => exact H
      end
    | match goal with
      | H : same_settings a ?s |- _ =>
          cbn; unfold confidence_of; change (config a) with (config (settings a));
          rewrite <- H; reflexivity
      end
    | exact Logic.I ].

Section LoopInvariant.

Context {World : Type} {desktop : Desktop World}.

Implicit Types (s : State World) (evs : list event) (a : AutoClicker).

Lemma find_and_click_keeps a image description alt s :
  same_settings a s ->
  keeps (same_settings a) (attempt_event (confidence_of a))
    (find_and_click image description alt) s.
Proof.
  intros HI.
  unfold find_and_click, find_and_click_body, locate, pyautogui_locateOnScreen,
    save_debug_screen, pyautogui_size, pyautogui_moveTo, pyautogui_click,
    time_sleep, _debug_click_position.
  repeat keeps_step.
  all: keeps_leaf a.
Qed.

Lemma click_end_button_keeps a s :
  same_settings a s ->
  keeps (same_settings a) (attempt_event (confidence_of a)) click_end_button s.
Proof.
  intros HI. unfold click_end_button.
  apply keeps_get. apply keeps_bind; [now apply find_and_click_keeps|].
  intros end_clicked s1 HI1.
  destruct (negb end_clicked && has_alt_end_button (self s)).
  - now apply find_and_click_keeps.
  - now apply keeps_ret.
Qed.

Lemma click_start_button_keeps a s :
  same_settings a s ->
  keeps (same_settings a) (attempt_event (confidence_of a)) click_start_button s.
Proof.
  intros HI. unfold click_start_button.
  apply keeps_get. now apply find_and_click_keeps.
Qed.

Lemma attempt_is_loop_event c ev : attempt_event c ev -> loop_event c ev.
Proof. destruct ev as [[]| | | | | | | | |]; cbn; auto. Qed.

Lemma initial_check_keeps a s :
  same_settings a s ->
  keeps (same_settings a) (attempt_event (confidence_of a)) initial_check s.
Proof.
  intros HI. unfold initial_check, time_sleep.
  apply keeps_bind; [now apply click_end_button_keeps|].
  intros end_found s1 HI1. apply keeps_get. destruct end_found.
  - repeat keeps_step. all: keeps_leaf a.
  - apply keeps_bind; [now apply click_start_button_keeps|].
    intros start_found s2 HI2.
    repeat keeps_step. all: keeps_leaf a.
Qed.

Lemma loop_body_keeps a s :
  same_settings a s ->
  keeps (same_settings a) (loop_event (confidence_of a)) loop_body s.
Proof.
  intros HI. unfold loop_body. apply keeps_get.
  destruct (looking_for_end_button s).
  - apply keeps_bind;
      [eapply keeps_weaken; [apply attempt_is_loop_event|now apply click_end_button_keeps]|].
    intros end_clicked s1 HI1. unfold time_sleep.
    repeat keeps_step. all: keeps_leaf a.
  - apply keeps_bind;
      [eapply keeps_weaken;
       [apply attempt_is_loop_event|now apply click_start_button_keeps]|].
    intros start_clicked s1 HI1.
    unfold center_click, pyautogui_moveTo, pyautogui_click, time_sleep.
    repeat keeps_step. all: keeps_leaf a.
Qed.

(** What the body of [run_rounds] keeps: the object but for its
    failure counter, and a transcript of loop events. *)
Lemma run_body_keeps fuel s :
  keeps (same_settings (self s)) (loop_event (confidence_of (self s)))
    (bind initial_check (fun _ => main_loop fuel))
    (with_looking_for_end_button false (with_rounds_completed 0 s)).
Proof.
  apply keeps_bind.
  - eapply keeps_weaken; [apply attempt_is_loop_event|].
    apply initial_check_keeps. reflexivity.
  - intros _ s1 HI1. apply keeps_main_loop; [|exact HI1].
    intros s2 HI2. now apply loop_body_keeps.
Qed.

(** [run_rounds] adds at most one line: how the run ended. *)
Lemma run_rounds_keeps fuel s :
  let o := run_rounds fuel s in
  same_settings (self s) (final o) /\
  exists evs,
    Forall (loop_event (confidence_of (self s))) evs /\
    (events o = evs
     \/ events o = (evs ++ [ELog (LogInterrupted (rounds_completed (final o)))])%list
     \/ exists e, events o = (evs ++ [ELog (LogExecutionError e)])%list).
Proof.
  cbn zeta.
  pose proof (run_rounds_report fuel s) as Hrep. cbn zeta in Hrep.
  pose proof (run_body_keeps fuel s) as Hk.
  unfold keeps, wp in Hk. destruct Hk as [HI HP].
  destruct Hrep as [Hfinal Hrep]. rewrite Hfinal.
  split; [exact HI|].
  eexists. split; [exact HP|].
  destruct (res _) as [u|[|e]]; destruct Hrep as [_ ->]; eauto.
Qed.

(** The events of the loop in the transcript of a run. *)
Lemma run_rounds_loop_events fuel s ev :
  In ev (events (run_rounds fuel s)) ->
  (forall l, ev <> ELog l) ->
  loop_event (confidence_of (self s)) ev.
Proof.
  intros Hin Hlog.
  destruct (run_rounds_keeps fuel s) as (_ & evs & HP & Hevs).
  rewrite Forall_forall in HP. apply HP.
  destruct Hevs as [E|[E|[e E]]]; rewrite E in Hin; [exact Hin| |];
    apply in_app_or in Hin; destruct Hin as [Hin|[Hin|[]]];
    try exact Hin; symmetry in Hin; now apply Hlog in Hin.
Qed.

(** X7. Every lookup of a run that gives a confidence gives the one of
    the configuration the object was built with (0.9 when it has
    none): nothing in the loop changes it. *)
Theorem run_uses_configured_confidence fuel s img c r :
  In (ELocate img (Some c) r) (events (run_rounds fuel s)) ->
  c = Config.getattr (Config.confidence_threshold (config (self s))) (Float.lit 9 10).
Proof.
  intros Hin. apply (run_rounds_loop_events fuel s _ Hin). discriminate.
Qed.

(** X8. A run changes nothing of the object but the counter of failed
    start lookups: the configuration, the image paths, the screen size
    and the scale factors at its end are those it started with. *)
Theorem run_changes_only_failure_counter fuel s :
  let a := self (final (run_rounds fuel s)) in
  config a = config (self s) /\
  start_button_img a = start_button_img (self s) /\
  end_button_img a = end_button_img (self s) /\
  end_button_alt_img a = end_button_alt_img (self s) /\
  has_alt_end_button a = has_alt_end_button (self s) /\
  screen_width a = screen_width (self s) /\
  screen_height a = screen_height (self s) /\
  scale_factor_x a = scale_factor_x (self s) /\
  scale_factor_y a = scale_factor_y (self s).
Proof.
  cbn zeta. destruct (run_rounds_keeps fuel s) as (H & _).
  unfold same_settings, settings, set_start_button_failures in H.
  injection H as H1 H2 H3 H4 H5 H6 H7 H8 H9. now repeat split.
Qed.

End LoopInvariant.

(** The head of the computation is an attempt [m], of which [lem] gives
    the frame and [lemk] the events. *)
Ltac wp_quiet_attempt lem lemk :=
  match goal with
  | |- wp (bind ?m _) ?s _ =>
      let Hf := fresh "Hf" in
      let Hq := fresh "Hq" in
      let Hne := fresh "Hne" in
      let E := fresh "Erun" in
      pose proof (lem s) as Hf; unfold wp, attempt_frame in Hf;
      pose proof (lemk (self s) s eq_refl) as Hq; unfold keeps, wp in Hq;
      destruct (m s) as [[[|]|[|?]] ? ?] eqn:E; cbn [res final events] in Hf, Hq |- *;
      destruct Hf as (? & ? & ? & Hne); destruct Hq as [_ Hq];
      [ | | | exfalso; eapply Hne; reflexivity ];
      (eapply wp_bind_eq; [exact E|]); cbn beta iota
  end.

Section Counting.

Context {World : Type} {desktop : Desktop World}.

Implicit Types (s : State World) (evs : list event).

Lemma completed_numbers_app evs1 evs2 :
  completed_numbers (evs1 ++ evs2) = (completed_numbers evs1 ++ completed_numbers evs2)%list.
Proof. apply flat_map_app. Qed.

Lemma attempt_numbers c evs :
  Forall (attempt_event c) evs -> completed_numbers evs = [].
Proof.
  induction 1 as [|ev evs Hev _ IH]; [reflexivity|].
  cbn [completed_numbers flat_map]. fold (completed_numbers evs). rewrite IH.
  destruct ev as [[]| | | | | | | | |]; try reflexivity; destruct Hev.
Qed.

(** One turn logs the line of a round exactly when it counts one. *)
Lemma loop_body_rounds s :
  wp loop_body s (fun _ s' evs =>
    (completed_numbers evs = [] /\ rounds_completed s' = rounds_completed s)
    \/ (completed_numbers evs = [rounds_completed s + 1] /\
        rounds_completed s' = rounds_completed s + 1)).
Proof.
  unfold loop_body. do 3 wp_step.
  - wp_quiet_attempt click_end_button_frame click_end_button_keeps.
    all: unfold time_sleep; repeat wp_step.
    all: rewrite ?completed_numbers_app, (attempt_numbers _ _ Hq).
    all: cbn.
    all: first [ left; split; [reflexivity | congruence]
               | right; split; congruence ].
  - wp_quiet_attempt click_start_button_frame click_start_button_keeps.
    all: unfold center_click, pyautogui_moveTo, pyautogui_click, time_sleep.
    all: repeat wp_step.
    all: rewrite ?completed_numbers_app, (attempt_numbers _ _ Hq).
    all: cbn.
    all: left; split; [reflexivity | congruence].
Qed.

Lemma map_seq_next (z : Z) (n : nat) :
  map (fun k => z + 1 + Z.of_nat k) (seq 1 n)
  = map (fun k => z + Z.of_nat k) (seq 2 n).
Proof.
  rewrite <- (seq_shift n 1), map_map. apply map_ext. intros k. lia.
Qed.

(** The lines of the rounds that [fuel] turns complete are numbered
    from the count the turns started with. *)
Lemma main_loop_rounds fuel :
  forall s,
    wp (main_loop fuel) s (fun _ s' evs =>
      exists n,
        (n <= fuel)%nat /\
        rounds_completed s' = rounds_completed s + Z.of_nat n /\
        completed_numbers evs
        = map (fun k => rounds_completed s + Z.of_nat k) (seq 1 n)).
Proof.
  induction fuel as [|fuel IH]; intros s.
  - exists 0%nat. cbn. split; [lia|]. split; [lia|reflexivity].
  - cbn [main_loop]. apply wp_bind.
    eapply wp_mono; [apply loop_body_rounds|]. cbn beta.
    intros r s1 evs1 Hturn. destruct r as [u|e].
    + eapply wp_mono; [apply IH|]. cbn beta.
      intros _ s2 evs2 (n & Hn & Hrc & Hnum).
      rewrite completed_numbers_app, Hnum.
      destruct Hturn as [[-> Hrc1]|[-> Hrc1]]; rewrite Hrc1 in *.
      * exists n. split; [lia|]. split; [exact Hrc|reflexivity].
      * exists (S n). split; [lia|]. split; [lia|].
        cbn [seq map List.app]. rewrite map_seq_next. reflexivity.
    + destruct Hturn as [[-> Hrc1]|[-> Hrc1]].
      * exists 0%nat. cbn. split; [lia|]. split; [lia|reflexivity].
      * exists 1%nat. cbn. split; [lia|]. split; [lia|reflexivity].
Qed.

(** X9. The lines "Completed round n" of a run are numbered 1, 2, 3,
    ... without a gap, there are as many of them as rounds counted and
    at most one for each turn of the loop, and the number that an
    interrupted run reports is the number of these lines. *)
Theorem completed_rounds_are_numbered fuel s :
  let o := run_rounds fuel s in
  exists n,
    (n <= fuel)%nat /\
    rounds_completed (final o) = Z.of_nat n /\
    completed_numbers (events o) = map Z.of_nat (seq 1 n) /\
    forall m, In (ELog (LogInterrupted m)) (events o) -> m = Z.of_nat n.
Proof.
  cbn zeta.
  pose proof (run_rounds_report fuel s) as Hrep. cbn zeta in Hrep.
  pose proof (run_body_keeps fuel s) as Hk.
  unfold keeps, wp in Hk. destruct Hk as [_ HP].
  assert (Hnum : wp (bind initial_check (fun _ => main_loop fuel))
                   (with_looking_for_end_button false (with_rounds_completed 0 s))
                   (fun _ s' evs =>
                      exists n, (n <= fuel)%nat /\
                                rounds_completed s' = Z.of_nat n /\
                                completed_numbers evs = map Z.of_nat (seq 1 n))).
  { apply wp_bind.
    pose proof (initial_check_outcome
                  (with_looking_for_end_button false (with_rounds_completed 0 s)))
      as [Hrc0 _].
    pose proof (initial_check_keeps (self s)
                  (with_looking_for_end_button false (with_rounds_completed 0 s))
                  eq_refl) as [_ Hq].
    apply attempt_numbers in Hq.
    unfold wp at 1.
    destruct (initial_check _) as [[u|e] s1 evs1]; cbn [res final events] in *.
    - eapply wp_mono; [apply main_loop_rounds|]. cbn beta.
      intros _ s2 evs2 (n & Hn & Hrc & Hnum).
      exists n. rewrite completed_numbers_app, Hq, Hnum, Hrc, Hrc0.
      split; [exact Hn|]. split; [reflexivity|].
      cbn [List.app]. apply map_ext. intros k. reflexivity.
    - exists 0%nat. rewrite Hq, Hrc0. split; [lia|]. split; reflexivity. }
  unfold wp in Hnum. destruct Hnum as (n & Hn & Hrc & Hnum).
  destruct Hrep as [Hfinal Hrep]. rewrite Hfinal.
  exists n. split; [exact Hn|]. split; [exact Hrc|].
  assert (Hnone : forall m,
             ~ In (ELog (LogInterrupted m))
                 (events (bind initial_check (fun _ => main_loop fuel)
                            (with_looking_for_end_button false
                               (with_rounds_completed 0 s))))).
  { intros m Hin. rewrite Forall_forall in HP. exact (HP _ Hin). }
  destruct (res _) as [u|[|e]]; destruct Hrep as [_ ->].
  - split; [exact Hnum|]. intros m Hin. now apply Hnone in Hin.
  - rewrite completed_numbers_app, Hnum. cbn. rewrite app_nil_r.
    split; [reflexivity|]. intros m Hin.
    apply in_app_or in Hin. destruct Hin as [Hin|[Hin|[]]].
    + now apply Hnone in Hin.
    + injection Hin as <-. exact Hrc.
  - rewrite completed_numbers_app, Hnum. cbn. rewrite app_nil_r.
    split; [reflexivity|]. intros m Hin.
    apply in_app_or in Hin. destruct Hin as [Hin|[Hin|[]]].
    + now apply Hnone in Hin.
    + discriminate Hin.
Qed.

End Counting.

Section Turns.

Context {World : Type} {desktop : Desktop World}.

Implicit Types (s : State World) (evs : list event).

(** X10. The loop never spins: a turn that returns has ended with a
    wait that returned, of [retry_delay], twice [retry_delay],
    [between_rounds_wait_time] or [round_wait_time] seconds. *)
Theorem turn_ends_with_wait s :
  let o := loop_body s in
  let cfg := config (self s) in
  res o = Ok tt ->
  exists t,
    ends_with (events o) (ESleep (Int t) (Ok tt)) /\
    (t = Config.retry_delay cfg \/ t = Config.retry_delay cfg * 2 \/
     t = Config.between_rounds_wait_time cfg \/ t = Config.round_wait_time cfg).
Proof.
  cbn zeta.
  enough (H : wp loop_body s (fun r _ evs =>
    r = Ok tt ->
    exists t,
      ends_with evs (ESleep (Int t) (Ok tt)) /\
      (t = Config.retry_delay (config (self s)) \/
       t = Config.retry_delay (config (self s)) * 2 \/
       t = Config.between_rounds_wait_time (config (self s)) \/
       t = Config.round_wait_time (config (self s))))) by exact H.
  unfold loop_body. do 3 wp_step.
  - wp_attempt click_end_button_frame.
    all: unfold time_sleep; repeat wp_step.
    all: intros Hr; try discriminate Hr.
    all: repeat match goal with u : unit |- _ => destruct u end.
    all: eexists; split; [last_event | auto].
  - wp_attempt click_start_button_frame.
    all: unfold center_click, pyautogui_moveTo, pyautogui_click, time_sleep.
    all: repeat wp_step.
    all: intros Hr; try discriminate Hr.
    all: repeat match goal with u : unit |- _ => destruct u end.
    all: cbn [self with_self with_world config set_start_button_failures].
    all: repeat match goal with
                | H : self _ = self _ |- _ => rewrite H
                end.
    all: eexists; split; [last_event | auto].
Qed.

(** X11. A click on the start button does not reset the counter of
    failed start lookups: the turn leaves the counter as it was, turns
    to the end button, counts no round and waits [round_wait_time]. *)
Theorem start_click_keeps_failure_count s :
  looking_for_end_button s = false ->
  res (click_start_button s) = Ok true ->
  let o := loop_body s in
  start_button_failures (self (final o)) = start_button_failures (self s) /\
  looking_for_end_button (final o) = true /\
  rounds_completed (final o) = rounds_completed s /\
  events o
  = (events (click_start_button s)
     ++ [ESleep (Int (Config.round_wait_time (config (self s)))) (res o)])%list.
Proof.
  intros Hlook Hclick. cbn zeta.
  enough (H : wp loop_body s (fun r s' evs =>
    start_button_failures (self s') = start_button_failures (self s) /\
    looking_for_end_button s' = true /\
    rounds_completed s' = rounds_completed s /\
    evs = (events (click_start_button s)
           ++ [ESleep (Int (Config.round_wait_time (config (self s)))) r])%list))
    by exact H.
  unfold loop_body. do 2 wp_step. rewrite Hlook.
  wp_attempt click_start_button_frame; try discriminate Hclick.
  unfold time_sleep. repeat wp_step.
  all: cbn [self with_self with_world looking_for_end_button
            with_looking_for_end_button rounds_completed List.app].
  all: repeat split; congruence.
Qed.

End Turns.

Section Diagnostics.

Context {World : Type} {desktop : Desktop World} {runtime : Runtime World}.

Implicit Types (s : State World) (evs : list event).

(** X12. [check_screen_dimensions] sends the pointer to the four
    corners and the center of the screenshot, in this order, each move
    followed by a wait of half a second: the targets are computed from
    the size of the screenshot, not from the size [pyautogui.size()]
    reports.  A run that returns has made all five moves; a call that
    raises is the last thing the routine does.  It never clicks and
    looks nothing up. *)
Theorem check_screen_moves_by_screenshot_size s aw ah :
  let o := check_screen_dimensions s in
  In (EScreenshot (Ok (aw, ah))) (events o) ->
  (exists rest, corners aw ah = (move_targets (events o) ++ rest)%list) /\
  (res o = Ok tt ->
   move_targets (events o) = corners aw ah /\
   exists pw ph,
     events o
     = ESize (Ok (pw, ph)) :: EScreenshot (Ok (aw, ah))
       :: flat_map (fun p => [EMoveTo (fst p) (snd p) (Ok tt);
                              ESleep (Flt (Float.lit 5 10)) (Ok tt)])
            (corners aw ah)) /\
  (forall ev, In ev (events o) -> raised ev <> None -> ends_with (events o) ev) /\
  count is_click (events o) = 0%nat /\
  count is_lookup (events o) = 0%nat.
Proof.
  cbn zeta.
  enough (H : wp check_screen_dimensions s (fun r _ evs =>
    In (EScreenshot (Ok (aw, ah))) evs ->
    (exists rest, corners aw ah = (move_targets evs ++ rest)%list) /\
    (r = Ok tt ->
     move_targets evs = corners aw ah /\
     exists pw ph,
       evs
       = ESize (Ok (pw, ph)) :: EScreenshot (Ok (aw, ah))
         :: flat_map (fun p => [EMoveTo (fst p) (snd p) (Ok tt);
                                ESleep (Flt (Float.lit 5 10)) (Ok tt)])
              (corners aw ah)) /\
    (forall ev, In ev evs -> raised ev <> None -> ends_with evs ev) /\
    count is_click evs = 0%nat /\
    count is_lookup evs = 0%nat)) by exact H.
  unfold check_screen_dimensions, pyautogui_size, pyautogui_screenshot_size.
  repeat run_step.
  all: unfold corners; cbn [move_to_each].
  all: unfold pyautogui_moveTo, time_sleep.
  all: repeat run_step.
  all: repeat match goal with u : unit |- _ => destruct u end.
  all: intros Hin; split_in Hin; injection Hin as <- <-.
  all: cbn [List.app].
  all: split; [cbn; eexists; reflexivity|].
  all: split;
    [ intros Hr;
      first [ discriminate Hr
            | split; [reflexivity | do 2 eexists; reflexivity] ] |].
  all: split; [|split; reflexivity].
  all: intros ev Hin Hraised; split_in Hin; subst ev; cbn in Hraised;
    first [ congruence | solve [last_event] ].
Qed.

(** X13. On a desktop that reports a width of 0,
    [check_screen_dimensions] ends with the [ZeroDivisionError] of the
    first scale factor: no image is saved (the desktop is as the
    screenshot left it) and the pointer is not moved. *)
Theorem check_screen_zero_width s ph w1 aw ah w2 :
  size (world s) = (Ok (0, ph), w1) ->
  screenshot w1 = (Ok (aw, ah), w2) ->
  let o := check_screen_dimensions s in
  res o = Raise (PyException "division by zero") /\
  world (final o) = w2 /\
  events o = [ESize (Ok (0, ph)); EScreenshot (Ok (aw, ah))].
Proof.
  intros Hsize Hshot. cbn zeta.
  enough (H : wp check_screen_dimensions s (fun r s' evs =>
    r = Raise (PyException "division by zero") /\
    world s' = w2 /\
    evs = [ESize (Ok (0, ph)); EScreenshot (Ok (aw, ah))])) by exact H.
  unfold check_screen_dimensions, pyautogui_size, pyautogui_screenshot_size.
  apply wp_bind. eapply wp_call_eq; [exact Hsize|]. cbn beta iota.
  apply wp_bind. eapply wp_call_eq; [exact Hshot|]. cbn beta iota.
  apply wp_bind, wp_lift. cbn. repeat split.
Qed.

(** X14. For each button, [debug_images] looks up with the
    confidences 0.9, 0.8 and 0.7 in this order and does nothing else
    that the desktop sees.  After a lookup that found nothing, or that
    failed with a message naming the confidence, it goes on with the
    next lower confidence: the search is over after the three
    lookups, or after a match, an interrupt or an [Exception] that
    does not name the confidence, which is then the last lookup.  No
    [Exception] leaves the search, and nothing is looked up without a
    confidence, unlike in [find_and_click].  All this as long as
    saving the debug image does not itself fail with a message that
    names the confidence. *)
Theorem debug_button_falling_confidence s button_name img_path :
  (forall file w e w',
      save_image file w = (Raise (PyException e), w') ->
      contains "confidence" e = false) ->
  let o := debug_button button_name img_path s in
  (forall e, res o <> Raise (PyException e)) /\
  (exists rest,
      [Some (Float.lit 9 10); Some (Float.lit 8 10); Some (Float.lit 7 10)]
      = (lookup_confidences (events o) ++ rest)%list) /\
  (lookup_confidences (events o)
   = [Some (Float.lit 9 10); Some (Float.lit 8 10); Some (Float.lit 7 10)]
   \/ exists ev, ends_with (events o) ev /\ ends_search ev = true) /\
  (forall ev, In ev (events o) -> exists c r, ev = ELocate img_path c r) /\
  (forall c location,
      In (ELocate img_path c (Ok (Some location))) (events o) ->
      ends_with (events o) (ELocate img_path c (Ok (Some location)))) /\
  (forall c e,
      In (ELocate img_path c (Raise (PyException e))) (events o) ->
      contains "confidence" e = false ->
      ends_with (events o) (ELocate img_path c (Raise (PyException e)))).
Proof.
  intros Hsave. cbn zeta.
  enough (H : wp (debug_button button_name img_path) s (fun r _ evs =>
    (forall e, r <> Raise (PyException e)) /\
    (exists rest,
        [Some (Float.lit 9 10); Some (Float.lit 8 10); Some (Float.lit 7 10)]
        = (lookup_confidences evs ++ rest)%list) /\
    (lookup_confidences evs
     = [Some (Float.lit 9 10); Some (Float.lit 8 10); Some (Float.lit 7 10)]
     \/ exists ev, ends_with evs ev /\ ends_search ev = true) /\
    (forall ev, In ev evs -> exists c r', ev = ELocate img_path c r') /\
    (forall c location,
        In (ELocate img_path c (Ok (Some location))) evs ->
        ends_with evs (ELocate img_path c (Ok (Some location)))) /\
    (forall c e,
        In (ELocate img_path c (Raise (PyException e))) evs ->
        contains "confidence" e = false ->
        ends_with evs (ELocate img_path c (Raise (PyException e)))))) by exact H.
  unfold debug_button. cbn [try_confidences].
  unfold pyautogui_locateOnScreen.
  repeat run_step.
  all: try (exfalso;
            match goal with
            | E : save_image _ _ = (Raise (PyException ?e), _),
              Hb : negb (contains _ ?e) = false |- _ =>
                rewrite (Hsave _ _ _ _ E) in Hb; discriminate Hb
            end).
  all: cbn [List.app].
  all: split; [intros e'; discriminate|].
  all: split; [cbn; eexists; reflexivity|].
  all: split;
    [ first [ left; reflexivity
            | right; eexists; split; [solve [last_event]|];
              first [ reflexivity | assumption ] ] |].
  all: split; [intros ev Hin; split_in Hin; subst ev; eauto|].
  all: split;
    [ intros c location Hin; split_in Hin; injection Hin as <- <-; last_event
    | intros c e' Hin Hc; split_in Hin; injection Hin as <- <-;
      first [ solve [last_event]
            | exfalso;
              match goal with
              | Hb : negb (contains _ _) = false |- _ =>
                  rewrite Hc in Hb; discriminate Hb
              end ] ].
Qed.

End Diagnostics.

Section Construction.

Context {World : Type} {desktop : Desktop World}.

Implicit Types (s : State World) (evs : list event).

Lemma keeps_forget (I : State World -> Prop) (P : event -> Prop) {A}
    (m : M World A) s :
  keeps I P m s -> keeps (fun _ => True) P m s.
Proof. unfold keeps, wp. intros [_ H]. now split. Qed.

(** What follows the first assignments of [__init__] keeps the
    configuration of the object. *)
Lemma init_keeps_config cfg s :
  config (self s) = cfg ->
  keeps (fun s' => config (self s') = cfg) init_event
    (bind _verify_screen_dimensions (fun _ =>
     bind get (fun s0 =>
     bind (modify (with_self (set_has_alt_end_button
                                (path_exists (end_button_alt_img (self s0)) (world s0)))))
          (fun _ =>
     bind (if Config.getattr (Config.resize_images cfg) false
           then prepare_scaled_images else ret tt) (fun _ =>
     bind get (fun s1 =>
     if negb (path_exists (start_button_img (self s1)) (world s1))
     then raise (PyException ("Start button image not found: "
                              ++ start_button_img (self s1)))
     else if negb (path_exists (end_button_img (self s1)) (world s1))
     then raise (PyException ("End button image not found: "
                              ++ end_button_img (self s1)))
     else ret tt)))))) s.
Proof.
  intros HI.
  unfold _verify_screen_dimensions, prepare_scaled_images, scaled_image,
    pyautogui_screenshot_size.
  repeat keeps_step.
  all: first [ exact Logic.I | cbn; assumption ].
Qed.

(** [__init__]: what the desktop sees of it, and the configuration of
    the object it has built. *)
Lemma init_outcome cfg s :
  wp (__init__ cfg) s (fun r s' evs =>
    Forall init_event evs /\ (forall u, r = Ok u -> config (self s') = cfg)).
Proof.
  unfold __init__, pyautogui_size.
  apply wp_bind, wp_call. intros [[w h]|e] w0 _; cbn beta iota.
  - apply wp_bind, wp_modify.
    eapply wp_mono; [apply init_keeps_config; reflexivity|]. cbn beta.
    intros r s' evs [Hcfg Hevs]. split.
    + repeat constructor. exact Hevs.
    + intros _ _. exact Hcfg.
  - split; [repeat constructor | intros u Hu; discriminate Hu].
Qed.

Lemma init_keeps (P : event -> Prop) cfg s :
  (forall ev, init_event ev -> P ev) ->
  keeps (fun _ => True) P (__init__ cfg) s.
Proof.
  intros HP. pose proof (init_outcome cfg s) as [H _].
  split; [exact Logic.I|]. eapply Forall_impl; [exact HP | exact H].
Qed.

Lemma attempt_keeps (P : event -> Prop) image description alt s :
  (forall c ev, attempt_event c ev -> P ev) ->
  keeps (fun _ => True) P (find_and_click image description alt) s.
Proof.
  intros HP. eapply keeps_weaken; [apply HP|].
  eapply keeps_forget. apply find_and_click_keeps. reflexivity.
Qed.

(** X15. When the start image of the object does not exist once
    [__init__] is done with the desktop, and [resize_images] is off,
    [__init__] does not return: it raises "Start button image not
    found: " followed by the path the object holds, unless
    [pyautogui.size()] has failed or the call is interrupted. *)
Theorem init_needs_start_image cfg s :
  Config.getattr (Config.resize_images cfg) false = false ->
  let o := __init__ cfg s in
  path_exists (start_button_img (self (final o))) (world (final o)) = false ->
  match res o with
  | Ok _ => False
  | Raise KeyboardInterrupt => True
  | Raise (PyException e) =>
      e = "Start button image not found: " ++ start_button_img (self (final o))
      \/ events o = [ESize (Raise (PyException e))]
  end.
Proof.
  intros Hresize. cbn zeta.
  enough (H : wp (__init__ cfg) s (fun r s' evs =>
    path_exists (start_button_img (self s')) (world s') = false ->
    match r with
    | Ok _ => False
    | Raise KeyboardInterrupt => True
    | Raise (PyException e) =>
        e = "Start button image not found: " ++ start_button_img (self s')
        \/ evs = [ESize (Raise (PyException e))]
    end)) by exact H.
  unfold __init__. rewrite Hresize.
  unfold pyautogui_size, _verify_screen_dimensions, pyautogui_screenshot_size.
  repeat wp_step.
  all: intros Hmissing.
  all: cbn [self world with_self with_world set_has_alt_end_button set_screen
            set_scale_factor_x set_scale_factor_y start_button_img] in *.
  all: try match goal with
           | H : negb (path_exists _ _) = false |- _ =>
               rewrite Hmissing in H; discriminate H
           end.
  all: first [ exact Logic.I | left; reflexivity | right; reflexivity ].
Qed.

End Construction.

Section EntryPoints.

Context {World : Type} {desktop : Desktop World} {runtime : Runtime World}.

Implicit Types (s : State World) (evs : list event).

(** Events that a test rejects, before a computation that is counted. *)
Lemma quiet_then {A B} (p : event -> bool) (n : nat) (m : M World A)
    (k : A -> M World B) s :
  keeps (fun _ => True) (fun ev => p ev = false) m s ->
  (forall a s1, wp (k a) s1 (fun _ _ evs => (count p evs <= n)%nat)) ->
  wp (bind m k) s (fun _ _ evs => (count p evs <= n)%nat).
Proof.
  intros [_ Hm] Hk. apply wp_bind. unfold wp at 1.
  destruct (m s) as [[a|e] s1 evs1]; cbn [res final events] in *.
  - eapply wp_mono; [apply Hk|]. cbn beta. intros _ _ evs2 H.
    rewrite count_app, (count_none p evs1 Hm). exact H.
  - rewrite (count_none p evs1 Hm). lia.
Qed.

(** A computation that is counted, before events that the test
    rejects. *)
Lemma then_quiet {A B} (p : event -> bool) (n : nat) (m : M World A)
    (k : A -> M World B) s :
  wp m s (fun _ _ evs => (count p evs <= n)%nat) ->
  (forall a s1, keeps (fun _ => True) (fun ev => p ev = false) (k a) s1) ->
  wp (bind m k) s (fun _ _ evs => (count p evs <= n)%nat).
Proof.
  intros Hm Hk. apply wp_bind. unfold wp at 1. unfold wp in Hm.
  destruct (m s) as [[a|e] s1 evs1]; cbn [res final events] in *; [|exact Hm].
  destruct (Hk a s1) as [_ H]. unfold wp.
  rewrite count_app, (count_none p _ H). lia.
Qed.

(** Events that a test rejects, before a computation whose result
    matters when the test accepts one of its events. *)
Lemma quiet_before {A B} (p : event -> bool) (T : result B -> Prop)
    (m : M World A) (k : A -> M World B) s :
  keeps (fun _ => True) (fun ev => p ev = false) m s ->
  (forall a s1, wp (k a) s1 (fun r _ evs => (0 < count p evs)%nat -> T r)) ->
  wp (bind m k) s (fun r _ evs => (0 < count p evs)%nat -> T r).
Proof.
  intros [_ Hm] Hk. apply wp_bind. unfold wp at 1.
  destruct (m s) as [[a|e] s1 evs1]; cbn [res final events] in *.
  - eapply wp_mono; [apply Hk|]. cbn beta. intros r _ evs2 H.
    rewrite count_app, (count_none p evs1 Hm). exact H.
  - rewrite (count_none p evs1 Hm). lia.
Qed.

(** The result of a computation, by the result of its first part. *)
Lemma wp_post_bind {A B} (Q : A -> Prop) (R : result B -> Prop)
    (m : M World A) (k : A -> M World B) s :
  wp m s (fun r _ _ => forall a, r = Ok a -> Q a) ->
  (forall e, R (Raise e)) ->
  (forall a s1, Q a -> wp (k a) s1 (fun r _ _ => R r)) ->
  wp (bind m k) s (fun r _ _ => R r).
Proof.
  intros Hm Hraise Hk. apply wp_bind. unfold wp at 1. unfold wp in Hm.
  destruct (m s) as [[a|e] s1 evs1]; cbn [res final events] in *.
  - eapply wp_mono; [apply Hk; now apply Hm|]. auto.
  - apply Hraise.
Qed.

Lemma wp_result_bind {A B} (R : result B -> Prop)
    (m : M World A) (k : A -> M World B) s :
  (forall e, R (Raise e)) ->
  (forall a s1, wp (k a) s1 (fun r _ _ => R r)) ->
  wp (bind m k) s (fun r _ _ => R r).
Proof.
  intros Hraise Hk. apply (wp_post_bind (fun _ => True)); auto.
  unfold wp. auto.
Qed.

Lemma init_event_passive ev : init_event ev -> passive ev = true.
Proof. destruct ev as [[]| | | | | | | | |]; cbn; intros H; first [reflexivity | destruct H]. Qed.

Lemma init_event_no_click ev : init_event ev -> is_click ev = false.
Proof. destruct ev as [[]| | | | | | | | |]; cbn; intros H; first [reflexivity | destruct H]. Qed.

Lemma init_event_no_error ev : init_event ev -> execution_error ev = false.
Proof. destruct ev as [[]| | | | | | | | |]; cbn; intros H; first [reflexivity | destruct H]. Qed.

Lemma attempt_event_no_error c ev : attempt_event c ev -> execution_error ev = false.
Proof. destruct ev as [[]| | | | | | | | |]; cbn; intros H; first [reflexivity | destruct H]. Qed.

Lemma debug_images_keeps (P : event -> Prop) cfg s :
  (forall ev, init_event ev -> P ev) ->
  (forall t r, P (ESleep t r)) ->
  (forall r, P (ESize r)) ->
  (forall r, P (EScreenshot r)) ->
  (forall img c r, P (ELocate img (Some c) r)) ->
  keeps (fun _ => True) P (debug_images cfg) s.
Proof.
  intros Hinit Hsleep Hsize Hshot Hlocate.
  unfold debug_images, debug_button, pyautogui_size, time_sleep,
    pyautogui_screenshot_size.
  cbn [try_confidences]. unfold pyautogui_locateOnScreen.
  repeat keeps_step.
  all: try exact Logic.I.
  all: try (apply init_keeps; exact Hinit).
  all: auto.
Qed.

(** X16. [debug_images] only looks: it never moves the pointer, never
    clicks, and never looks up without a confidence. *)
Theorem debug_images_is_passive cfg s :
  let o := debug_images cfg s in
  count is_move (events o) = 0%nat /\
  count is_click (events o) = 0%nat /\
  count exact_lookup (events o) = 0%nat.
Proof.
  cbn zeta.
  destruct (debug_images_keeps (fun ev => passive ev = true) cfg s) as [_ H];
    try (intros; reflexivity); [exact init_event_passive|].
  repeat split; apply count_none; eapply Forall_impl; try exact H;
    intros ev Hev; unfold passive in Hev;
    destruct (is_move ev), (is_click ev), (exact_lookup ev);
    try reflexivity; discriminate Hev.
Qed.

(** X17. [test_single_click] clicks at most once. *)
Theorem test_single_click_clicks_at_most_once cfg s :
  (count is_click (events (test_single_click cfg s)) <= 1)%nat.
Proof.
  enough (H : wp (test_single_click cfg) s
                (fun _ _ evs => (count is_click evs <= 1)%nat)) by exact H.
  unfold test_single_click, pyautogui_size, time_sleep, pyautogui_screenshot_size.
  apply quiet_then; [keeps_step; exact Logic.I | intros _ s1].
  apply quiet_then; [keeps_step; [exact Logic.I | reflexivity] | intros _ s2].
  apply quiet_then; [apply init_keeps; exact init_event_no_click | intros _ s3].
  apply quiet_then; [keeps_step; [exact Logic.I | reflexivity] | intros _ s4].
  apply quiet_then; [keeps_step; [exact Logic.I | reflexivity] | intros _ s5].
  apply quiet_then; [keeps_step; exact Logic.I | intros _ s6].
  apply wp_bind, wp_get. cbn beta iota.
  apply then_quiet.
  - eapply wp_mono; [apply find_and_click_shape|]. cbn beta.
    intros r s' evs H. now apply attempt_shape_parts in H.
  - intros r s7. repeat keeps_step; first [exact Logic.I | reflexivity].
Qed.

Lemma run_rounds_returns fuel s : exists st, res (run_rounds fuel s) = Ok st.
Proof.
  destruct (run_rounds_report fuel s) as [_ H]. cbn zeta in H.
  destruct (res _) as [u|[|e]]; destruct H as [-> _]; eauto.
Qed.

Lemma loop_event_no_error c ev : loop_event c ev -> execution_error ev = false.
Proof. destruct ev as [[]| | | | | | | | |]; cbn; intros H; first [reflexivity | destruct H]. Qed.

(** The line of the error is the last word of [run_rounds]. *)
Lemma run_rounds_error_returned fuel s :
  (0 < count execution_error (events (run_rounds fuel s)))%nat ->
  res (run_rounds fuel s) = Ok Returned.
Proof.
  destruct (run_rounds_report fuel s) as [_ H]. cbn zeta in H.
  pose proof (run_body_keeps fuel s) as [_ HP].
  destruct (res _) as [u|[|e]]; destruct H as [-> He]; try reflexivity.
  rewrite He, (count_none execution_error); [lia|].
  eapply Forall_impl; [apply loop_event_no_error | exact HP].
Qed.

(** The routines that run once return 0. *)
Lemma process_argument_one_shot p arg rest cfg s :
  one_shot (p :: arg :: rest) = true ->
  wp (process_argument arg cfg) s (fun r _ _ => forall d, r = Ok d -> d = Exit 0).
Proof.
  unfold one_shot. rewrite !orb_true_iff, !String.eqb_eq.
  intros [[->| ->]| ->].
  - change (process_argument "--debug" cfg)
      with (bind (debug_images (Config.set_debug_mode true cfg))
              (fun _ => @ret World _ (Exit 0))).
    apply (wp_result_bind (fun r => forall d, r = Ok d -> d = Exit 0));
      [intros e d Hd; discriminate Hd | intros _ s1].
    apply wp_ret. now intros d [= <-].
  - change (process_argument "--test-click" cfg)
      with (bind (test_single_click (Config.set_debug_mode true cfg))
              (fun _ => @ret World _ (Exit 0))).
    apply (wp_result_bind (fun r => forall d, r = Ok d -> d = Exit 0));
      [intros e d Hd; discriminate Hd | intros _ s1].
    apply wp_ret. now intros d [= <-].
  - change (process_argument "--check-screen" cfg)
      with (bind check_screen_dimensions (fun _ => @ret World _ (Exit 0))).
    apply (wp_result_bind (fun r => forall d, r = Ok d -> d = Exit 0));
      [intros e d Hd; discriminate Hd | intros _ s1].
    apply wp_ret. now intros d [= <-].
Qed.

(** The other arguments only decide: nothing is done on the desktop. *)
Lemma process_argument_decides p arg rest cfg s :
  one_shot (p :: arg :: rest) = false ->
  exists d,
    process_argument arg cfg s = mkOutcome (Ok d) s [] /\
    (d = Exit 1 \/ exists cfg', d = Run cfg').
Proof.
  unfold one_shot. rewrite !orb_false_iff. intros [[Hd Ht] Hc].
  unfold process_argument. rewrite Hd, Ht, Hc.
  repeat match goal with
         | |- context [if ?b then _ else _] => destruct b
         | |- context [match ?x with Some _ => _ | None => _ end] => destruct x
         end.
  all: eexists; split; [reflexivity|]; eauto.
Qed.

(** Events that a test accepts, before a computation of which either
    the result is good, or the events pass the same test. *)
Lemma quiet_until {A B} (P : event -> Prop) (G H : result B -> Prop)
    (m : M World A) (k : A -> M World B) s :
  (forall e, H (Raise e)) ->
  keeps (fun _ => True) P m s ->
  (forall a s1, wp (k a) s1 (fun r _ evs => G r \/ (H r /\ Forall P evs))) ->
  wp (bind m k) s (fun r _ evs => G r \/ (H r /\ Forall P evs)).
Proof.
  intros HH [_ Hm] Hk. apply wp_bind. unfold wp at 1.
  destruct (m s) as [[a|e] s1 evs1]; cbn [res final events] in *.
  - eapply wp_mono; [apply Hk|]. cbn beta. intros r _ evs2 [HG|[Hr H2]]; [now left|].
    right. split; [exact Hr|]. now apply Forall_app.
  - right. split; [apply HH | exact Hm].
Qed.

Lemma init_event_startup ev : init_event ev -> startup_event ev.
Proof. destruct ev as [[]| | | | | | | | |]; cbn; auto. Qed.

(** [main] once the first argument has sent it to the loop. *)
Lemma main_loop_mode cfg fuel s :
  wp (bind (time_sleep (Int (Config.startup_delay cfg))) (fun _ =>
      bind (__init__ cfg) (fun _ =>
      bind (run_rounds fuel) (fun st =>
      ret (match st with
           | Running => Looping
           | Returned => Exited 0
           end))))) s
     (fun r _ evs =>
        match r with
        | Ok Looping => True
        | Ok (Exited code) => code = 0
        | Raise _ => False
        end
        \/ (match r with
            | Ok Looping => False
            | Ok (Exited code) => code = 1
            | Raise _ => True
            end /\ Forall startup_event evs)).
Proof.
  unfold time_sleep.
  apply (quiet_until startup_event
           (fun r => match r with
                     | Ok Looping => True
                     | Ok (Exited code) => code = 0
                     | Raise _ => False
                     end)
           (fun r => match r with
                     | Ok Looping => False
                     | Ok (Exited code) => code = 1
                     | Raise _ => True
                     end)); [intros e; exact Logic.I | |].
  { keeps_step; [exact Logic.I | exact Logic.I]. }
  intros _ s1.
  apply quiet_until; [intros e; exact Logic.I | |].
  { apply init_keeps. exact init_event_startup. }
  intros _ s2. apply wp_bind. unfold wp at 1.
  destruct (run_rounds_returns fuel s2) as [st Hst].
  destruct (run_rounds fuel s2) as [r s3 evs3]. cbn [res final events] in *.
  subst r. apply wp_ret. left. now destruct st.
Qed.

(** X18. [main] returns 0 or 1 and lets no [Exception] escape.  With
    [--debug], [--test-click] or [--check-screen] it never enters the
    loop.  Otherwise it returns 1, or is left by a
    [KeyboardInterrupt], only before the loop: the desktop has then
    seen nothing but the wait of [startup_delay] and the calls of
    [__init__].  Once [run_rounds] has started, no interrupt and no
    error leaves [main]: it returns 0 when [run_rounds] returns. *)
Theorem main_exit_code argv cfg fuel s :
  let o := main argv cfg fuel s in
  match res o with
  | Ok Looping => one_shot argv = false
  | Ok (Exited code) =>
      code = 0
      \/ (code = 1 /\ (one_shot argv = true \/ Forall startup_event (events o)))
  | Raise KeyboardInterrupt =>
      one_shot argv = true \/ Forall startup_event (events o)
  | Raise (PyException _) => False
  end.
Proof.
  cbn zeta.
  enough (H : wp (main argv cfg fuel) s (fun r _ evs =>
    match r with
    | Ok Looping => one_shot argv = false
    | Ok (Exited code) =>
        code = 0 \/ (code = 1 /\ (one_shot argv = true \/ Forall startup_event evs))
    | Raise KeyboardInterrupt => one_shot argv = true \/ Forall startup_event evs
    | Raise (PyException _) => False
    end)) by exact H.
  unfold main. apply wp_try_except.
  destruct (one_shot argv) eqn:Hone.
  - (* the routines that run once *)
    destruct argv as [|p [|arg rest]]; try discriminate Hone.
    eapply wp_mono.
    + apply (wp_result_bind (fun r => match r with
                                      | Ok Looping => False
                                      | Ok (Exited code) => code = 0
                                      | Raise _ => True
                                      end)); [intros e; exact Logic.I|].
      intros _ s1.
      apply (wp_post_bind (fun d => d = Exit 0));
        [apply (process_argument_one_shot p arg rest); exact Hone
        |intros e; exact Logic.I|].
      intros d s2 ->. apply wp_ret. reflexivity.
    + cbn beta. intros [[|code]|[|e]] s' evs H; try destruct H; auto.
      apply wp_ret. right. auto.
  - (* the loop *)
    eapply wp_mono.
    + apply (quiet_until startup_event
               (fun r => match r with
                         | Ok Looping => True
                         | Ok (Exited code) => code = 0
                         | Raise _ => False
                         end)
               (fun r => match r with
                         | Ok Looping => False
                         | Ok (Exited code) => code = 1
                         | Raise _ => True
                         end)); [intros e; exact Logic.I | |].
      { keeps_step. exact Logic.I. }
      intros _ s1.
      assert (Hd : exists d,
                 match argv with
                 | _ :: arg :: _ => process_argument arg cfg
                 | _ => ret (Run cfg)
                 end s1 = mkOutcome (Ok d) s1 [] /\
                 (d = Exit 1 \/ exists cfg', d = Run cfg')).
      { destruct argv as [|p [|arg rest]];
          [exists (Run cfg); split; [reflexivity|eauto]
          |exists (Run cfg); split; [reflexivity|eauto]
          |apply (process_argument_decides p arg rest); exact Hone]. }
      destruct Hd as (d & Ed & Hd).
      eapply wp_bind_eq; [exact Ed|]. cbn beta iota.
      destruct Hd as [->|[cfg' ->]].
      * apply wp_ret. right. split; [reflexivity | constructor].
      * eapply wp_mono; [apply main_loop_mode|]. cbn beta. auto.
    + cbn beta. intros [[|code]|[|e]] s' evs [HG|[HH HP]];
        try destruct HG; try destruct HH; auto.
      apply wp_ret. rewrite app_nil_r. right. auto.
Qed.

Lemma process_argument_quiet arg cfg s :
  keeps (fun _ => True) (fun ev => execution_error ev = false)
    (process_argument arg cfg) s.
Proof.
  unfold process_argument, test_single_click, check_screen_dimensions, corners,
    pyautogui_size, time_sleep, pyautogui_screenshot_size.
  cbn [move_to_each]. unfold pyautogui_moveTo, time_sleep.
  repeat keeps_step.
  all: try exact Logic.I.
  all: try reflexivity.
  all: try (apply init_keeps; exact init_event_no_error).
  all: try (apply attempt_keeps; exact attempt_event_no_error).
  all: apply debug_images_keeps; try (intros; reflexivity).
  all: exact init_event_no_error.
Qed.

(** X19. A run whose loop has ended on an error still exits with 0:
    when the line "Error during execution" is in the transcript, [main]
    returns 0. *)
Theorem loop_error_exits_with_zero argv cfg fuel s e :
  In (ELog (LogExecutionError e)) (events (main argv cfg fuel s)) ->
  res (main argv cfg fuel s) = Ok (Exited 0).
Proof.
  intros Hin. apply (count_positive execution_error) in Hin; [|reflexivity].
  revert Hin.
  enough (H : wp (main argv cfg fuel) s (fun r _ evs =>
    (0 < count execution_error evs)%nat -> r = Ok (Exited 0))) by exact H.
  unfold main. apply wp_try_except.
  eapply wp_mono.
  - apply (quiet_before execution_error (fun r => r = Ok (Exited 0)));
      [keeps_step; exact Logic.I | intros _ s1].
    apply quiet_before.
    { destruct argv as [|p [|arg rest]];
        [apply keeps_ret; exact Logic.I
        |apply keeps_ret; exact Logic.I
        |apply process_argument_quiet]. }
    intros [code|cfg'] s2.
    { apply wp_ret. cbn. lia. }
    unfold time_sleep.
    apply quiet_before; [keeps_step; [exact Logic.I|reflexivity] | intros _ s3].
    apply quiet_before; [apply init_keeps; exact init_event_no_error | intros _ s4].
    apply wp_bind. unfold wp at 1.
    pose proof (run_rounds_error_returned fuel s4) as Hret.
    destruct (run_rounds fuel s4) as [r s5 evs5]. cbn [res final events] in *.
    destruct r as [st|ex].
    + apply wp_ret. rewrite app_nil_r. intros Hpos.
      specialize (Hret Hpos). injection Hret as ->. reflexivity.
    + intros Hpos. discriminate (Hret Hpos).
  - cbn beta. intros [code|[|e']] s' evs H; try exact H.
    apply wp_ret. rewrite app_nil_r. intros Hpos. discriminate (H Hpos).
Qed.

End EntryPoints.

Section SafeMode.

Context {World : Type} {desktop : Desktop World} {runtime : Runtime World}.

Implicit Types (s : State World) (evs : list event).

Lemma loop_event_uses_confidence c ev : loop_event c ev -> uses_confidence c ev.
Proof. destruct ev as [[]| |?|? [?|] ?| | | | | |]; cbn; tauto. Qed.

Lemma init_event_uses_confidence c ev : init_event ev -> uses_confidence c ev.
Proof. destruct ev as [[]| |?|? [?|] ?| | | | | |]; cbn; tauto. Qed.

(** A transcript that satisfies a test, part by part. *)
Lemma forall_bind {A B} (P : event -> Prop) (m : M World A) (k : A -> M World B) s :
  wp m s (fun r s1 evs1 =>
            Forall P evs1 /\
            forall a, r = Ok a -> wp (k a) s1 (fun _ _ evs => Forall P evs)) ->
  wp (bind m k) s (fun _ _ evs => Forall P evs).
Proof.
  intros H. apply wp_bind. unfold wp at 1. unfold wp at 1 in H.
  destruct (m s) as [[a|e] s1 evs1]; cbn [res final events] in *;
    destruct H as [H1 H2]; [|exact H1].
  eapply wp_mono; [exact (H2 a eq_refl)|]. cbn beta.
  intros _ _ evs2 H. now apply Forall_app.
Qed.

(** The lookups of a run that starts from an object with the
    configuration [cfg]. *)
Lemma run_rounds_confidence fuel s :
  Forall (uses_confidence (confidence_of (self s))) (events (run_rounds fuel s)).
Proof.
  destruct (run_rounds_keeps fuel s) as (_ & evs & HP & Hevs).
  assert (H : Forall (uses_confidence (confidence_of (self s))) evs)
    by (eapply Forall_impl; [apply loop_event_uses_confidence | exact HP]).
  destruct Hevs as [->|[->|[e ->]]]; [exact H| |];
    apply Forall_app; (split; [exact H|]); repeat constructor.
Qed.

(** X20. With [--safe] as the first argument, every lookup of the run
    that gives a confidence gives 0.7. *)
Theorem safe_mode_confidence p rest cfg fuel s img c r :
  In (ELocate img (Some c) r) (events (main (p :: "--safe" :: rest) cfg fuel s)) ->
  c = Float.lit 7 10.
Proof.
  intros Hin.
  enough (H : wp (main (p :: "--safe" :: rest) cfg fuel) s
                (fun _ _ evs => Forall (uses_confidence (Float.lit 7 10)) evs)).
  { unfold wp in H. rewrite Forall_forall in H. exact (H _ Hin). }
  clear Hin. unfold main. cbn iota.
  change (process_argument "--safe" cfg)
    with (@ret World _ (Run (Config.set_confidence_threshold (Float.lit 7 10) cfg))).
  apply wp_try_except. eapply wp_mono.
  - apply (forall_bind (uses_confidence (Float.lit 7 10))), wp_unrecorded.
    intros r0 w0 _. split; [constructor|]. intros u0 _.
    apply wp_bind, wp_ret. cbn beta iota.
    unfold time_sleep. apply forall_bind, wp_call. intros r1 w1 _.
    split; [repeat constructor|]. intros u1 _.
    apply forall_bind.
    eapply wp_mono; [apply init_outcome|]. cbn beta.
    intros r2 s2 evs2 [Hinit Hcfg].
    split; [eapply Forall_impl; [apply init_event_uses_confidence|exact Hinit]|].
    intros u ->. specialize (Hcfg u eq_refl).
    apply forall_bind. unfold wp at 1.
    pose proof (run_rounds_confidence fuel s2) as Hrun.
    unfold confidence_of in Hrun. rewrite Hcfg in Hrun.
    split; [exact Hrun|]. intros st _. apply wp_ret. constructor.
  - cbn beta. intros [code|[|e]] s' evs H; try exact H.
    apply wp_ret. now rewrite app_nil_r.
Qed.

End SafeMode.

Section NumRounds.

Context {World : Type} {desktop : Desktop World} {runtime : Runtime World}.

Implicit Types (s : State World) (evs : list event).

Variable n : Z.

Lemma ignores_ret {A} (a : A) s : ignores_num_rounds n (ret a) s.
Proof. reflexivity. Qed.

Lemma ignores_raise {A} e s : ignores_num_rounds n (@raise World A e) s.
Proof. reflexivity. Qed.

Lemma ignores_lift {A} (r : result A) s : ignores_num_rounds n (lift r) s.
Proof. reflexivity. Qed.

Lemma ignores_logger l s : ignores_num_rounds n (logger l) s.
Proof. reflexivity. Qed.

Lemma ignores_modify g s :
  g (retarget n s) = retarget n (g s) -> ignores_num_rounds n (modify g) s.
Proof. intros E. unfold ignores_num_rounds, modify, in_state. cbn. now rewrite E. Qed.

Lemma ignores_call {A} (op : World -> result A * World) ev s :
  ignores_num_rounds n (call op ev) s.
Proof.
  unfold ignores_num_rounds, call, in_state. cbn [world retarget with_self].
  destruct (op (world s)) as [r w]. reflexivity.
Qed.

Lemma ignores_bind {A B} (m : M World A) (k : A -> M World B) s :
  ignores_num_rounds n m s ->
  (forall a s1, ignores_num_rounds n (k a) s1) ->
  ignores_num_rounds n (bind m k) s.
Proof.
  unfold ignores_num_rounds, bind. intros Hm Hk. rewrite Hm.
  destruct (m s) as [[a|e] s1 evs1]; cbn; [|reflexivity].
  rewrite Hk. destruct (k a s1) as [r s2 evs2]. reflexivity.
Qed.

Lemma ignores_get {A} (k : State World -> M World A) s :
  k (retarget n s) = k s ->
  ignores_num_rounds n (k s) s ->
  ignores_num_rounds n (bind get k) s.
Proof.
  unfold ignores_num_rounds, bind, get. intros E H. rewrite E, H.
  destruct (k s s) as [r s2 evs2]. reflexivity.
Qed.

Lemma ignores_try {A} (body : M World A) handler s :
  ignores_num_rounds n body s ->
  (forall e s1, ignores_num_rounds n (handler e) s1) ->
  ignores_num_rounds n (try_except body handler) s.
Proof.
  unfold ignores_num_rounds, try_except. intros Hm Hk. rewrite Hm.
  destruct (body s) as [[a|[|e]] s1 evs1]; cbn; try reflexivity.
  rewrite Hk. destruct (handler e s1) as [r s2 evs2]. reflexivity.
Qed.

End NumRounds.

(** One step through a computation that does not read
    [Config.num_rounds]. *)
Ltac ignores_step :=
  lazymatch goal with
  | |- ignores_num_rounds _ (bind get _) _ => apply ignores_get; [reflexivity|]
  | |- ignores_num_rounds _ (bind _ _) _ => apply ignores_bind; [|intros ? ?]
  | |- ignores_num_rounds _ (try_except _ _) _ => apply ignores_try; [|intros ? ?]
  | |- ignores_num_rounds _ (ret _) _ => apply ignores_ret
  | |- ignores_num_rounds _ (raise _) _ => apply ignores_raise
  | |- ignores_num_rounds _ (lift _) _ => apply ignores_lift
  | |- ignores_num_rounds _ (modify _) _ => apply ignores_modify; reflexivity
  | |- ignores_num_rounds _ (logger _) _ => apply ignores_logger
  | |- ignores_num_rounds _ (call _ _) _ => apply ignores_call
  | |- ignores_num_rounds _ (attr _ ?o) _ => unfold attr; destruct o
  | |- ignores_num_rounds _ (if ?b then _ else _) _ => destruct b
  | |- ignores_num_rounds _ (match ?x with _ => _ end) _ => destruct x
  end; cbn beta iota.

Section RoundsFlag.

Context {World : Type} {desktop : Desktop World} {runtime : Runtime World}.

Implicit Types (s : State World) (evs : list event).

Variable n : Z.

Lemma find_and_click_ignores image description alt s :
  ignores_num_rounds n (find_and_click image description alt) s.
Proof.
  unfold find_and_click, find_and_click_body, locate, pyautogui_locateOnScreen,
    save_debug_screen, pyautogui_size, pyautogui_moveTo, pyautogui_click,
    time_sleep, _debug_click_position.
  repeat ignores_step.
Qed.

Lemma click_end_button_ignores s : ignores_num_rounds n click_end_button s.
Proof.
  unfold click_end_button. apply ignores_get; [reflexivity|].
  apply ignores_bind; [apply find_and_click_ignores|]. intros end_clicked s1.
  destruct (_ && _); [apply find_and_click_ignores | apply ignores_ret].
Qed.

Lemma click_start_button_ignores s : ignores_num_rounds n click_start_button s.
Proof.
  unfold click_start_button. apply ignores_get; [reflexivity|].
  apply find_and_click_ignores.
Qed.

Lemma initial_check_ignores s : ignores_num_rounds n initial_check s.
Proof.
  unfold initial_check, time_sleep.
  apply ignores_bind; [apply click_end_button_ignores|]. intros end_found s1.
  apply ignores_get; [reflexivity|]. destruct end_found.
  - repeat ignores_step.
  - apply ignores_bind; [apply click_start_button_ignores|]. intros start_found s2.
    repeat ignores_step.
Qed.

Lemma loop_body_ignores s : ignores_num_rounds n loop_body s.
Proof.
  unfold loop_body. apply ignores_get; [reflexivity|].
  destruct (looking_for_end_button s).
  - apply ignores_bind; [apply click_end_button_ignores|]. intros end_clicked s1.
    unfold time_sleep. repeat ignores_step.
  - apply ignores_bind; [apply click_start_button_ignores|]. intros start_clicked s1.
    unfold center_click, pyautogui_moveTo, pyautogui_click, time_sleep.
    repeat ignores_step.
Qed.

Lemma main_loop_ignores fuel : forall s, ignores_num_rounds n (main_loop fuel) s.
Proof.
  induction fuel as [|fuel IH]; intros s; cbn [main_loop].
  - apply ignores_ret.
  - apply ignores_bind; [apply loop_body_ignores|]. intros _ s1. apply IH.
Qed.

Lemma run_rounds_ignores fuel s : ignores_num_rounds n (run_rounds fuel) s.
Proof.
  unfold run_rounds.
  apply ignores_bind; [apply ignores_modify; reflexivity|]. intros _ s1.
  apply ignores_bind; [apply ignores_modify; reflexivity|]. intros _ s2.
  unfold ignores_num_rounds.
  assert (H : ignores_num_rounds n (bind initial_check (fun _ => main_loop fuel)) s2).
  { apply ignores_bind; [apply initial_check_ignores|]. intros _ s3.
    apply main_loop_ignores. }
  unfold ignores_num_rounds in H. rewrite H.
  destruct (bind initial_check (fun _ => main_loop fuel) s2) as [[u|[|e]] s3 evs3];
    reflexivity.
Qed.

(** X22. [run_rounds] does not read [Config.num_rounds]: from an
    object whose configuration asks for another number of rounds, the
    run returns the same, leaves the same transcript and counts the
    same rounds. *)
Theorem run_ignores_num_rounds fuel s :
  res (run_rounds fuel (retarget n s)) = res (run_rounds fuel s) /\
  events (run_rounds fuel (retarget n s)) = events (run_rounds fuel s) /\
  rounds_completed (final (run_rounds fuel (retarget n s)))
  = rounds_completed (final (run_rounds fuel s)).
Proof.
  pose proof (run_rounds_ignores fuel s) as H. unfold ignores_num_rounds in H.
  rewrite H. repeat split.
Qed.

(** Two computations that start in the same way. *)
Lemma same_run_head {A B} (m : M World A) (k' k : A -> M World B) s :
  (forall a s1, same_run n (k' a s1) (k a s1)) ->
  same_run n (bind m k' s) (bind m k s).
Proof.
  intros Hk. unfold bind. destruct (m s) as [[a|e] s1 evs1].
  - destruct (Hk a s1) as (Hr & He & Hf).
    destruct (k' a s1) as [r' s2' evs2'], (k a s1) as [r s2 evs2].
    cbn [res final events] in *. subst. repeat split. exact Hf.
  - repeat split. intros a Ha. discriminate Ha.
Qed.

(** Two assignments that differ in [Config.num_rounds], before a
    computation that does not read it. *)
Lemma same_run_modify {B} (g' g : State World -> State World)
    (k' k : unit -> M World B) s :
  g' s = retarget n (g s) ->
  k' tt = k tt ->
  (forall s1, ignores_num_rounds n (k tt) s1) ->
  same_run n (bind (modify g') k' s) (bind (modify g) k s).
Proof.
  intros Eg Ek Hk. unfold bind, modify. rewrite Eg, Ek, Hk.
  destruct (k tt (g s)) as [r s2 evs2]. repeat split.
Qed.

(** Two runs that agree, before a computation that does not read
    [Config.num_rounds]. *)
Lemma same_run_bind {A B} (m' m : M World A) (k : A -> M World B) s :
  same_run n (m' s) (m s) ->
  (forall a s1, ignores_num_rounds n (k a) s1) ->
  same_run n (bind m' k s) (bind m k s).
Proof.
  intros (Hr & He & Hf) Hk. unfold bind.
  destruct (m' s) as [r' s1' evs1'], (m s) as [r s1 evs1].
  cbn [res final events] in *. subst r' evs1'.
  destruct r as [a|e]; [|repeat split; intros a Ha; discriminate Ha].
  rewrite (Hf a eq_refl), Hk.
  destruct (k a s1) as [r s2 evs2]. repeat split.
Qed.

Lemma same_run_ret {A B} (a' a : A) (k : A -> M World B) s :
  same_run n (k a' s) (k a s) ->
  same_run n (bind (ret a') k s) (bind (ret a) k s).
Proof.
  unfold bind, ret. intros (Hr & He & Hf).
  destruct (k a' s) as [r' s2' evs2'], (k a s) as [r s2 evs2].
  cbn [res final events] in *. subst. repeat split. exact Hf.
Qed.

(** [__init__] reads [Config.num_rounds] nowhere: it only stores the
    configuration. *)
Lemma init_same_run cfg s :
  same_run n (__init__ (set_num_rounds n cfg) s) (__init__ cfg s).
Proof.
  unfold __init__. apply same_run_head. intros [w h] s1.
  apply same_run_modify; [reflexivity | reflexivity |]. intros s2.
  unfold _verify_screen_dimensions, prepare_scaled_images, scaled_image,
    pyautogui_screenshot_size.
  repeat ignores_step.
Qed.

(** X21. The flag [--rounds=N] changes nothing: with a number that
    [int()] accepts, [main] returns what it returns without the flag
    and leaves the same transcript.  The flag writes
    [Config.num_rounds], which nothing reads. *)
Theorem rounds_flag_changes_nothing p text number rest cfg fuel s :
  nth_error (split_on "="%char ("--rounds=" ++ text)) 1 = Some number ->
  parse_int number = Some n ->
  res (main (p :: ("--rounds=" ++ text) :: rest) cfg fuel s) = res (main [p] cfg fuel s) /\
  events (main (p :: ("--rounds=" ++ text) :: rest) cfg fuel s)
  = events (main [p] cfg fuel s).
Proof.
  intros Hnth Hparse.
  assert (E : process_argument ("--rounds=" ++ text) cfg
              = @ret World _ (Run (set_num_rounds n cfg))).
  { unfold process_argument.
    change (String.eqb ("--rounds=" ++ text) "--debug") with false.
    change (String.eqb ("--rounds=" ++ text) "--safe") with false.
    change (String.eqb ("--rounds=" ++ text) "--resize") with false.
    change (String.eqb ("--rounds=" ++ text) "--region") with false.
    change (String.eqb ("--rounds=" ++ text) "--test-click") with false.
    change (String.eqb ("--rounds=" ++ text) "--check-screen") with false.
    change (String.prefix "--scale=" ("--rounds=" ++ text)) with false.
    replace (String.prefix "--rounds=" ("--rounds=" ++ text)) with true
      by (cbn; now destruct text).
    cbv iota. rewrite Hnth, Hparse. reflexivity. }
  assert (H : same_run n
                (bind (unrecorded (mkdir (Config.images_dir cfg))) (fun _ =>
                 bind (process_argument ("--rounds=" ++ text) cfg) (fun d =>
                 match d with
                 | Exit code => ret (Exited code)
                 | Run cfg =>
                     bind (time_sleep (Int (Config.startup_delay cfg))) (fun _ =>
                     bind (__init__ cfg) (fun _ =>
                     bind (run_rounds fuel) (fun st =>
                     ret (match st with
                          | Running => Looping
                          | Returned => Exited 0
                          end))))
                 end)) s)
                (bind (unrecorded (mkdir (Config.images_dir cfg))) (fun _ =>
                 bind (ret (Run cfg)) (fun d =>
                 match d with
                 | Exit code => ret (Exited code)
                 | Run cfg =>
                     bind (time_sleep (Int (Config.startup_delay cfg))) (fun _ =>
                     bind (__init__ cfg) (fun _ =>
                     bind (run_rounds fuel) (fun st =>
                     ret (match st with
                          | Running => Looping
                          | Returned => Exited 0
                          end))))
                 end)) s)).
  { rewrite E. apply same_run_head. intros _ s1.
    apply same_run_ret. cbn iota.
    change (Config.startup_delay (set_num_rounds n cfg))
      with (Config.startup_delay cfg).
    apply same_run_head. intros _ s2.
    apply same_run_bind; [apply init_same_run|]. intros _ s3.
    apply ignores_bind; [apply run_rounds_ignores|]. intros st s4.
    apply ignores_ret. }
  destruct H as (Hr & He & _).
  unfold main, try_except.
  match type of Hr with
  | res ?o' = res ?o =>
      change (res o' = res o) in Hr; change (events o' = events o) in He;
      destruct o' as [r' s1' evs1'], o as [r s1 evs1]
  end.
  cbn [res final events] in Hr, He. subst r' evs1'.
  destruct r as [code|[|e]]; cbn; split; reflexivity.
Qed.

End RoundsFlag.

(** * The further properties on concrete desktops *)

Section MoreExamples.

Import Static.
Import StaticRuntime.

(** On a desktop that shows the start button, the click of the attempt
    comes after the match and the move. *)
Lemma click_needs_match_and_move_witness :
  let s := state (clicker 1920 1080 Float.one Float.one None) false
             (with_start (mkBox 100 100 50 50)) in
  let o := find_and_click start "start button" None s in
  In (EClick (Ok tt)) (events o) /\
  exists x y location img c,
    In (EMoveTo x y (Ok tt)) (events o) /\
    In (ELocate img c (Ok (Some location))) (events o).
Proof.
  cbn zeta.
  assert (Hin : In (EClick (Ok tt))
                  (events (find_and_click start "start button" None
                             (state (clicker 1920 1080 Float.one Float.one None) false
                                (with_start (mkBox 100 100 50 50))))))
    by (vm_compute; find_event).
  split; [exact Hin|].
  exact (click_needs_match_and_move (desktop := desktop) _ _ _ _ _ Hin).
Defined.

(** With an alternative image, the alternative is looked up after the
    end button was not found. *)
Lemma alternative_only_after_primary_miss_witness :
  let s := state (clicker 1920 1080 Float.one Float.one None) false idle in
  let image := "images/end_button.png" in
  let alt := "images/end_button_alt.png" in
  let o := find_and_click image "end button" (Some alt) s in
  In (ELocate alt (Some (Float.lit 8 10)) (Ok None)) (events o) /\
  (alt = image \/
   (Some alt = Some alt /\ exists c', In (ELocate image c' (Ok None)) (events o))).
Proof.
  cbn zeta.
  assert (Hin : In (ELocate "images/end_button_alt.png" (Some (Float.lit 8 10)) (Ok None))
                  (events (find_and_click "images/end_button.png" "end button"
                             (Some "images/end_button_alt.png")
                             (state (clicker 1920 1080 Float.one Float.one None)
                                false idle))))
    by (vm_compute; find_event).
  split; [exact Hin|].
  exact (alternative_only_after_primary_miss (desktop := desktop) _ _ _ _ _ _ _ Hin).
Defined.

(** A desktop that reports 1920x0 and captures 3840x2160: the
    horizontal factor becomes 2.0, the vertical one stays 1.0, and the
    stored size stays 1920x0. *)
Lemma zero_height_updates_one_factor_witness :
  let s := state (clicker 1920 0 Float.one Float.one None) false
             (hidpi (mkBox 0 0 10 10)) in
  let o := _verify_screen_dimensions s in
  res o = Ok tt /\
  final o = with_self (set_scale_factor_x (Float.lit 2 1))
              (with_world (hidpi (mkBox 0 0 10 10)) s) /\
  events o = [EScreenshot (Ok (3840, 2160)); ELog (LogVerifyError "division by zero")].
Proof.
  cbn zeta.
  apply (zero_height_updates_one_factor (desktop := desktop) _ 3840 2160
           (hidpi (mkBox 0 0 10 10)) (Float.lit 2 1)).
  - reflexivity.
  - reflexivity.
  - reflexivity.
  - vm_compute. reflexivity.
Defined.

(** The lookups of a run on the idle desktop use 0.8, the confidence
    of the configuration. *)
Lemma run_uses_configured_confidence_witness :
  let s := state (clicker 1920 1080 Float.one Float.one None) false idle in
  In (ELocate start (Some (Float.lit 8 10)) (Ok None)) (events (run_rounds 1 s)) /\
  Float.lit 8 10
  = Config.getattr (Config.confidence_threshold (config (self s))) (Float.lit 9 10).
Proof.
  cbn zeta.
  assert (Hin : In (ELocate start (Some (Float.lit 8 10)) (Ok None))
                  (events (run_rounds 1
                             (state (clicker 1920 1080 Float.one Float.one None)
                                false idle))))
    by (vm_compute; find_event).
  split; [exact Hin|].
  exact (run_uses_configured_confidence (desktop := desktop) _ _ _ _ _ Hin).
Defined.

(** A turn on the idle desktop ends with a wait. *)
Lemma turn_ends_with_wait_witness :
  let s := state (clicker 1920 1080 Float.one Float.one None) false idle in
  let cfg := config (self s) in
  res (loop_body s) = Ok tt /\
  exists t,
    ends_with (events (loop_body s)) (ESleep (Int t) (Ok tt)) /\
    (t = Config.retry_delay cfg \/ t = Config.retry_delay cfg * 2 \/
     t = Config.between_rounds_wait_time cfg \/ t = Config.round_wait_time cfg).
Proof.
  cbn zeta.
  assert (Hres : res (loop_body (state (clicker 1920 1080 Float.one Float.one None)
                                   false idle)) = Ok tt)
    by (vm_compute; reflexivity).
  split; [exact Hres|].
  exact (turn_ends_with_wait (desktop := desktop) _ Hres).
Defined.

(** After three failed lookups the start button shows and is clicked:
    the counter still holds 3. *)
Lemma start_click_keeps_failure_count_witness :
  let s := state (clicker 1920 1080 Float.one Float.one (Some 3)) false
             (with_start (mkBox 100 100 50 50)) in
  let o := loop_body s in
  start_button_failures (self (final o)) = Some 3 /\
  looking_for_end_button (final o) = true /\
  rounds_completed (final o) = 0 /\
  events o = (events (click_start_button s) ++ [ESleep (Int 30) (res o)])%list.
Proof.
  cbn zeta.
  apply (start_click_keeps_failure_count (desktop := desktop)
           (state (clicker 1920 1080 Float.one Float.one (Some 3)) false
              (with_start (mkBox 100 100 50 50)))).
  - reflexivity.
  - vm_compute. reflexivity.
Defined.

(** On a HiDPI desktop that reports 1920x1080, the routine returns
    after five moves, the second of them to (3830, 10): a corner of the
    screenshot, outside the reported size. *)
Lemma check_screen_moves_by_screenshot_size_witness :
  let s := blank (hidpi (mkBox 0 0 10 10)) in
  let o := check_screen_dimensions s in
  res o = Ok tt /\
  move_targets (events o)
  = [(10, 10); (3830, 10); (10, 2150); (3830, 2150); (1920, 1080)] /\
  move_targets (events o) = corners 3840 2160 /\
  count is_click (events o) = 0%nat /\
  count is_lookup (events o) = 0%nat.
Proof.
  cbn zeta.
  assert (Hres : res (check_screen_dimensions (blank (hidpi (mkBox 0 0 10 10)))) = Ok tt)
    by (vm_compute; reflexivity).
  split; [exact Hres|]. split; [vm_compute; reflexivity|].
  destruct (check_screen_moves_by_screenshot_size (desktop := desktop)
              (runtime := runtime) (blank (hidpi (mkBox 0 0 10 10))) 3840 2160)
    as (_ & Hall & _ & Hclick & Hlookup).
  - vm_compute. find_event.
  - split; [exact (proj1 (Hall Hres))|]. split; [exact Hclick | exact Hlookup].
Defined.

(** A desktop that reports a width of 0. *)
Lemma check_screen_zero_width_witness :
  let w := mk (Ok (0, 1080)) (captured idle) (matcher idle) (pointer idle)
             (button idle) (clock idle) (files idle) in
  let o := check_screen_dimensions (blank w) in
  res o = Raise (PyException "division by zero") /\
  events o = [ESize (Ok (0, 1080)); EScreenshot (Ok (1920, 1080))].
Proof.
  cbn zeta.
  destruct (check_screen_zero_width (desktop := desktop) (runtime := runtime)
              (blank (mk (Ok (0, 1080)) (captured idle) (matcher idle) (pointer idle)
                        (button idle) (clock idle) (files idle)))
              1080
              (mk (Ok (0, 1080)) (captured idle) (matcher idle) (pointer idle)
                 (button idle) (clock idle) (files idle))
              1920 1080
              (mk (Ok (0, 1080)) (captured idle) (matcher idle) (pointer idle)
                 (button idle) (clock idle) (files idle))
              eq_refl eq_refl) as (Hres & _ & Hevs).
  split; [exact Hres | exact Hevs].
Defined.

(** On the idle desktop nothing is found: each miss is followed by
    the next lower confidence, and the search is over after the
    three lookups. *)
Lemma debug_button_falling_confidence_witness :
  let s := blank idle in
  let o := debug_button "start button" start s in
  events o
  = [ELocate start (Some (Float.lit 9 10)) (Ok None);
     ELocate start (Some (Float.lit 8 10)) (Ok None);
     ELocate start (Some (Float.lit 7 10)) (Ok None)] /\
  (forall e, res o <> Raise (PyException e)) /\
  (lookup_confidences (events o)
   = [Some (Float.lit 9 10); Some (Float.lit 8 10); Some (Float.lit 7 10)]
   \/ exists ev, ends_with (events o) ev /\ ends_search ev = true) /\
  (forall ev, In ev (events o) -> exists c r, ev = ELocate start c r).
Proof.
  cbn zeta. split; [vm_compute; reflexivity|].
  destruct (debug_button_falling_confidence (desktop := desktop) (runtime := runtime)
              (blank idle) "start button" start)
    as (Hsoft & _ & Hnext & Honly & _).
  - intros file w e w' H. discriminate H.
  - split; [exact Hsoft|]. split; [exact Hnext | exact Honly].
Defined.

(** A desktop without the image files: [__init__] reads the size,
    takes its screenshot, and raises the error with the path of the
    object. *)
Lemma init_needs_start_image_witness :
  let w := mk (reported idle) (captured idle) (matcher idle) (pointer idle)
             (button idle) (clock idle) (fun _ => false) in
  let o := __init__ (Config.cli_defaults Config.Config) (blank w) in
  events o = [ESize (Ok (1920, 1080)); EScreenshot (Ok (1920, 1080))] /\
  res o = Raise (PyException ("Start button image not found: "
                              ++ start_button_img (self (final o)))) /\
  match res o with
  | Ok _ => False
  | Raise KeyboardInterrupt => True
  | Raise (PyException e) =>
      e = "Start button image not found: " ++ start_button_img (self (final o))
      \/ events o = [ESize (Raise (PyException e))]
  end.
Proof.
  cbn zeta. split; [vm_compute; reflexivity|]. split; [vm_compute; reflexivity|].
  apply (init_needs_start_image (desktop := desktop) (Config.cli_defaults Config.Config)).
  - reflexivity.
  - vm_compute. reflexivity.
Defined.

(** An interrupt of the wait before the loop leaves [main]; an
    interrupt of the first lookup of the loop does not: [run_rounds]
    reports it and [main] returns 0. *)
Lemma main_exit_code_witness :
  let cfg := Config.cli_defaults Config.Config in
  let early := mk (reported idle) (captured idle) (matcher idle) (pointer idle)
                 (button idle) (Raise KeyboardInterrupt) (files idle) in
  let late := mk (reported idle) (captured idle) (fun _ _ => Raise KeyboardInterrupt)
                (pointer idle) (button idle) (clock idle) (files idle) in
  (res (main ["autorunner"] cfg 3 (blank early)) = Raise KeyboardInterrupt /\
   events (main ["autorunner"] cfg 3 (blank early))
   = [ESleep (Int 5) (Raise KeyboardInterrupt)] /\
   Forall startup_event (events (main ["autorunner"] cfg 3 (blank early)))) /\
  (res (main ["autorunner"] cfg 3 (blank late)) = Ok (Exited 0) /\
   In (ELog (LogInterrupted 0)) (events (main ["autorunner"] cfg 3 (blank late)))).
Proof.
  cbn zeta. split.
  - split; [vm_compute; reflexivity|]. split; [vm_compute; reflexivity|].
    pose proof (main_exit_code (desktop := desktop) (runtime := runtime)
                  ["autorunner"] (Config.cli_defaults Config.Config) 3
                  (blank (mk (reported idle) (captured idle) (matcher idle)
                            (pointer idle) (button idle) (Raise KeyboardInterrupt)
                            (files idle)))) as H.
    cbn zeta in H.
    assert (E : res (main ["autorunner"] (Config.cli_defaults Config.Config) 3
                       (blank (mk (reported idle) (captured idle) (matcher idle)
                                 (pointer idle) (button idle) (Raise KeyboardInterrupt)
                                 (files idle)))) = Raise KeyboardInterrupt)
      by (vm_compute; reflexivity).
    rewrite E in H. destruct H as [H|H]; [discriminate H | exact H].
  - split; [vm_compute; reflexivity | vm_compute; find_event].
Defined.

(** With a pointer that cannot be moved, the loop ends on the error of
    the click in the center of the screen, and [main] returns 0. *)
Lemma loop_error_exits_with_zero_witness :
  let o := main ["autorunner"] (Config.cli_defaults Config.Config) 5
             (blank stuck_pointer) in
  In (ELog (LogExecutionError "pointer device unavailable")) (events o) /\
  res o = Ok (Exited 0).
Proof.
  cbn zeta.
  assert (Hin : In (ELog (LogExecutionError "pointer device unavailable"))
                  (events (main ["autorunner"] (Config.cli_defaults Config.Config) 5
                             (blank stuck_pointer))))
    by (vm_compute; find_event).
  split; [exact Hin|].
  exact (loop_error_exits_with_zero (desktop := desktop) (runtime := runtime)
           _ _ _ _ _ Hin).
Defined.

(** [--safe] on the idle desktop: the end button is looked up with
    0.7. *)
Lemma safe_mode_confidence_witness :
  let o := main ["autorunner"; "--safe"] (Config.cli_defaults Config.Config) 1
             (blank idle) in
  In (ELocate "images/end_button.png" (Some (Float.lit 7 10)) (Ok None)) (events o) /\
  Float.lit 7 10 = Float.lit 7 10.
Proof.
  cbn zeta.
  assert (Hin : In (ELocate "images/end_button.png" (Some (Float.lit 7 10)) (Ok None))
                  (events (main ["autorunner"; "--safe"]
                             (Config.cli_defaults Config.Config) 1 (blank idle))))
    by (vm_compute; find_event).
  split; [exact Hin|].
  exact (safe_mode_confidence (desktop := desktop) (runtime := runtime)
           _ _ _ _ _ _ _ _ Hin).
Defined.

(** [--rounds=7] on a desktop that shows the end button: the run is
    the run without the flag. *)
Lemma rounds_flag_changes_nothing_witness :
  let cfg := Config.cli_defaults Config.Config in
  let s := blank (with_end (mkBox 100 100 50 50)) in
  res (main ["autorunner"; "--rounds=7"] cfg 2 s) = res (main ["autorunner"] cfg 2 s) /\
  events (main ["autorunner"; "--rounds=7"] cfg 2 s)
  = events (main ["autorunner"] cfg 2 s).
Proof.
  cbn zeta.
  apply (rounds_flag_changes_nothing (desktop := desktop) (runtime := runtime)
           7 "autorunner" "7" "7" []).
  - reflexivity.
  - reflexivity.
Defined.

End MoreExamples.
